(** * Negotiation agent template: buyer policy, mock seller and test loop

    A shallow embedding of [code.py].  Python integers are [Z]; Python
    floats are IEEE-754 binary64 values, modelled with the Standard
    Library's [spec_float] and its correctly rounded operations; Python
    exceptions are the [Raise] case of a small result monad.  Strings are
    byte strings, and [strip] and [lower] act on their ASCII characters. *)

From Stdlib Require Import ZArith List String Ascii Bool Lia Reals Lra Sorted.
From Stdlib Require Import SpecFloat DecimalString.
Import ListNotations.

Local Open Scope Z_scope.

(** ** Exceptions and the result monad *)

Inductive exn : Set :=
| OverflowError
| ValueError
| ZeroDivisionError
| TypeError
| IndexError.

Inductive result (A : Type) : Type :=
| Ok (a : A)
| Raise (e : exn).

Arguments Ok {A} a.
Arguments Raise {A} e.

Definition bind {A B : Type} (c : result A) (k : A -> result B) : result B :=
  match c with
  | Ok a => k a
  | Raise e => Raise e
  end.

Notation "x <- c ;; k" := (bind c (fun x => k))
  (at level 61, c at next level, right associativity).
Notation "' p <- c ;; k" := (bind c (fun p => k))
  (at level 61, p pattern, c at next level, right associativity).

(** ** Python numbers *)

Module Py.

(** binary64: 53 bits of precision, exponent of the infinities 1024. *)
Definition prec : Z := 53.
Definition emax : Z := 1024.

Definition float : Set := spec_float.

(** [float(n)] for an [int]: correctly rounded, [OverflowError] when the
    rounded value leaves the finite range. *)
Definition float_of_int (n : Z) : result float :=
  match binary_normalize prec emax n 0 false with
  | S754_infinity _ => Raise OverflowError
  | f => Ok f
  end.

(** [int(x)] for a [float]: truncation toward zero. *)
Definition int_of_float (x : float) : result Z :=
  match x with
  | S754_zero _ => Ok 0
  | S754_finite s m e => Ok (cond_Zopp s (Z.shiftl (Zpos m) e))
  | S754_infinity _ => Raise OverflowError
  | S754_nan => Raise ValueError
  end.

(** A decimal literal [num/den] (both below 2^53) is the double nearest
    to it, which is the correctly rounded quotient. *)
Definition literal (num den : Z) : float :=
  SFdiv prec emax (binary_normalize prec emax num 0 false)
                  (binary_normalize prec emax den 0 false).

(** [n * c] for an [int] [n] and a [float] [c]. *)
Definition mul_int_float (n : Z) (c : float) : result float :=
  x <- float_of_int n ;;
  Ok (SFmul prec emax x c).

(** [x * n] for a [float] [x] and an [int] [n]. *)
Definition mul_float_int (x : float) (n : Z) : result float :=
  y <- float_of_int n ;;
  Ok (SFmul prec emax x y).

(** [int(n * c)]. *)
Definition int_mul (n : Z) (c : float) : result Z :=
  x <- mul_int_float n c ;;
  int_of_float x.

(** [a / b] for two [int]s: the correctly rounded quotient. *)
Definition truediv (a b : Z) : result float :=
  if b =? 0 then Raise ZeroDivisionError
  else
    let '(q, e, l) := SFdiv_core_binary prec emax (Z.abs a) 0 (Z.abs b) 0 in
    match binary_round_aux prec emax (xorb (a <? 0) (b <? 0)) q e l with
    | S754_infinity _ => Raise OverflowError
    | f => Ok f
    end.

(** The exact comparison of an [int] with a [float]: the sign of
    [n - x], [None] when [x] is a NaN. *)
Definition compare_int_float (n : Z) (x : float) : option comparison :=
  match x with
  | S754_nan => None
  | S754_infinity s => Some (if s then Gt else Lt)
  | S754_zero _ => Some (n ?= 0)
  | S754_finite s m e =>
      let v := cond_Zopp s (Zpos m) in
      Some (if 0 <=? e then n ?= v * 2 ^ e else n * 2 ^ (- e) ?= v)
  end.

(** [n >= x] and [n <= x]. *)
Definition int_ge_float (n : Z) (x : float) : bool :=
  match compare_int_float n x with
  | Some (Gt | Eq) => true
  | _ => false
  end.

Definition int_le_float (n : Z) (x : float) : bool :=
  match compare_int_float n x with
  | Some (Lt | Eq) => true
  | _ => false
  end.

(** The value of a numeric field that holds an [int] on one path and a
    [float] on another. *)
Inductive num : Set :=
| Int (z : Z)
| Float (x : float).

(** [str(n)] as an f-string renders it.  CPython 3.11 and later refuse, by
    default, an [int] of more than 4300 digits ([ValueError]); that limit
    is not part of this model. *)
Definition str (n : Z) : string := NilZero.string_of_int (Z.to_int n).

(** *** The float literals of the source *)
Definition c_1_10 : float := Eval vm_compute in literal 110 100.
Definition c_0_90 : float := Eval vm_compute in literal 90 100.
Definition c_1_08 : float := Eval vm_compute in literal 108 100.
Definition c_0_58 : float := Eval vm_compute in literal 58 100.
Definition c_0_40 : float := Eval vm_compute in literal 40 100.
Definition c_0_88 : float := Eval vm_compute in literal 88 100.
Definition c_0_80 : float := Eval vm_compute in literal 80 100.
Definition c_1_05 : float := Eval vm_compute in literal 105 100.
Definition c_0_85 : float := Eval vm_compute in literal 85 100.
Definition c_1_07 : float := Eval vm_compute in literal 107 100.
Definition c_0_002 : float := Eval vm_compute in literal 2 1000.
Definition c_1_5 : float := Eval vm_compute in literal 15 10.
Definition c_0_70 : float := Eval vm_compute in literal 70 100.
Definition c_1_1 : float := Eval vm_compute in literal 11 10.
Definition c_1_15 : float := Eval vm_compute in literal 115 100.
Definition c_0_6 : float := Eval vm_compute in literal 6 10.
Definition c_0_95 : float := Eval vm_compute in literal 95 100.
Definition c_0_82 : float := Eval vm_compute in literal 82 100.

(** *** Strings: [isascii], [strip], [lower], [in] *)

(** A [str] is held as its UTF-8 bytes.  [strip] and [lower] below are
    [str.strip] and [str.lower] on the strings [isascii] accepts.  On other
    strings Python also strips the blanks beyond ASCII (U+00A0 among them)
    and lowers the other cased letters (U+0130 becomes an [i] followed by
    U+0307), which these two do not: a statement that depends on how a
    grade, an origin or a name is classified is made for ASCII strings. *)

(** [s.isascii()]: every character is below U+0080. *)
Definition isascii (s : string) : bool :=
  forallb (fun c => (N_of_ascii c <? 128)%N) (list_ascii_of_string s).

(** The ASCII characters [str.isspace] accepts. *)
Definition is_space (c : ascii) : bool :=
  let n := N_of_ascii c in
  (((9 <=? n) && (n <=? 13)) || ((28 <=? n) && (n <=? 32)))%N.

Definition lower_char (c : ascii) : ascii :=
  let n := N_of_ascii c in
  if ((65 <=? n) && (n <=? 90))%N then ascii_of_N (n + 32) else c.

Fixpoint lower (s : string) : string :=
  match s with
  | EmptyString => EmptyString
  | String c s' => String (lower_char c) (lower s')
  end.

Fixpoint lstrip (s : string) : string :=
  match s with
  | EmptyString => EmptyString
  | String c s' => if is_space c then lstrip s' else s
  end.

Fixpoint rstrip (s : string) : string :=
  match s with
  | EmptyString => EmptyString
  | String c s' =>
      match rstrip s' with
      | EmptyString => if is_space c then EmptyString else String c EmptyString
      | r => String c r
      end
  end.

Definition strip (s : string) : string := rstrip (lstrip s).

(** [w in s]: [w] occurs in [s] as a substring. *)
Fixpoint contains (w s : string) : bool :=
  match s with
  | EmptyString => String.prefix w EmptyString
  | String _ s' => String.prefix w s || contains w s'
  end.

(** *** Lists of [int]s *)

(** [sum(xs)]. *)
Definition sum (xs : list Z) : Z := fold_left Z.add xs 0.

End Py.

(** ** The data model *)

(** The values an [attributes] entry takes in the source. *)
Inductive attr : Set :=
| AttrStr (s : string)
| AttrBool (b : bool).

Record Product : Set := {
  name : string;
  category : string;
  quantity : Z;
  quality_grade : string;
  origin : string;
  base_market_price : Z;
  attributes : list (string * attr)
}.

Record Message : Set := {
  role : string;
  message : string
}.

Record NegotiationContext : Set := {
  product : Product;
  your_budget : Z;
  current_round : Z;
  seller_offers : list Z;
  your_offers : list Z;
  messages : list Message
}.

Inductive DealStatus : Set :=
| ONGOING
| ACCEPTED
| REJECTED
| TIMEOUT.

Definition DealStatus_eqb (a b : DealStatus) : bool :=
  match a, b with
  | ONGOING, ONGOING | ACCEPTED, ACCEPTED
  | REJECTED, REJECTED | TIMEOUT, TIMEOUT => true
  | _, _ => false
  end.

(** In-place updates of the context, as the test loop performs them. *)
Definition set_current_round (r : Z) (c : NegotiationContext) : NegotiationContext :=
  {| product := product c; your_budget := your_budget c; current_round := r;
     seller_offers := seller_offers c; your_offers := your_offers c;
     messages := messages c |}.

Definition append_seller_offer (p : Z) (c : NegotiationContext) : NegotiationContext :=
  {| product := product c; your_budget := your_budget c;
     current_round := current_round c;
     seller_offers := seller_offers c ++ [p]; your_offers := your_offers c;
     messages := messages c |}.

Definition append_your_offer (p : Z) (c : NegotiationContext) : NegotiationContext :=
  {| product := product c; your_budget := your_budget c;
     current_round := current_round c;
     seller_offers := seller_offers c; your_offers := your_offers c ++ [p];
     messages := messages c |}.

Definition append_message (r m : string) (c : NegotiationContext) : NegotiationContext :=
  {| product := product c; your_budget := your_budget c;
     current_round := current_round c;
     seller_offers := seller_offers c; your_offers := your_offers c;
     messages := messages c ++ [{| role := r; message := m |}] |}.

(** ** The buyer interface *)

Record Personality : Set := {
  personality_type : string;
  traits : list string;
  negotiation_style : string;
  catchphrases : list string
}.

Module BaseBuyerAgent.

Record t : Type := {
  agent_name : string;
  personality : Personality;
  generate_opening_offer : NegotiationContext -> result (Z * string);
  respond_to_seller_offer :
    NegotiationContext -> Z -> string -> result (DealStatus * Z * string);
  get_personality_prompt : string
}.

End BaseBuyerAgent.

(** [xs[i]] on a list of strings. *)
Definition getitem (xs : list string) (i : nat) : result string :=
  match nth_error xs i with
  | Some x => Ok x
  | None => Raise IndexError
  end.

(** The dictionary [analyze_negotiation_progress] returns. *)
Record Progress : Set := {
  round : Z;
  last_seller : option Z;
  last_buyer : option Z;
  avg_seller : option Py.float;
  avg_buyer : option Py.float
}.

(** [xs[-1] if xs else None]. *)
Definition last_or_none (xs : list Z) : option Z :=
  match xs with
  | [] => None
  | _ :: _ => Some (last xs 0)
  end.

(** [sum(xs) / len(xs) if xs else None]. *)
Definition mean_or_none (xs : list Z) : result (option Py.float) :=
  match xs with
  | [] => Ok None
  | _ :: _ =>
      x <- Py.truediv (Py.sum xs) (Z.of_nat (List.length xs)) ;;
      Ok (Some x)
  end.

Local Open Scope string_scope.
Local Open Scope Z_scope.

(** ** [YourBuyerAgent] *)

Module YourBuyerAgent.

Definition define_personality : Personality :=
  {| personality_type := "aggressive";
     traits := ["confident"; "profit-driven"; "data-aware"; "firm"; "strategic"];
     negotiation_style :=
       "Opens very low, pressures the seller with market logic, "
       ++ "concedes minimally in early rounds and only softens close to timeout.";
     catchphrases :=
       ["That’s far above market.";
        "I can’t justify that price.";
        "We need a deal that makes sense."] |}.

Definition get_personality_prompt : string :=
  "I am an aggressive, profit-maximizing buyer. I negotiate with confidence and brevity, "
  ++ "anchoring low and referencing market realities to justify my stance. I keep a firm tone, "
  ++ "use short sentences, and make small, calculated concessions. I only accept when the price "
  ++ "is clearly advantageous and within budget. Phrases I use: 'That’s far above market.', "
  ++ "'I can’t justify that price.', 'We need a deal that makes sense.'".

Definition catchphrase (i : nat) : result string :=
  getitem (catchphrases define_personality) i.

(** The grade adjustment, then the origin premium, each truncated. *)
Definition calculate_fair_price (p : Product) : result Z :=
  let fair := base_market_price p in
  let grade := Py.lower (Py.strip (quality_grade p)) in
  fair <- (if Py.contains "export" grade then Py.int_mul fair Py.c_1_10
           else if String.eqb grade "b" then Py.int_mul fair Py.c_0_90
           else Ok fair) ;;
  let origin := Py.lower (Py.strip (origin p)) in
  let name_lower := Py.lower (Py.strip (name p)) in
  if Py.contains "ratnagiri" origin && Py.contains "alphonso" name_lower
  then Py.int_mul fair Py.c_1_08
  else Ok fair.

Definition generate_opening_offer (context : NegotiationContext)
  : result (Z * string) :=
  let product := product context in
  fair <- calculate_fair_price product ;;
  let opening_ratio := Py.c_0_58 in
  opening_price <- Py.int_mul fair opening_ratio ;;
  let opening_price := Z.min opening_price (your_budget context) in
  floor <- Py.int_mul (base_market_price product) Py.c_0_40 ;;
  let opening_price := Z.max opening_price floor in
  phrase <- catchphrase 0 ;;
  let message :=
    "₹" ++ Py.str opening_price
    ++ " is a realistic starting point given market reality. "
    ++ "Anything higher won’t make sense for me. " ++ phrase in
  Ok (opening_price, message).

Definition respond_to_seller_offer (context : NegotiationContext)
    (seller_price : Z) (seller_message : string)
  : result (DealStatus * Z * string) :=
  let product := product context in
  fair <- calculate_fair_price product ;;
  ceiling <- Py.int_mul fair Py.c_0_88 ;;
  let max_willing := Z.min (your_budget context) ceiling in
  if seller_price <=? max_willing then
    phrase <- catchphrase 2 ;;
    Ok (ACCEPTED, seller_price,
        "Alright. ₹" ++ Py.str seller_price ++ " works. " ++ phrase)
  else
    last_offer <- (match your_offers context with
                   | [] => Py.int_mul fair Py.c_0_58
                   | _ :: _ => Ok (last (your_offers context) 0)
                   end) ;;
    let round_num := current_round context in
    counter <- (if round_num <=? 3 then
                  target <- Py.int_mul seller_price Py.c_0_80 ;;
                  raised <- Py.int_mul last_offer Py.c_1_05 ;;
                  Ok (Z.max raised target)
                else if round_num <=? 7 then
                  target <- Py.int_mul seller_price Py.c_0_85 ;;
                  raised <- Py.int_mul last_offer Py.c_1_07 ;;
                  Ok (Z.max raised target)
                else
                  half <- Py.truediv (last_offer + seller_price) 2 ;;
                  Py.int_of_float half) ;;
    let counter := Z.min counter max_willing in
    step <- Py.int_mul fair Py.c_0_002 ;;
    let counter := Z.max counter (last_offer + Z.max 1 step) in
    outrageous <- Py.int_mul (base_market_price product) Py.c_1_5 ;;
    counter <- (if (outrageous <=? seller_price) && (round_num <=? 2) then
                  anchor <- Py.int_mul fair Py.c_0_70 ;;
                  Ok (Z.min counter anchor)
                else Ok counter) ;;
    if (max_willing <=? counter) && (max_willing <? seller_price) then
      phrase <- catchphrase 1 ;;
      Ok (ONGOING, counter,
          "That’s above what I can justify. ₹" ++ Py.str counter
          ++ " is my ceiling given the market. " ++ phrase)
    else
      phrase <- catchphrase 2 ;;
      Ok (ONGOING, counter,
          "Too high. I can do ₹" ++ Py.str counter ++ ". " ++ phrase).

(** Analytics over the two histories; the test loop does not call it. *)
Definition analyze_negotiation_progress (context : NegotiationContext)
  : result Progress :=
  let last_seller := last_or_none (seller_offers context) in
  let last_buyer := last_or_none (your_offers context) in
  avg_seller <- mean_or_none (seller_offers context) ;;
  avg_buyer <- mean_or_none (your_offers context) ;;
  Ok {| round := current_round context;
        last_seller := last_seller;
        last_buyer := last_buyer;
        avg_seller := avg_seller;
        avg_buyer := avg_buyer |}.

Definition agent (agent_name : string) : BaseBuyerAgent.t :=
  {| BaseBuyerAgent.agent_name := agent_name;
     BaseBuyerAgent.personality := define_personality;
     BaseBuyerAgent.generate_opening_offer := generate_opening_offer;
     BaseBuyerAgent.respond_to_seller_offer := respond_to_seller_offer;
     BaseBuyerAgent.get_personality_prompt := get_personality_prompt |}.

End YourBuyerAgent.

(** ** [ExampleSimpleAgent], the reference implementation of the interface *)

Module ExampleSimpleAgent.

Definition define_personality : Personality :=
  {| personality_type := "cautious";
     traits := ["careful"; "budget-conscious"; "polite"];
     negotiation_style :=
       "Makes small incremental offers, very careful with money";
     catchphrases := ["Let me think about that..."; "That's a bit steep for me"] |}.

Definition generate_opening_offer (context : NegotiationContext)
  : result (Z * string) :=
  opening <- Py.int_mul (base_market_price (product context)) Py.c_0_6 ;;
  let opening := Z.min opening (your_budget context) in
  Ok (opening,
      "I'm interested, but ₹" ++ Py.str opening
      ++ " is what I can offer. Let me think about that...").

Definition respond_to_seller_offer (context : NegotiationContext)
    (seller_price : Z) (seller_message : string)
  : result (DealStatus * Z * string) :=
  within <- (if seller_price <=? your_budget context then
               limit <- Py.mul_int_float
                          (base_market_price (product context)) Py.c_0_85 ;;
               Ok (Py.int_le_float seller_price limit)
             else Ok false) ;;
  if within then
    Ok (ACCEPTED, seller_price,
        "Alright, ₹" ++ Py.str seller_price ++ " works for me!")
  else
    let last_offer := last (your_offers context) 0 in
    raised <- Py.int_mul last_offer Py.c_1_1 ;;
    let counter := Z.min raised (your_budget context) in
    close <- Py.mul_int_float seller_price Py.c_0_95 ;;
    if Py.int_ge_float counter close then
      let counter := Z.min (seller_price - 1000) (your_budget context) in
      Ok (ONGOING, counter,
          "That's a bit steep for me. How about ₹" ++ Py.str counter ++ "?")
    else
      Ok (ONGOING, counter,
          "I can go up to ₹" ++ Py.str counter
          ++ ", but that's pushing my budget.").

Definition get_personality_prompt : string :=
  "
        I am a cautious buyer who is very careful with money. I speak politely but firmly.
        I often say things like 'Let me think about that' or 'That's a bit steep for me'.
        I make small incremental offers and show concern about my budget.
        ".

Definition agent (agent_name : string) : BaseBuyerAgent.t :=
  {| BaseBuyerAgent.agent_name := agent_name;
     BaseBuyerAgent.personality := define_personality;
     BaseBuyerAgent.generate_opening_offer := generate_opening_offer;
     BaseBuyerAgent.respond_to_seller_offer := respond_to_seller_offer;
     BaseBuyerAgent.get_personality_prompt := get_personality_prompt |}.

End ExampleSimpleAgent.

(** ** [MockSellerAgent] *)

Module MockSellerAgent.

Record t : Set := {
  min_price : Z;
  personality : string
}.

Definition init (min_price : Z) : t :=
  {| min_price := min_price; personality := "standard" |}.

Definition get_opening_price (self : t) (product : Product)
  : result (Z * string) :=
  price <- Py.int_mul (base_market_price product) Py.c_1_5 ;;
  Ok (price,
      "These are premium " ++ quality_grade product ++ " grade "
      ++ name product ++ ". I'm asking ₹" ++ Py.str price ++ ".").

Definition respond_to_buyer (self : t) (buyer_offer round_num : Z)
  : result (Z * string * bool) :=
  threshold <- Py.mul_int_float (min_price self) Py.c_1_1 ;;
  if Py.int_ge_float buyer_offer threshold then
    Ok (buyer_offer, "You have a deal at ₹" ++ Py.str buyer_offer ++ "!", true)
  else if 8 <=? round_num then
    softened <- Py.int_mul buyer_offer Py.c_1_05 ;;
    let counter := Z.max (min_price self) softened in
    Ok (counter,
        "Final offer: ₹" ++ Py.str counter ++ ". Take it or leave it.", false)
  else
    raised <- Py.int_mul buyer_offer Py.c_1_15 ;;
    let counter := Z.max (min_price self) raised in
    Ok (counter, "I can come down to ₹" ++ Py.str counter ++ ".", false).

End MockSellerAgent.

(** ** [run_negotiation_test] *)

(** The variables the test loop carries from one round to the next. *)
Module Locals.

Record t : Set := {
  context : NegotiationContext;
  seller_price : Z;
  seller_msg : string;
  deal_made : bool;
  final_price : option Z
}.

End Locals.

(** The result dictionary. *)
Record Outcome : Set := {
  deal_made : bool;
  final_price : option Z;
  rounds : Z;
  savings : Z;
  savings_pct : Py.num;
  below_market_pct : Py.num;
  conversation : list Message
}.

(** How an iteration of a [for] loop ends. *)
Inductive flow : Set :=
| Next
| Break.

(** [for r in rs: body], with [break] and exceptions. *)
Fixpoint for_range {S : Type} (body : Z -> S -> result (flow * S))
    (rs : list Z) (st : S) : result S :=
  match rs with
  | [] => Ok st
  | r :: rs' =>
      match body r st with
      | Raise e => Raise e
      | Ok (Break, st') => Ok st'
      | Ok (Next, st') => for_range body rs' st'
      end
  end.

Definition range (n : nat) : list Z := map Z.of_nat (seq 0 n).

(** One round: the buyer's turn, then the seller's. *)
Definition round_body (buyer_agent : BaseBuyerAgent.t)
    (seller : MockSellerAgent.t) (round_num : Z) (st : Locals.t)
  : result (flow * Locals.t) :=
  let context := set_current_round (round_num + 1) (Locals.context st) in
  '(status, buyer_offer, buyer_msg) <-
     (if round_num =? 0 then
        '(offer, msg) <- BaseBuyerAgent.generate_opening_offer buyer_agent context ;;
        Ok (ONGOING, offer, msg)
      else
        BaseBuyerAgent.respond_to_seller_offer buyer_agent context
          (Locals.seller_price st) (Locals.seller_msg st)) ;;
  let context := append_message "buyer" buyer_msg
                   (append_your_offer buyer_offer context) in
  if DealStatus_eqb status ACCEPTED then
    Ok (Break,
        {| Locals.context := context;
           Locals.seller_price := Locals.seller_price st;
           Locals.seller_msg := Locals.seller_msg st;
           Locals.deal_made := true;
           Locals.final_price := Some (Locals.seller_price st) |})
  else
    '(seller_price, seller_msg, seller_accepts) <-
       MockSellerAgent.respond_to_buyer seller buyer_offer round_num ;;
    if seller_accepts then
      Ok (Break,
          {| Locals.context := append_message "seller" seller_msg context;
             Locals.seller_price := seller_price;
             Locals.seller_msg := seller_msg;
             Locals.deal_made := true;
             Locals.final_price := Some buyer_offer |})
    else
      Ok (Next,
          {| Locals.context :=
               append_message "seller" seller_msg
                 (append_seller_offer seller_price context);
             Locals.seller_price := seller_price;
             Locals.seller_msg := seller_msg;
             Locals.deal_made := Locals.deal_made st;
             Locals.final_price := Locals.final_price st |}).

(** The state in which the loop starts: the seller has opened. *)
Definition opening_state (product : Product) (buyer_budget seller_min : Z)
  : result Locals.t :=
  let seller := MockSellerAgent.init seller_min in
  let context :=
    {| product := product; your_budget := buyer_budget; current_round := 0;
       seller_offers := []; your_offers := []; messages := [] |} in
  '(seller_price, seller_msg) <- MockSellerAgent.get_opening_price seller product ;;
  Ok {| Locals.context :=
          append_message "seller" seller_msg
            (append_seller_offer seller_price context);
        Locals.seller_price := seller_price;
        Locals.seller_msg := seller_msg;
        Locals.deal_made := false;
        Locals.final_price := None |}.

(** The rounds of the negotiation: what the loop leaves behind. *)
Definition negotiation_loop (buyer_agent : BaseBuyerAgent.t) (product : Product)
    (buyer_budget seller_min : Z) : result Locals.t :=
  st <- opening_state product buyer_budget seller_min ;;
  for_range (round_body buyer_agent (MockSellerAgent.init seller_min))
    (range 10) st.

(** [a - b] where [b] may be [None]. *)
Definition sub_optional (a : Z) (b : option Z) : result Z :=
  match b with
  | Some b => Ok (a - b)
  | None => Raise TypeError
  end.

(** [(a - b) / a * 100]. *)
Definition percent_below (a : Z) (b : option Z) : result Py.num :=
  d <- sub_optional a b ;;
  q <- Py.truediv d a ;;
  r <- Py.mul_float_int q 100 ;;
  Ok (Py.Float r).

(** The result dictionary, its entries evaluated in order. *)
Definition calculate_results (product : Product) (buyer_budget : Z)
    (st : Locals.t) : result Outcome :=
  let deal_made := Locals.deal_made st in
  let final_price := Locals.final_price st in
  savings <- (if deal_made then sub_optional buyer_budget final_price
              else Ok 0) ;;
  savings_pct <- (if deal_made then percent_below buyer_budget final_price
                  else Ok (Py.Int 0)) ;;
  below_market_pct <-
    (if deal_made then percent_below (base_market_price product) final_price
     else Ok (Py.Int 0)) ;;
  Ok {| deal_made := deal_made;
        final_price := final_price;
        rounds := current_round (Locals.context st);
        savings := savings;
        savings_pct := savings_pct;
        below_market_pct := below_market_pct;
        conversation := messages (Locals.context st) |}.

Definition run_negotiation_test (buyer_agent : BaseBuyerAgent.t)
    (product : Product) (buyer_budget seller_min : Z) : result Outcome :=
  st <- negotiation_loop buyer_agent product buyer_budget seller_min ;;
  calculate_results product buyer_budget st.

(** ** The scenarios of [test_your_agent] *)

Definition alphonso : Product :=
  {| name := "Alphonso Mangoes"; category := "Mangoes"; quantity := 100;
     quality_grade := "A"; origin := "Ratnagiri";
     base_market_price := 180000;
     attributes := [("ripeness", AttrStr "optimal");
                    ("export_grade", AttrBool true)] |}.

Definition kesar : Product :=
  {| name := "Kesar Mangoes"; category := "Mangoes"; quantity := 150;
     quality_grade := "B"; origin := "Gujarat";
     base_market_price := 150000;
     attributes := [("ripeness", AttrStr "semi-ripe");
                    ("export_grade", AttrBool false)] |}.

Definition test_products : list Product := [alphonso; kesar].

Definition your_agent : BaseBuyerAgent.t := YourBuyerAgent.agent "TestBuyer".

Inductive scenario : Set :=
| easy
| medium
| hard.

Definition c_1_2 : Py.float := Eval vm_compute in Py.literal 12 10.
Definition c_1_0 : Py.float := Eval vm_compute in Py.literal 10 10.

(** The budget and the seller's minimum of a scenario. *)
Definition scenario_budget (s : scenario) (product : Product) : result Z :=
  match s with
  | easy => Py.int_mul (base_market_price product) c_1_2
  | medium => Py.int_mul (base_market_price product) c_1_0
  | hard => Py.int_mul (base_market_price product) Py.c_0_90
  end.

Definition scenario_seller_min (s : scenario) (product : Product) : result Z :=
  match s with
  | easy => Py.int_mul (base_market_price product) Py.c_0_80
  | medium => Py.int_mul (base_market_price product) Py.c_0_85
  | hard => Py.int_mul (base_market_price product) Py.c_0_82
  end.

Definition run_scenario (buyer_agent : BaseBuyerAgent.t) (s : scenario)
    (product : Product) : result Outcome :=
  buyer_budget <- scenario_budget s product ;;
  seller_min <- scenario_seller_min s product ;;
  run_negotiation_test buyer_agent product buyer_budget seller_min.

(** * Definitions for the proofs *)

(** ** Rounding *)

(** [X] is the exact value in units in which the mantissa of [r] counts
    [U]: the record keeps the quotient, and its two bits place the
    remainder against the half of [U]. *)
Definition shr_inv (X U : Z) (r : shr_record) : Prop :=
  0 <= shr_m r /\
  0 <= X - shr_m r * U < U /\
  (shr_r r = true <-> U <= 2 * (X - shr_m r * U)) /\
  (shr_s r = true <-> 0 < X - shr_m r * U /\ 2 * (X - shr_m r * U) <> U).

(** A double that [int] accepts. *)
Definition is_finite (x : Py.float) : bool :=
  match x with
  | S754_zero _ | S754_finite _ _ _ => true
  | _ => false
  end.

(** Any location is the remainder of some exact value in quarters. *)
Definition quarters (m : Z) (l : location) : Z :=
  match l with
  | loc_Exact => 4 * m
  | loc_Inexact Lt => 4 * m + 1
  | loc_Inexact Eq => 4 * m + 2
  | loc_Inexact Gt => 4 * m + 3
  end.

(** The sign of a double as a real factor. *)
Definition sign_R (s : bool) : R := (if s then -1 else 1)%R.

(** The real number a finite double stands for; 0 for the others. *)
Definition F2R (x : Py.float) : R :=
  match x with
  | S754_finite s m e => (sign_R s * IZR (Zpos m) * powerRZ 2 e)%R
  | _ => 0%R
  end.

(** The unit roundoff of binary64. *)
Definition u64 : R := (/ IZR (2 ^ 53))%R.

(** A positive normalised double between 2^-48 and 3/2, as the literals of
    the source are. *)
Definition literal_like (c : Py.float) : bool :=
  match c with
  | S754_finite false m e =>
      (Zdigits2 (Zpos m) =? 53) && (-100 <=? e) && (e <=? 0)
      && (2 * Zpos m <=? 3 * 2 ^ (- e))
  | _ => false
  end.

(** The sign of a rounding is the sign it is given. *)
Definition with_sign (s : bool) (x : Py.float) : Py.float :=
  match x with
  | S754_zero _ => S754_zero s
  | S754_infinity _ => S754_infinity s
  | S754_nan => S754_nan
  | S754_finite _ m e => S754_finite s m e
  end.

(** ** Strings *)

(** Words that begin and end with a character that is not a blank. *)
Fixpoint ends_nonspace (w : string) : bool :=
  match w with
  | EmptyString => false
  | String c EmptyString => negb (Py.is_space c)
  | String _ w' => ends_nonspace w'
  end.

Definition starts_nonspace (w : string) : bool :=
  match w with
  | EmptyString => false
  | String c _ => negb (Py.is_space c)
  end.

(** ** The buyer policy *)

(** The two adjustments of [calculate_fair_price], named. *)
Definition is_export (p : Product) : bool :=
  Py.contains "export" (Py.lower (Py.strip (quality_grade p))).

Definition is_grade_b (p : Product) : bool :=
  String.eqb (Py.lower (Py.strip (quality_grade p))) "b".

Definition has_premium (p : Product) : bool :=
  Py.contains "ratnagiri" (Py.lower (Py.strip (origin p)))
  && Py.contains "alphonso" (Py.lower (Py.strip (name p))).

(** The three strings [calculate_fair_price] classifies are ASCII, so that
    [Py.strip] and [Py.lower] treat them as Python does. *)
Definition ascii_fields (p : Product) : bool :=
  Py.isascii (quality_grade p) && Py.isascii (origin p)
  && Py.isascii (name p).

(** The buyer's previous offer, as [respond_to_seller_offer] reads it. *)
Definition last_offer_of (context : NegotiationContext) (fair : Z) : result Z :=
  match your_offers context with
  | [] => Py.int_mul fair Py.c_0_58
  | _ :: _ => Ok (last (your_offers context) 0)
  end.

(** The counter of the round's bracket, before any clamping. *)
Definition raw_counter (round_num seller_price last_offer : Z) : result Z :=
  if round_num <=? 3 then
    target <- Py.int_mul seller_price Py.c_0_80 ;;
    raised <- Py.int_mul last_offer Py.c_1_05 ;;
    Ok (Z.max raised target)
  else if round_num <=? 7 then
    target <- Py.int_mul seller_price Py.c_0_85 ;;
    raised <- Py.int_mul last_offer Py.c_1_07 ;;
    Ok (Z.max raised target)
  else
    half <- Py.truediv (last_offer + seller_price) 2 ;;
    Py.int_of_float half.

(** The inputs [respond_to_seller_offer] computes with are within the range
    of a double, with room to spare. *)
Definition within_range (context : NegotiationContext) (seller_price : Z) : Prop :=
  Z.abs (base_market_price (product context)) < 2 ^ 900 /\
  Z.abs seller_price < 2 ^ 900 /\
  Z.abs (last (your_offers context) 0) < 2 ^ 900.

(** The bound [within_range] puts on its inputs. *)
Definition range_bound : Z := 2 ^ 900.

(** ** The test loop *)

(** The number of iterations a [for] loop executes. *)
Fixpoint iterations {St : Type} (body : Z -> St -> result (flow * St))
    (rs : list Z) (st : St) : nat :=
  match rs with
  | [] => 0
  | r :: rs' =>
      match body r st with
      | Ok (Next, st') => S (iterations body rs' st')
      | _ => 1
      end
  end.

(** The state after the loop when no iteration breaks or raises. *)
Fixpoint all_next {St : Type} (body : Z -> St -> result (flow * St))
    (rs : list Z) (st : St) : option St :=
  match rs with
  | [] => Some st
  | r :: rs' =>
      match body r st with
      | Ok (Next, st') => all_next body rs' st'
      | _ => None
      end
  end.

(** The deal flag and the final price are set together. *)
Definition deal_consistent (st : Locals.t) : Prop :=
  (Locals.deal_made st = true /\ exists fp : Z, Locals.final_price st = Some fp) \/
  (Locals.deal_made st = false /\ Locals.final_price st = None).

(** The context of a call in round [r], with the buyer's and the seller's
    earlier offers. *)
Definition context_at (p : Product) (budget r : Z) (sellers yours : list Z)
  : NegotiationContext :=
  {| product := p; your_budget := budget; current_round := r;
     seller_offers := sellers; your_offers := yours; messages := [] |}.

(** A grade-A product without the origin premium. *)
Definition plain_grade_a : Product :=
  {| name := "Kesar Mangoes"; category := "Mangoes"; quantity := 100;
     quality_grade := "A"; origin := "Gujarat";
     base_market_price := 180000; attributes := [] |}.

(** ** The shape of a run *)

(** [n] speakers taking turns, [a] first. *)
Fixpoint turns (n : nat) (a b : string) : list string :=
  match n with
  | O => []
  | S n' => a :: turns n' b a
  end.

(** The state at the head of iteration [i] of the test loop: [i] rounds
    are over and none closed the deal. *)
Definition loop_head (i : nat) (s : Locals.t) : Prop :=
  current_round (Locals.context s) = Z.of_nat i /\
  Locals.deal_made s = false /\ Locals.final_price s = None /\
  List.length (your_offers (Locals.context s)) = i /\
  List.length (seller_offers (Locals.context s)) = S i /\
  Locals.seller_price s = last (seller_offers (Locals.context s)) 0 /\
  map role (messages (Locals.context s)) = turns (2 * i + 1) "seller" "buyer".

(** The state in which the loop breaks, in round [r]: the buyer took the
    seller's standing price, or the seller took the buyer's offer. *)
Definition loop_exit (s : Locals.t) : Prop :=
  Locals.deal_made s = true /\
  exists r : nat,
    current_round (Locals.context s) = Z.of_nat r /\ (1 <= r <= 10)%nat /\
    List.length (your_offers (Locals.context s)) = r /\
    List.length (seller_offers (Locals.context s)) = r /\
    (((2 <= r)%nat /\
      Locals.final_price s = Some (last (seller_offers (Locals.context s)) 0) /\
      map role (messages (Locals.context s)) = turns (2 * r) "seller" "buyer") \/
     (Locals.final_price s = Some (last (your_offers (Locals.context s)) 0) /\
      map role (messages (Locals.context s)) = turns (2 * r + 1) "seller" "buyer")).

(** The state at the head of iteration [i] when [YourBuyerAgent] faces a
    seller it cannot reach: the seller is at or above its minimum, and the
    buyer's last offer is at most [i - 1] steps above the ceiling. *)
Definition stalled (p : Product) (buyer_budget seller_min : Z)
    (ceiling step anchor : Z) (i : nat) (s : Locals.t) : Prop :=
  loop_head i s /\ product (Locals.context s) = p /\
  your_budget (Locals.context s) = buyer_budget /\
  ((1 <= i)%nat ->
   seller_min <= Locals.seller_price s < range_bound /\
   0 <= last (your_offers (Locals.context s)) 0
     <= ceiling + (Z.of_nat i - 1) * Z.max 1 step) /\
  (i = 1%nat -> last (your_offers (Locals.context s)) 0 <= anchor).

(** A message that quotes [price] and closes with a catchphrase of the
    personality [who]. *)
Definition in_character (who : Personality) (price : Z) (msg : string) : Prop :=
  exists pre post phrase : string,
    In phrase (catchphrases who) /\
    msg = pre ++ "₹" ++ Py.str price ++ post ++ phrase.

(** No bid is above the ask it answers: the buyer's offer of round [k + 1]
    answers the seller's offer number [k]. *)
Definition bids_below_asks (bids asks : list Z) : Prop :=
  forall (k : nat) (bid ask : Z),
    nth_error bids k = Some bid -> nth_error asks k = Some ask -> bid <= ask.

(** * Binary64 arithmetic *)

Section Digits.

Lemma digits2_pos_size (p : positive) : digits2_pos p = Pos.size p.
Proof. induction p; simpl; congruence. Qed.

Lemma Zdigits2_log2 (p : positive) : Zdigits2 (Zpos p) = Z.log2 (Zpos p) + 1.
Proof.
  unfold Zdigits2. destruct p; simpl; rewrite ?digits2_pos_size; lia.
Qed.

Lemma Zdigits2_nonneg (m : Z) : 0 <= Zdigits2 m.
Proof. destruct m; simpl; lia. Qed.

Lemma Zdigits2_bounds (m : Z) :
  0 < m -> 2 ^ (Zdigits2 m - 1) <= m < 2 ^ Zdigits2 m.
Proof.
  intros Hm. destruct m as [|p|p]; try lia.
  rewrite Zdigits2_log2.
  replace (Z.log2 (Zpos p) + 1 - 1) with (Z.log2 (Zpos p)) by lia.
  replace (Z.log2 (Zpos p) + 1) with (Z.succ (Z.log2 (Zpos p))) by lia.
  apply Z.log2_spec. lia.
Qed.

Lemma Zdigits2_unique (m k : Z) :
  2 ^ (k - 1) <= m < 2 ^ k -> 0 < m -> Zdigits2 m = k.
Proof.
  intros H Hm. destruct m as [|p|p]; try lia.
  rewrite Zdigits2_log2.
  assert (0 < k).
  { destruct (Z.lt_ge_cases 0 k) as [|Hk]; auto.
    rewrite (Z.pow_neg_r 2 (k - 1)) in H by lia.
    assert (2 ^ k <= 1); [|lia].
    destruct (Z.eq_dec k 0) as [->|]; [simpl; lia|].
    rewrite Z.pow_neg_r; lia. }
  rewrite (Z.log2_unique (Zpos p) (k - 1)); try lia.
  replace (Z.succ (k - 1)) with k by lia. lia.
Qed.

Lemma Zdigits2_le (m k : Z) :
  0 <= m -> 0 <= k -> m < 2 ^ k -> Zdigits2 m <= k.
Proof.
  intros Hm Hk H.
  destruct (Z.eq_dec m 0) as [->|]; [simpl; lia|].
  destruct (Zdigits2_bounds m) as [Hl _]; [lia|].
  destruct (Z.le_gt_cases (Zdigits2 m) k) as [|Hgt]; auto.
  assert (2 ^ k <= 2 ^ (Zdigits2 m - 1)) by (apply Z.pow_le_mono_r; lia).
  lia.
Qed.

End Digits.

(** ** Shifting with round and sticky bits *)

Section Shift.

Lemma shr_inv_exact (m : Z) :
  0 <= m -> shr_inv m 1 (shr_record_of_loc m loc_Exact).
Proof.
  intros Hm. unfold shr_inv, shr_record_of_loc; cbn [shr_m shr_r shr_s].
  repeat split; try lia; intros; try discriminate; exfalso; lia.
Qed.

Lemma shr_bits_zero (X U m : Z) (r s : bool) :
  0 < U ->
  (r = true <-> U <= 2 * (X - m * U)) ->
  (s = true <-> 0 < X - m * U /\ 2 * (X - m * U) <> U) ->
  0 <= X - m * U ->
  (orb r s = true <-> 0 < X - m * U).
Proof.
  intros HU Hr Hs Hrem.
  destruct (Z.eq_dec (2 * (X - m * U)) U) as [He|Hne];
    destruct (Z.eq_dec (X - m * U) 0) as [Hz|Hnz].
  - lia.
  - assert (r = true) by (apply Hr; lia). subst r. simpl. split; [lia|reflexivity].
  - destruct r, s; simpl; split; intros; try discriminate; try lia.
  - assert (s = true) by (apply Hs; lia). subst s.
    rewrite orb_true_r. split; [lia|reflexivity].
Qed.

Lemma shr_1_inv (X U : Z) (r : shr_record) :
  0 < U -> shr_inv X U r -> shr_inv X (2 * U) (shr_1 r).
Proof.
  intros HU (Hm & Hrem & Hr & Hs).
  destruct r as [m r s]; cbn [shr_m shr_r shr_s] in *.
  assert (Hrs : orb r s = true <-> 0 < X - m * U)
    by (apply shr_bits_zero; auto; lia).
  clear Hr Hs.
  destruct m as [|[p|p|]|p]; try lia; unfold shr_inv, shr_1;
    cbn [shr_m shr_r shr_s];
    try (pose proof (Pos2Z.inj_xI p) as Hp; revert Hp Hrem Hrs;
         generalize (Zpos p~1); intros q Hq Hrem Hrs);
    try (pose proof (Pos2Z.inj_xO p) as Hp; revert Hp Hrem Hrs;
         generalize (Zpos p~0); intros q Hq Hrem Hrs).
  all: destruct (orb r s); destruct Hrs as [H1 H2].
  all: repeat split; intros; try discriminate; try lia.
  all: try (assert (0 < X - _ * U) by (apply H1; reflexivity); lia).
  all: try (exfalso; assert (true = false) by (apply H2; lia); discriminate).
Qed.

Lemma iter_shr_1_inv (X : Z) (p : positive) :
  forall (U : Z) (r : shr_record),
    0 < U -> shr_inv X U r ->
    shr_inv X (U * 2 ^ Zpos p) (iter_pos shr_1 p r).
Proof.
  induction p as [p IH|p IH|]; intros U r HU Hr; cbn [iter_pos].
  - rewrite (Pos2Z.inj_xI p), Z.pow_add_r, Z.pow_mul_r, Z.pow_1_r by lia.
    replace (U * ((2 ^ 2) ^ Zpos p * 2))
      with (2 * U * 2 ^ Zpos p * 2 ^ Zpos p)
      by (change (2 ^ 2) with (2 * 2); rewrite Z.pow_mul_l; ring).
    assert (0 < 2 ^ Zpos p) by (apply Z.pow_pos_nonneg; lia).
    apply IH; [nia|]. apply IH; [lia|]. apply shr_1_inv; auto.
  - rewrite (Pos2Z.inj_xO p), Z.pow_mul_r by lia.
    replace (U * (2 ^ 2) ^ Zpos p) with (U * 2 ^ Zpos p * 2 ^ Zpos p)
      by (change (2 ^ 2) with (2 * 2); rewrite Z.pow_mul_l; ring).
    assert (0 < 2 ^ Zpos p) by (apply Z.pow_pos_nonneg; lia).
    apply IH; [nia|]. apply IH; auto.
  - change (2 ^ 1) with 2. rewrite Z.mul_comm. apply shr_1_inv; auto.
Qed.

(** [shr] moves the exponent up by the number of places shifted. *)
Lemma shr_inv_shr (X U : Z) (r : shr_record) (e n : Z) :
  0 < U -> shr_inv X U r ->
  snd (shr r e n) = e + Z.max 0 n /\
  shr_inv X (U * 2 ^ Z.max 0 n) (fst (shr r e n)).
Proof.
  intros HU Hr. destruct n as [|p|p]; cbn [shr fst snd].
  - rewrite Z.max_l by lia. rewrite Z.mul_1_r. split; [lia|auto].
  - rewrite Z.max_r by lia. split; [lia|]. apply iter_shr_1_inv; auto.
  - rewrite Z.max_l by lia. rewrite Z.mul_1_r. split; [lia|auto].
Qed.

(** Rounding to nearest even picks an adjacent multiple of the unit, at
    most half a unit away. *)
Lemma round_nearest_even_inv (X U : Z) (r : shr_record) :
  0 < U -> shr_inv X U r ->
  let m := round_nearest_even (shr_m r) (loc_of_shr_record r) in
  shr_m r <= m <= shr_m r + 1 /\ 2 * Z.abs (X - m * U) <= U.
Proof.
  intros HU (Hm & Hrem & Hr & Hs). destruct r as [m r s].
  cbn [shr_m shr_r shr_s loc_of_shr_record] in *.
  destruct r, s; cbn [round_nearest_even]; try destruct (Z.even m); lia.
Qed.

End Shift.

(** ** Rounding to binary64 *)

Section Round.

Lemma fexp_eq (e : Z) : fexp Py.prec Py.emax e = Z.max (e - 53) (-1074).
Proof. reflexivity. Qed.

Lemma binary_round_aux_eq (s : bool) (mx ex : Z) (lx : location) :
  binary_round_aux Py.prec Py.emax s mx ex lx =
  let r1 := shr_fexp Py.prec Py.emax mx ex lx in
  let m1 := round_nearest_even (shr_m (fst r1)) (loc_of_shr_record (fst r1)) in
  let r2 := shr_fexp Py.prec Py.emax m1 (snd r1) loc_Exact in
  match shr_m (fst r2) with
  | Z0 => S754_zero s
  | Zpos m =>
      if snd r2 <=? Py.emax - Py.prec then S754_finite s m (snd r2)
      else S754_infinity s
  | Zneg _ => S754_nan
  end.
Proof.
  unfold binary_round_aux.
  destruct (shr_fexp Py.prec Py.emax mx ex lx) as [r1 e1]. cbn [fst snd].
  destruct (shr_fexp Py.prec Py.emax _ e1 loc_Exact) as [r2 e2]. reflexivity.
Qed.

Lemma shr_inv_quarters (m : Z) (l : location) :
  0 <= m -> shr_inv (quarters m l) 4 (shr_record_of_loc m l).
Proof.
  intros Hm. destruct l as [|[]]; unfold shr_inv, shr_record_of_loc, quarters;
    cbn [shr_m shr_r shr_s];
    repeat split; try lia; intros; try discriminate; try reflexivity; exfalso; lia.
Qed.

Lemma round_nearest_even_range (m : Z) (l : location) :
  m <= round_nearest_even m l <= m + 1.
Proof.
  destruct l as [|[]]; cbn [round_nearest_even]; try destruct (Z.even m); lia.
Qed.

(** Rounding stays finite when the exponent it settles on leaves room. *)
Lemma binary_round_aux_finite (s : bool) (mx ex : Z) (lx : location) :
  0 <= mx ->
  Z.max ex (Zdigits2 mx + ex - 53) <= 970 ->
  is_finite (binary_round_aux Py.prec Py.emax s mx ex lx) = true.
Proof.
  intros Hmx Hex.
  rewrite binary_round_aux_eq. cbv zeta.
  set (d := Zdigits2 mx) in *.
  assert (Hd0 : 0 <= d) by apply Zdigits2_nonneg.
  set (n := Z.max (d + ex - 53) (-1074) - ex).
  assert (Hr1 : shr_fexp Py.prec Py.emax mx ex lx = shr (shr_record_of_loc mx lx) ex n).
  { unfold shr_fexp. fold d. rewrite fexp_eq. reflexivity. }
  rewrite Hr1. clear Hr1.
  destruct (shr_inv_shr (quarters mx lx) 4 (shr_record_of_loc mx lx) ex n)
    as [He1 Hinv]; [lia|apply shr_inv_quarters; assumption|].
  set (r1 := shr (shr_record_of_loc mx lx) ex n) in *.
  rewrite He1.
  destruct Hinv as (Hm & Hrem & _).
  pose proof (round_nearest_even_range (shr_m (fst r1)) (loc_of_shr_record (fst r1))) as Hm1.
  set (m1 := round_nearest_even (shr_m (fst r1)) (loc_of_shr_record (fst r1))) in *.
  set (n' := Z.max 0 n) in *.
  assert (Hn' : 0 <= n') by (unfold n'; lia).
  assert (HU : 0 < 2 ^ n') by (apply Z.pow_pos_nonneg; lia).
  (* the shifted mantissa has at most [d - n'] bits *)
  assert (Hq : quarters mx lx < 4 * (mx + 1))
    by (destruct lx as [|[]]; unfold quarters; lia).
  assert (Hmx2 : mx < 2 ^ d).
  { destruct (Z.eq_dec mx 0) as [->|]; [apply Z.pow_pos_nonneg; lia|].
    apply Zdigits2_bounds. lia. }
  assert (Hm' : shr_m (fst r1) * 2 ^ n' < 2 ^ d) by nia.
  assert (Hdm : Zdigits2 m1 + (ex + n') <= Z.max (d + ex) (ex + n') + 1).
  { assert (Hle : Zdigits2 m1 <= Z.max (d - n') 0 + 1).
    { apply Zdigits2_le; try lia.
      rewrite Z.pow_add_r by lia. change (2 ^ 1) with 2.
      destruct (Z.le_gt_cases n' d) as [Hnd|Hnd].
      - rewrite Z.max_l by lia.
        replace d with ((d - n') + n') in Hm' by lia.
        rewrite Z.pow_add_r in Hm' by lia.
        assert (0 < 2 ^ (d - n')) by (apply Z.pow_pos_nonneg; lia). nia.
      - rewrite Z.max_r by lia. change (2 ^ 0) with 1.
        assert (2 ^ d <= 2 ^ n') by (apply Z.pow_le_mono_r; lia).
        assert (shr_m (fst r1) = 0) by nia. lia. }
    lia. }
  unfold shr_fexp. rewrite fexp_eq.
  set (n2 := Z.max (Zdigits2 m1 + (ex + n') - 53) (-1074) - (ex + n')).
  destruct (shr_inv_shr m1 1 (shr_record_of_loc m1 loc_Exact) (ex + n') n2)
    as [He2 Hinv2]; [lia|apply shr_inv_exact; lia|].
  set (r2 := shr (shr_record_of_loc m1 loc_Exact) (ex + n') n2) in *.
  rewrite He2. destruct Hinv2 as (Hm2 & _).
  destruct (shr_m (fst r2)) as [|p|p]; try reflexivity; try lia.
  rewrite Zle_imp_le_bool; [reflexivity|].
  change (Py.emax - Py.prec) with 971. unfold n2, n', n. lia.
Qed.

(** A mantissa of at least 53 bits whose rounding does not underflow: the
    result is an infinity, or finite, normalised, and within half a unit in
    the last place of the exact value. *)
Lemma binary_round_aux_cases (s : bool) (mx : positive) (ex : Z) :
  53 <= Zdigits2 (Zpos mx) ->
  -1074 <= Zdigits2 (Zpos mx) + ex - 53 ->
  binary_round_aux Py.prec Py.emax s (Zpos mx) ex loc_Exact = S754_infinity s \/
  exists (mf : positive) (ef : Z),
    binary_round_aux Py.prec Py.emax s (Zpos mx) ex loc_Exact = S754_finite s mf ef /\
    Zdigits2 (Zpos mf) = 53 /\
    Zdigits2 (Zpos mx) + ex - 53 <= ef <= Zdigits2 (Zpos mx) + ex - 52 /\
    ef <= 971 /\
    2 ^ 53 * Z.abs (Zpos mx - Zpos mf * 2 ^ (ef - ex)) <= Zpos mx.
Proof.
  set (d := Zdigits2 (Zpos mx)). intros Hd Hlo.
  rewrite binary_round_aux_eq.
  set (n := d + ex - 53 - ex).
  assert (Hr1 : shr_fexp Py.prec Py.emax (Zpos mx) ex loc_Exact =
                shr (shr_record_of_loc (Zpos mx) loc_Exact) ex n).
  { unfold shr_fexp. fold d. rewrite fexp_eq, Z.max_l by lia. reflexivity. }
  rewrite Hr1. clear Hr1.
  assert (Hn : n = d - 53) by (unfold n; lia). clearbody n.
  destruct (shr_inv_shr (Zpos mx) 1 (shr_record_of_loc (Zpos mx) loc_Exact) ex n)
    as [He1 Hinv]; [lia|apply shr_inv_exact; lia|].
  set (r1 := shr (shr_record_of_loc (Zpos mx) loc_Exact) ex n) in *.
  cbv zeta. rewrite He1. rewrite Z.mul_1_l in Hinv.
  replace (Z.max 0 n) with n in * by lia.
  assert (HU : 0 < 2 ^ n) by (apply Z.pow_pos_nonneg; lia).
  destruct (round_nearest_even_inv _ _ _ HU Hinv) as [Hm1 Hnear].
  set (m1 := round_nearest_even (shr_m (fst r1)) (loc_of_shr_record (fst r1))) in *.
  destruct Hinv as (Hm & Hrem & _).
  destruct (Zdigits2_bounds (Zpos mx)) as [Hdl Hdu]; [lia|]. fold d in Hdl, Hdu.
  assert (Hsplit : 2 ^ (d - 1) = 2 ^ 52 * 2 ^ n /\ 2 ^ d = 2 ^ 53 * 2 ^ n).
  { rewrite <- !Z.pow_add_r by lia. split; f_equal; lia. }
  destruct Hsplit as [Hs1 Hs2]. rewrite Hs1 in Hdl. rewrite Hs2 in Hdu.
  set (U := 2 ^ n) in *.
  assert (Hmr : 2 ^ 52 <= shr_m (fst r1) < 2 ^ 53) by nia.
  assert (Hm1r : 2 ^ 52 <= m1 <= 2 ^ 53) by lia.
  change (Py.emax - Py.prec) with 971.
  destruct (Z.eq_dec m1 (2 ^ 53)) as [Htop|Hntop].
  - (* the rounding carries into a 54th bit *)
    rewrite Htop in *.
    unfold shr_fexp. change (Zdigits2 (2 ^ 53)) with 54.
    rewrite fexp_eq, Z.max_l by lia.
    replace (54 + (ex + n) - 53 - (ex + n)) with 1 by lia.
    change (2 ^ 53) with 9007199254740992 at 1 2 3.
    cbn [shr iter_pos shr_1 fst snd shr_record_of_loc shr_m].
    destruct (Z.leb_spec (ex + n + 1) 971) as [Hfit|Hover]; [right|left; reflexivity].
    exists (4503599627370496%positive), (ex + n + 1).
    repeat split; try reflexivity; try lia.
    replace (ex + n + 1 - ex) with (n + 1) by lia.
    rewrite Z.pow_add_r by lia. fold U.
    change (Zpos 4503599627370496) with (2 ^ 52). change (2 ^ 1) with 2.
    change (2 ^ 53) with (2 * 2 ^ 52) in *. nia.
  - assert (Hdm : Zdigits2 m1 = 53) by (apply Zdigits2_unique; simpl; lia).
    unfold shr_fexp. rewrite Hdm, fexp_eq, Z.max_l by lia.
    replace (53 + (ex + n) - 53 - (ex + n)) with 0 by lia.
    cbn [shr fst snd shr_record_of_loc shr_m].
    destruct m1 as [|p1|p1]; try lia.
    destruct (Z.leb_spec (ex + n) 971) as [Hfit|Hover]; [right|left; reflexivity].
    exists p1, (ex + n).
    repeat split; try assumption; try lia.
    replace (ex + n - ex) with n by lia. fold U.
    change (2 ^ 53) with (2 * 2 ^ 52) in *. nia.
Qed.

(** The same below the overflow threshold: the result is finite. *)
Lemma binary_round_aux_normal (s : bool) (mx : positive) (ex : Z) :
  53 <= Zdigits2 (Zpos mx) ->
  -1074 <= Zdigits2 (Zpos mx) + ex - 53 ->
  Zdigits2 (Zpos mx) + ex <= 1023 ->
  exists (mf : positive) (ef : Z),
    binary_round_aux Py.prec Py.emax s (Zpos mx) ex loc_Exact = S754_finite s mf ef /\
    Zdigits2 (Zpos mf) = 53 /\
    Zdigits2 (Zpos mx) + ex - 53 <= ef <= Zdigits2 (Zpos mx) + ex - 52 /\
    2 ^ 53 * Z.abs (Zpos mx - Zpos mf * 2 ^ (ef - ex)) <= Zpos mx.
Proof.
  intros Hd Hlo Hhi.
  destruct (binary_round_aux_cases s mx ex Hd Hlo)
    as [Hinf|(mf & ef & Hr & Hdf & Hef & _ & Herr)].
  - exfalso.
    pose proof (binary_round_aux_finite s (Zpos mx) ex loc_Exact) as Hfin.
    rewrite Hinf in Hfin. discriminate Hfin; lia.
  - exists mf, ef. auto.
Qed.

End Round.

(** ** The real value of a double *)

Section Value.

Local Open Scope R_scope.

Lemma IZR_pow2 (k : Z) : (0 <= k)%Z -> IZR (2 ^ k) = powerRZ 2 k.
Proof.
  intros Hk. destruct k as [|p|p]; try lia.
  - reflexivity.
  - apply Zpower_pos_powerRZ.
Qed.

Lemma pow2_pos (e : Z) : 0 < powerRZ 2 e.
Proof. apply powerRZ_lt. lra. Qed.

Lemma pow2_add (a b : Z) : powerRZ 2 (a + b) = powerRZ 2 a * powerRZ 2 b.
Proof. apply powerRZ_add. lra. Qed.

Lemma sign_R_xorb (a b : bool) : sign_R (xorb a b) = sign_R a * sign_R b.
Proof. destruct a, b; unfold sign_R; simpl; lra. Qed.

Lemma Rabs_sign_R (s : bool) (x : R) : Rabs (sign_R s * x) = Rabs x.
Proof.
  destruct s; unfold sign_R.
  - replace (-1 * x) with (- x) by lra. apply Rabs_Ropp.
  - f_equal. lra.
Qed.

Lemma Rabs_le_inv (x a : R) : Rabs x <= a -> - a <= x <= a.
Proof. unfold Rabs. destruct (Rcase_abs x); lra. Qed.

(** The integer error bound of a rounding, read on the reals. *)
Lemma round_error_R (mx mf : positive) (ex ef : Z) :
  (ex <= ef)%Z ->
  (2 ^ 53 * Z.abs (Zpos mx - Zpos mf * 2 ^ (ef - ex)) <= Zpos mx)%Z ->
  Rabs (IZR (Zpos mf) * powerRZ 2 ef - IZR (Zpos mx) * powerRZ 2 ex)
  <= u64 * (IZR (Zpos mx) * powerRZ 2 ex).
Proof.
  intros Hk Herr.
  replace ef with (ex + (ef - ex))%Z at 1 by lia.
  rewrite pow2_add, <- (IZR_pow2 (ef - ex)) by lia.
  replace (IZR (Zpos mf) * (powerRZ 2 ex * IZR (2 ^ (ef - ex))) -
           IZR (Zpos mx) * powerRZ 2 ex)
    with (- (IZR (Zpos mx - Zpos mf * 2 ^ (ef - ex))) * powerRZ 2 ex)
    by (rewrite minus_IZR, mult_IZR; ring).
  rewrite Rabs_mult, Rabs_Ropp, Rabs_Zabs, (Rabs_pos_eq (powerRZ 2 ex))
    by (left; apply pow2_pos).
  apply IZR_le in Herr. rewrite mult_IZR in Herr.
  unfold u64.
  assert (Hp := pow2_pos ex).
  assert (H53 : 0 < IZR (2 ^ 53)) by (apply IZR_lt; reflexivity).
  set (a := IZR (Z.abs (Zpos mx - Zpos mf * 2 ^ (ef - ex)))) in *.
  apply Rmult_le_reg_l with (IZR (2 ^ 53)); auto.
  rewrite <- !Rmult_assoc, Rinv_r, Rmult_1_l by lra.
  apply Rmult_le_compat_r; lra.
Qed.

End Value.

(** ** [float(n)] *)

Section FloatOfInt.

Lemma iter_xO_pow2 (d m : positive) :
  Zpos (Pos.iter xO m d) = Zpos m * 2 ^ Zpos d.
Proof.
  induction d as [|d IH] using Pos.peano_ind.
  - cbn [Pos.iter]. rewrite Pos2Z.inj_xO. change (2 ^ 1) with 2. ring.
  - rewrite Pos.iter_succ, Pos2Z.inj_xO, IH, Pos2Z.inj_succ, Z.pow_succ_r by lia.
    ring.
Qed.

(** Aligning a mantissa to the binary64 exponent of its value keeps the
    value and gives it at least 53 bits. *)
Lemma shl_align_fexp (m : positive) :
  exists (mz : positive) (ez : Z),
    shl_align m 0 (fexp Py.prec Py.emax (Zdigits2 (Zpos m) + 0)) = (mz, ez) /\
    ez <= 0 /\ Zpos mz = Zpos m * 2 ^ (- ez) /\
    53 <= Zdigits2 (Zpos mz) /\ Zdigits2 (Zpos mz) + ez = Zdigits2 (Zpos m).
Proof.
  set (d := Zdigits2 (Zpos m)).
  assert (Hd1 : 1 <= d) by (unfold d; simpl; lia).
  rewrite fexp_eq, Z.max_l by lia. unfold shl_align.
  replace (d + 0 - 53 - 0) with (d - 53) by lia.
  destruct (d - 53) as [|k|k] eqn:Hk.
  - exists m, 0. fold d. repeat split; try lia.
  - exists m, 0. fold d. repeat split; try lia.
  - exists (Pos.iter xO m k), (d + 0 - 53).
    assert (Hz : Zpos (Pos.iter xO m k) = Zpos m * 2 ^ (- (d + 0 - 53))).
    { rewrite iter_xO_pow2. do 2 f_equal. lia. }
    assert (Hdz : Zdigits2 (Zpos (Pos.iter xO m k)) = 53).
    { apply Zdigits2_unique; [|lia]. rewrite Hz.
      destruct (Zdigits2_bounds (Zpos m)) as [Hl Hu]; [lia|]. fold d in Hl, Hu.
      assert (H52 : 2 ^ (53 - 1) = 2 ^ (d - 1) * 2 ^ (- (d + 0 - 53)))
        by (rewrite <- Z.pow_add_r by lia; f_equal; lia).
      assert (H53 : 2 ^ 53 = 2 ^ d * 2 ^ (- (d + 0 - 53)))
        by (rewrite <- Z.pow_add_r by lia; f_equal; lia).
      rewrite H52, H53.
      assert (0 < 2 ^ (- (d + 0 - 53))) by (apply Z.pow_pos_nonneg; lia).
      nia. }
    repeat split; try lia.
Qed.

Local Open Scope R_scope.

(** [float(n)] of a positive [n] raises [OverflowError] or is a normalised
    double within a relative error [u64] of [n]. *)
Lemma float_of_pos_cases (n : positive) :
  Py.float_of_int (Zpos n) = Raise OverflowError \/
  exists (mf : positive) (ef : Z),
    Py.float_of_int (Zpos n) = Ok (S754_finite false mf ef) /\
    Zdigits2 (Zpos mf) = 53%Z /\
    (Zdigits2 (Zpos n) - 53 <= ef <= Zdigits2 (Zpos n) - 52)%Z /\
    (ef <= 971)%Z /\
    Rabs (F2R (S754_finite false mf ef) - IZR (Zpos n)) <= u64 * IZR (Zpos n).
Proof.
  assert (Hd1 : (1 <= Zdigits2 (Zpos n))%Z) by (simpl; lia).
  destruct (shl_align_fexp n) as (mz & ez & Hal & Hez & Hmz & Hdz & Hsum).
  unfold Py.float_of_int, binary_normalize, binary_round.
  change (Zpos (digits2_pos n) + 0)%Z with (Zdigits2 (Zpos n) + 0)%Z.
  rewrite Hal.
  destruct (binary_round_aux_cases false mz ez)
    as [Hinf|(mf & ef & Hr & Hdf & Hef & Hfit & Herr)]; try lia.
  { left. rewrite Hinf. reflexivity. }
  right. rewrite Hr. exists mf, ef. repeat split; try assumption; try lia.
  assert (Hval : IZR (Zpos mz) * powerRZ 2 ez = IZR (Zpos n)).
  { rewrite Hmz, mult_IZR, IZR_pow2 by lia.
    rewrite Rmult_assoc, <- pow2_add.
    replace (- ez + ez)%Z with 0%Z by lia. simpl. ring. }
  unfold F2R, sign_R. rewrite Rmult_1_l, <- Hval.
  apply round_error_R; [lia|assumption].
Qed.

(** Below 2^1023 it does not raise. *)
Lemma float_of_pos_normal (n : positive) :
  (Zpos n < 2 ^ 1023)%Z ->
  exists (mf : positive) (ef : Z),
    Py.float_of_int (Zpos n) = Ok (S754_finite false mf ef) /\
    Zdigits2 (Zpos mf) = 53%Z /\
    (Zdigits2 (Zpos n) - 53 <= ef <= Zdigits2 (Zpos n) - 52)%Z /\
    Rabs (F2R (S754_finite false mf ef) - IZR (Zpos n)) <= u64 * IZR (Zpos n).
Proof.
  intros Hn.
  destruct (float_of_pos_cases n) as [Hraise|(mf & ef & Hfl & Hdf & Hef & _ & Herr)].
  - exfalso.
    assert (Hd : (Zdigits2 (Zpos n) <= 1023)%Z) by (apply Zdigits2_le; lia).
    assert (Hd1 : (1 <= Zdigits2 (Zpos n))%Z) by (simpl; lia).
    destruct (shl_align_fexp n) as (mz & ez & Hal & Hez & Hmz & Hdz & Hsum).
    revert Hraise. unfold Py.float_of_int, binary_normalize, binary_round.
    change (Zpos (digits2_pos n) + 0)%Z with (Zdigits2 (Zpos n) + 0)%Z.
    rewrite Hal.
    destruct (binary_round_aux_normal false mz ez) as (mf & ef & Hr & _); try lia.
    rewrite Hr. discriminate.
  - exists mf, ef. auto.
Qed.

End FloatOfInt.

(** ** Products and truncation *)

Section Product.

Lemma Zdigits2_mul_53 (m1 m2 : positive) :
  Zdigits2 (Zpos m1) = 53 -> Zdigits2 (Zpos m2) = 53 ->
  105 <= Zdigits2 (Zpos (m1 * m2)) <= 106.
Proof.
  intros H1 H2.
  destruct (Zdigits2_bounds (Zpos m1)) as [L1 U1]; [lia|].
  destruct (Zdigits2_bounds (Zpos m2)) as [L2 U2]; [lia|].
  rewrite H1 in L1, U1. rewrite H2 in L2, U2.
  rewrite Pos2Z.inj_mul.
  assert (Hl : 2 ^ 104 <= Zpos m1 * Zpos m2).
  { change (2 ^ 104) with (2 ^ (53 - 1) * 2 ^ (53 - 1)). nia. }
  assert (Hu : Zpos m1 * Zpos m2 < 2 ^ 106).
  { change (2 ^ 106) with (2 ^ 53 * 2 ^ 53). nia. }
  split.
  - destruct (Zdigits2_bounds (Zpos m1 * Zpos m2)) as [_ U]; [lia|].
    destruct (Z.le_gt_cases 105 (Zdigits2 (Zpos m1 * Zpos m2))) as [|Hlt]; auto.
    assert (2 ^ Zdigits2 (Zpos m1 * Zpos m2) <= 2 ^ 104)
      by (apply Z.pow_le_mono_r; lia).
    lia.
  - apply Zdigits2_le; lia.
Qed.

Local Open Scope R_scope.

(** The product of two normalised doubles, away from underflow: an
    infinity, or finite, normalised, within a relative error [u64]. *)
Lemma SFmul_cases (s1 s2 : bool) (m1 m2 : positive) (e1 e2 : Z) :
  Zdigits2 (Zpos m1) = 53%Z -> Zdigits2 (Zpos m2) = 53%Z ->
  (-1126 <= e1 + e2)%Z ->
  SFmul Py.prec Py.emax (S754_finite s1 m1 e1) (S754_finite s2 m2 e2)
    = S754_infinity (xorb s1 s2) \/
  exists (mf : positive) (ef : Z),
    SFmul Py.prec Py.emax (S754_finite s1 m1 e1) (S754_finite s2 m2 e2)
      = S754_finite (xorb s1 s2) mf ef /\
    Zdigits2 (Zpos mf) = 53%Z /\
    (e1 + e2 + 52 <= ef <= e1 + e2 + 54)%Z /\
    Rabs (F2R (S754_finite (xorb s1 s2) mf ef)
          - F2R (S754_finite s1 m1 e1) * F2R (S754_finite s2 m2 e2))
    <= u64 * Rabs (F2R (S754_finite s1 m1 e1) * F2R (S754_finite s2 m2 e2)).
Proof.
  intros H1 H2 He.
  pose proof (Zdigits2_mul_53 m1 m2 H1 H2) as Hd.
  cbn [SFmul].
  destruct (binary_round_aux_cases (xorb s1 s2) (m1 * m2) (e1 + e2))
    as [Hinf|(mf & ef & Hr & Hdf & Hef & _ & Herr)]; try lia.
  { left. exact Hinf. }
  right. rewrite Hr. exists mf, ef. repeat split; try assumption; try lia.
  assert (Hprod : F2R (S754_finite s1 m1 e1) * F2R (S754_finite s2 m2 e2)
                  = sign_R (xorb s1 s2) * (IZR (Zpos (m1 * m2)) * powerRZ 2 (e1 + e2))).
  { unfold F2R. rewrite sign_R_xorb, Pos2Z.inj_mul, mult_IZR, pow2_add. ring. }
  rewrite Hprod. unfold F2R.
  replace (sign_R (xorb s1 s2) * IZR (Zpos mf) * powerRZ 2 ef -
           sign_R (xorb s1 s2) * (IZR (Zpos (m1 * m2)) * powerRZ 2 (e1 + e2)))
    with (sign_R (xorb s1 s2) *
          (IZR (Zpos mf) * powerRZ 2 ef - IZR (Zpos (m1 * m2)) * powerRZ 2 (e1 + e2)))
    by ring.
  rewrite !Rabs_sign_R.
  rewrite (Rabs_pos_eq (IZR (Zpos (m1 * m2)) * powerRZ 2 (e1 + e2))).
  - apply round_error_R; [lia|assumption].
  - apply Rmult_le_pos; [apply IZR_le; lia|left; apply pow2_pos].
Qed.

(** Below the overflow threshold the product is finite. *)
Lemma SFmul_normal (s1 s2 : bool) (m1 m2 : positive) (e1 e2 : Z) :
  Zdigits2 (Zpos m1) = 53%Z -> Zdigits2 (Zpos m2) = 53%Z ->
  (-1126 <= e1 + e2 <= 917)%Z ->
  exists (mf : positive) (ef : Z),
    SFmul Py.prec Py.emax (S754_finite s1 m1 e1) (S754_finite s2 m2 e2)
      = S754_finite (xorb s1 s2) mf ef /\
    Zdigits2 (Zpos mf) = 53%Z /\
    (e1 + e2 + 52 <= ef <= e1 + e2 + 54)%Z /\
    Rabs (F2R (S754_finite (xorb s1 s2) mf ef)
          - F2R (S754_finite s1 m1 e1) * F2R (S754_finite s2 m2 e2))
    <= u64 * Rabs (F2R (S754_finite s1 m1 e1) * F2R (S754_finite s2 m2 e2)).
Proof.
  intros H1 H2 He.
  destruct (SFmul_cases s1 s2 m1 m2 e1 e2 H1 H2) as [Hinf|Hfin]; [lia| |exact Hfin].
  exfalso. pose proof (Zdigits2_mul_53 m1 m2 H1 H2) as Hd.
  cbn [SFmul] in Hinf.
  pose proof (binary_round_aux_finite (xorb s1 s2) (Zpos (m1 * m2)) (e1 + e2) loc_Exact)
    as Hfin.
  rewrite Hinf in Hfin. discriminate Hfin; lia.
Qed.

(** Truncation of a positive double. *)
Lemma int_of_float_pos (m : positive) (e : Z) :
  exists T : Z,
    Py.int_of_float (S754_finite false m e) = Ok T /\
    (0 <= T)%Z /\
    IZR T <= F2R (S754_finite false m e) < IZR T + 1.
Proof.
  unfold Py.int_of_float, cond_Zopp, F2R, sign_R. rewrite Rmult_1_l.
  exists (Z.shiftl (Zpos m) e). split; [reflexivity|].
  destruct (Z.le_gt_cases 0 e) as [He|He].
  - rewrite Z.shiftl_mul_pow2 by lia.
    assert (0 < 2 ^ e)%Z by (apply Z.pow_pos_nonneg; lia).
    split; [nia|]. rewrite mult_IZR, IZR_pow2 by lia. lra.
  - rewrite Z.shiftl_div_pow2 by lia.
    assert (HD : (0 < 2 ^ (- e))%Z) by (apply Z.pow_pos_nonneg; lia).
    pose proof (Z.div_mod (Zpos m) (2 ^ (- e)) ltac:(lia)) as Hdm.
    pose proof (Z.mod_pos_bound (Zpos m) (2 ^ (- e)) HD) as Hmod.
    set (q := (Zpos m / 2 ^ (- e))%Z) in *.
    split; [apply Z.div_pos; lia|].
    assert (Hp : powerRZ 2 e * IZR (2 ^ (- e)) = 1).
    { rewrite IZR_pow2, <- pow2_add by lia.
      replace (e + - e)%Z with 0%Z by lia. reflexivity. }
    assert (Hpe := pow2_pos e).
    assert (HDR : 0 < IZR (2 ^ (- e))) by (apply IZR_lt; lia).
    assert (Hlo : IZR q * IZR (2 ^ (- e)) <= IZR (Zpos m)).
    { rewrite <- mult_IZR. apply IZR_le. lia. }
    assert (Hhi : IZR (Zpos m) < (IZR q + 1) * IZR (2 ^ (- e))).
    { rewrite <- plus_IZR, <- mult_IZR. apply IZR_lt. lia. }
    split.
    + apply Rmult_le_reg_r with (IZR (2 ^ (- e))); auto.
      rewrite Rmult_assoc, Hp. lra.
    + apply Rmult_lt_reg_r with (IZR (2 ^ (- e))); auto.
      rewrite Rmult_assoc, Hp. lra.
Qed.

End Product.

(** ** [int(n * c)] for a float literal [c] *)

Section IntMul.

Local Open Scope R_scope.

Lemma literal_like_inv (c : Py.float) :
  literal_like c = true ->
  exists (m : positive) (e : Z),
    c = S754_finite false m e /\ Zdigits2 (Zpos m) = 53%Z /\
    (-100 <= e <= 0)%Z /\ 0 < F2R c <= 3 / 2.
Proof.
  destruct c as [| | |[] m e]; try discriminate. cbn [literal_like].
  rewrite !andb_true_iff, Z.eqb_eq, !Z.leb_le. intros [[[Hd Hl] Hu] Hb].
  exists m, e. repeat split; try assumption.
  - unfold F2R, sign_R. rewrite Rmult_1_l.
    apply Rmult_lt_0_compat; [apply IZR_lt; lia|apply pow2_pos].
  - unfold F2R, sign_R. rewrite Rmult_1_l.
    assert (HD : 0 < IZR (2 ^ (- e))).
    { apply IZR_lt. apply Z.pow_pos_nonneg; lia. }
    assert (Hp : powerRZ 2 e * IZR (2 ^ (- e)) = 1).
    { rewrite IZR_pow2, <- pow2_add by lia.
      replace (e + - e)%Z with 0%Z by lia. reflexivity. }
    apply IZR_le in Hb. rewrite !mult_IZR in Hb.
    apply Rmult_le_reg_r with (IZR (2 ^ (- e))); auto.
    rewrite Rmult_assoc, Hp. lra.
Qed.

(** The two roundings of [int(n * c)], chained. *)
Lemma int_mul_chain (n vb vc vf t : R) :
  0 < n -> 0 < vc ->
  Rabs (vb - n) <= u64 * n ->
  Rabs (vf - vb * vc) <= u64 * Rabs (vb * vc) ->
  t <= vf < t + 1 ->
  t <= n * vc * ((1 + u64) * (1 + u64)) /\
  n * vc * ((1 - u64) * (1 - u64)) < t + 1.
Proof.
  intros Hn Hvc Herrb Herr Ht.
  assert (Hu : 0 < u64 < 1).
  { unfold u64. split.
    - apply Rinv_0_lt_compat. apply IZR_lt. reflexivity.
    - rewrite <- Rinv_1. apply Rinv_lt_contravar; [|apply IZR_lt; reflexivity].
      rewrite Rmult_1_l. apply IZR_lt. reflexivity. }
  apply Rabs_le_inv in Herrb.
  assert (Hvb : 0 < vb) by nra.
  rewrite (Rabs_pos_eq (vb * vc)) in Herr by nra.
  apply Rabs_le_inv in Herr.
  split.
  - apply Rle_trans with vf; [lra|].
    apply Rle_trans with (vb * vc * (1 + u64)); [lra|].
    replace (n * vc * ((1 + u64) * (1 + u64)))
      with (n * (1 + u64) * vc * (1 + u64)) by ring.
    apply Rmult_le_compat_r; [lra|].
    apply Rmult_le_compat_r; lra.
  - apply Rle_lt_trans with vf; [|lra].
    apply Rle_trans with (vb * vc * (1 - u64)); [|lra].
    replace (n * vc * ((1 - u64) * (1 - u64)))
      with (n * (1 - u64) * vc * (1 - u64)) by ring.
    apply Rmult_le_compat_r; [lra|].
    apply Rmult_le_compat_r; lra.
Qed.

(** The rounding error model of [int(n * c)] for a positive [n], wherever
    the product is computed at all. *)
Lemma int_mul_pos_inv (n : positive) (c : Py.float) (T : Z) :
  literal_like c = true ->
  Py.int_mul (Zpos n) c = Ok T ->
  (0 <= T)%Z /\
  IZR T <= IZR (Zpos n) * F2R c * ((1 + u64) * (1 + u64)) /\
  IZR (Zpos n) * F2R c * ((1 - u64) * (1 - u64)) < IZR T + 1.
Proof.
  intros Hc HT.
  destruct (literal_like_inv c Hc) as (mc & ec & -> & Hdc & Hec & Hvc).
  assert (Hd1 : (1 <= Zdigits2 (Zpos n))%Z) by (simpl; lia).
  unfold Py.int_mul, Py.mul_int_float in HT.
  destruct (float_of_pos_cases n)
    as [Hraise|(mb & eb & Hfl & Hdb & Heb & _ & Herrb)];
    rewrite ?Hraise, ?Hfl in HT; cbn [bind] in HT; [discriminate|].
  destruct (SFmul_cases false false mb mc eb ec Hdb Hdc)
    as [Hinf|(mf & ef & Hmul & _ & _ & Herr)]; [lia| |];
    rewrite ?Hinf, ?Hmul in HT; cbn [xorb Py.int_of_float] in HT; [discriminate|].
  destruct (int_of_float_pos mf ef) as (T' & HT' & HT0 & HTb).
  cbn [Py.int_of_float] in HT'. rewrite HT' in HT. injection HT as <-.
  split; [assumption|].
  apply int_mul_chain with (vb := F2R (S754_finite false mb eb))
                           (vf := F2R (S754_finite false mf ef)); auto.
  - apply IZR_lt; lia.
  - apply Hvc.
Qed.

(** Below 2^960 the product is computed. *)
Lemma int_mul_pos (n : positive) (c : Py.float) :
  (Zpos n < 2 ^ 960)%Z -> literal_like c = true ->
  exists T : Z, Py.int_mul (Zpos n) c = Ok T.
Proof.
  intros Hn Hc.
  destruct (literal_like_inv c Hc) as (mc & ec & -> & Hdc & Hec & Hvc).
  assert (Hd : (Zdigits2 (Zpos n) <= 960)%Z) by (apply Zdigits2_le; lia).
  assert (Hd1 : (1 <= Zdigits2 (Zpos n))%Z) by (simpl; lia).
  destruct (float_of_pos_normal n) as (mb & eb & Hfl & Hdb & Heb & Herrb).
  { eapply Z.lt_trans; [exact Hn|reflexivity]. }
  destruct (SFmul_normal false false mb mc eb ec Hdb Hdc) as (mf & ef & Hmul & _).
  { lia. }
  unfold Py.int_mul, Py.mul_int_float. rewrite Hfl. cbn [bind].
  rewrite Hmul. cbn [xorb Py.int_of_float]. eexists; reflexivity.
Qed.

End IntMul.

Section Totality.

(** A quotient of integers stays finite while the dividend is below
    2^1000. *)
Lemma truediv_finite (a b : Z) :
  b <> 0 -> Z.abs a < 2 ^ 1000 * Z.abs b ->
  exists x : Py.float, Py.truediv a b = Ok x /\ is_finite x = true.
Proof.
  intros Hb Ha. unfold Py.truediv.
  rewrite (proj2 (Z.eqb_neq b 0) Hb).
  unfold SFdiv_core_binary.
  set (d1 := Zdigits2 (Z.abs a)). set (d2 := Zdigits2 (Z.abs b)).
  rewrite fexp_eq.
  set (e' := Z.min (Z.max (d1 + 0 - (d2 + 0) - 53) (-1074)) (0 - 0)).
  set (m' := match 0 - 0 - e' with
             | 0 => Z.abs a
             | Zpos _ => Z.shiftl (Z.abs a) (0 - 0 - e')
             | Zneg _ => 0
             end).
  assert (He' : e' <= 0) by (unfold e'; lia).
  assert (HP : 0 < 2 ^ (- e')) by (apply Z.pow_pos_nonneg; lia).
  assert (Hm' : 0 <= m' < 2 ^ (1000 - e') * Z.abs b).
  { replace (1000 - e') with (1000 + - e') by lia. rewrite Z.pow_add_r by lia.
    unfold m'. destruct (0 - 0 - e') as [|p|p] eqn:Hs.
    - replace (- e') with 0 by lia. change (2 ^ 0) with 1. lia.
    - rewrite Z.shiftl_mul_pow2 by lia. replace (Zpos p) with (- e') by lia. nia.
    - nia. }
  destruct (Z.div_eucl m' (Z.abs b)) as [q r] eqn:Hqr.
  assert (Hq : q = m' / Z.abs b) by (unfold Z.div; rewrite Hqr; reflexivity).
  assert (Hq0 : 0 <= q < 2 ^ (1000 - e')).
  { subst q. split; [apply Z.div_pos; lia|].
    apply Z.div_lt_upper_bound; [lia|]. lia. }
  pose proof (binary_round_aux_finite (xorb (a <? 0) (b <? 0)) q e'
                (new_location (Z.abs b) r)) as Hfin.
  destruct (binary_round_aux Py.prec Py.emax (xorb (a <? 0) (b <? 0)) q e'
              (new_location (Z.abs b) r)) as [sz|sz| |sz mz ez] eqn:Hres.
  - eexists; split; reflexivity.
  - exfalso. assert (false = true); [|discriminate].
    apply Hfin; [lia|].
    assert (Zdigits2 q <= 1000 - e') by (apply Zdigits2_le; lia). lia.
  - exfalso. assert (false = true); [|discriminate].
    apply Hfin; [lia|].
    assert (Zdigits2 q <= 1000 - e') by (apply Zdigits2_le; lia). lia.
  - eexists; split; reflexivity.
Qed.

Lemma binary_round_aux_sign (s : bool) (mx ex : Z) (lx : location) :
  binary_round_aux Py.prec Py.emax s mx ex lx =
  with_sign s (binary_round_aux Py.prec Py.emax false mx ex lx).
Proof.
  rewrite !binary_round_aux_eq. cbv zeta.
  destruct (shr_m _); try reflexivity.
  destruct (_ <=? _); reflexivity.
Qed.

Lemma float_of_int_opp (n : positive) :
  Py.float_of_int (Zneg n) =
  x <- Py.float_of_int (Zpos n) ;; Ok (with_sign true x).
Proof.
  unfold Py.float_of_int, binary_normalize, binary_round.
  destruct (shl_align n 0 _) as [mz ez].
  rewrite (binary_round_aux_sign true).
  destruct (binary_round_aux Py.prec Py.emax false (Zpos mz) ez loc_Exact); reflexivity.
Qed.

Lemma SFmul_with_sign (x : Py.float) (mc : positive) (ec : Z) :
  SFmul Py.prec Py.emax (with_sign true x) (S754_finite false mc ec) =
  with_sign true (SFmul Py.prec Py.emax (with_sign false x) (S754_finite false mc ec)).
Proof.
  destruct x as [s|s| |s m e]; try reflexivity.
  cbn [with_sign SFmul xorb].
  rewrite (binary_round_aux_sign true). reflexivity.
Qed.

Lemma int_of_float_with_sign (x : Py.float) :
  Py.int_of_float (with_sign true x) =
  T <- Py.int_of_float (with_sign false x) ;; Ok (- T).
Proof. destruct x as [s|s| |s m e]; reflexivity. Qed.

Lemma with_sign_idem (s t : bool) (x : Py.float) :
  with_sign s (with_sign t x) = with_sign s x.
Proof. destruct x; reflexivity. Qed.

Lemma float_of_pos_sign (n : positive) (x : Py.float) :
  Py.float_of_int (Zpos n) = Ok x -> with_sign false x = x.
Proof.
  unfold Py.float_of_int, binary_normalize, binary_round.
  destruct (shl_align n 0 _) as [mz ez].
  rewrite (binary_round_aux_sign false).
  destruct (binary_round_aux Py.prec Py.emax false (Zpos mz) ez loc_Exact);
    cbn [with_sign]; intros H; try discriminate; injection H as <-; reflexivity.
Qed.

Lemma SFmul_pos_sign (x : Py.float) (mc : positive) (ec : Z) :
  with_sign false x = x ->
  with_sign false (SFmul Py.prec Py.emax x (S754_finite false mc ec))
  = SFmul Py.prec Py.emax x (S754_finite false mc ec).
Proof.
  destruct x as [s|s| |s m e]; cbn [with_sign]; intros H;
    try (injection H as <-); try reflexivity.
  cbn [SFmul xorb]. rewrite (binary_round_aux_sign false), with_sign_idem.
  reflexivity.
Qed.

(** [int(-n * c) = - int(n * c)]. *)
Lemma int_mul_opp (n : positive) (c : Py.float) :
  literal_like c = true ->
  Py.int_mul (Zneg n) c = T <- Py.int_mul (Zpos n) c ;; Ok (- T).
Proof.
  intros Hc. destruct (literal_like_inv c Hc) as (mc & ec & -> & _).
  unfold Py.int_mul, Py.mul_int_float. rewrite float_of_int_opp.
  destruct (Py.float_of_int (Zpos n)) as [x|e] eqn:Hx; [|reflexivity].
  cbn [bind]. apply float_of_pos_sign in Hx.
  rewrite SFmul_with_sign, int_of_float_with_sign, Hx, SFmul_pos_sign by exact Hx.
  reflexivity.
Qed.

Lemma int_mul_zero (c : Py.float) :
  literal_like c = true -> Py.int_mul 0 c = Ok 0.
Proof.
  intros Hc. destruct (literal_like_inv c Hc) as (mc & ec & -> & _). reflexivity.
Qed.

Local Open Scope R_scope.

Lemma u64_small : 0 < u64 < 1 / 1000000.
Proof. unfold u64. change (2 ^ 53)%Z with 9007199254740992%Z. lra. Qed.

(** The error model for a non-negative [n]. *)
Lemma int_mul_nonneg_inv (n : Z) (c : Py.float) (T : Z) :
  (0 <= n)%Z -> literal_like c = true ->
  Py.int_mul n c = Ok T ->
  (0 <= T)%Z /\
  IZR T <= IZR n * F2R c * ((1 + u64) * (1 + u64)) /\
  IZR n * F2R c * ((1 - u64) * (1 - u64)) < IZR T + 1.
Proof.
  intros Hn Hc HT. destruct n as [|n|n]; try lia.
  - rewrite int_mul_zero in HT by assumption. injection HT as <-.
    split; [lia|]. rewrite !Rmult_0_l. lra.
  - apply int_mul_pos_inv; assumption.
Qed.

(** [int(n * c)] is computed for every [n] below 2^960 in absolute value,
    and is at most twice as large. *)
Lemma int_mul_total (n : Z) (c : Py.float) :
  (Z.abs n < 2 ^ 960)%Z -> literal_like c = true ->
  exists T : Z, Py.int_mul n c = Ok T /\ (Z.abs T <= 2 * Z.abs n)%Z.
Proof.
  intros Hn Hc.
  assert (Hpos : forall p : positive, (Zpos p < 2 ^ 960)%Z ->
            exists T : Z, Py.int_mul (Zpos p) c = Ok T /\ (0 <= T <= 2 * Zpos p)%Z).
  { intros p Hp. destruct (int_mul_pos p c Hp Hc) as [T HT].
    exists T. split; [exact HT|].
    destruct (int_mul_pos_inv p c T Hc HT) as (HT0 & Hup & _).
    split; [assumption|].
    destruct (literal_like_inv c Hc) as (mc & ec & _ & _ & _ & Hvc).
    pose proof u64_small as Hu.
    assert (Hp0 : 0 < IZR (Zpos p)) by (apply IZR_lt; lia).
    apply le_IZR. rewrite mult_IZR.
    apply Rle_trans with (1 := Hup).
    apply Rle_trans with (IZR (Zpos p) * (3 / 2) * ((1 + u64) * (1 + u64))).
    - apply Rmult_le_compat_r; [nra|].
      apply Rmult_le_compat_l; lra.
    - assert ((1 + u64) * (1 + u64) <= 4 / 3) by nra. nra. }
  destruct n as [|p|p].
  - exists 0%Z. rewrite int_mul_zero by assumption. split; [reflexivity|lia].
  - destruct (Hpos p) as (T & HT & Hb); [lia|]. exists T. split; [exact HT|lia].
  - destruct (Hpos p) as (T & HT & Hb); [lia|].
    exists (- T)%Z. rewrite int_mul_opp, HT by assumption. split; [reflexivity|lia].
Qed.

(** [float(n)] is computed for every [n] below 2^1023 in absolute value. *)
Lemma float_of_int_total (n : Z) :
  (Z.abs n < 2 ^ 1023)%Z ->
  exists x : Py.float, Py.float_of_int n = Ok x /\ is_finite x = true.
Proof.
  intros Hn. destruct n as [|p|p].
  - eexists; split; reflexivity.
  - destruct (float_of_pos_normal p) as (m & e & H & _); [lia|].
    rewrite H. eexists; split; reflexivity.
  - destruct (float_of_pos_normal p) as (m & e & H & _); [lia|].
    rewrite float_of_int_opp, H. eexists; split; reflexivity.
Qed.

Lemma int_of_float_finite (x : Py.float) :
  is_finite x = true -> exists T : Z, Py.int_of_float x = Ok T.
Proof. destruct x; try discriminate; eexists; reflexivity. Qed.

(** The exact value of a positive double with a negative exponent. *)
Lemma F2R_literal (m : positive) (e : Z) :
  (e <= 0)%Z -> F2R (S754_finite false m e) = IZR (Zpos m) / IZR (2 ^ (- e)).
Proof.
  intros He. unfold F2R, sign_R. rewrite Rmult_1_l.
  replace e with (- (- e))%Z at 1 by lia.
  rewrite powerRZ_neg', <- IZR_pow2 by lia. reflexivity.
Qed.

End Totality.

(** ** Strings *)
Section Strings.

Lemma is_space_lower_char (c : ascii) :
  Py.is_space (Py.lower_char c) = Py.is_space c.
Proof. destruct c as [[] [] [] [] [] [] [] []]; reflexivity. Qed.

Lemma lower_lstrip (s : string) : Py.lower (Py.lstrip s) = Py.lstrip (Py.lower s).
Proof.
  induction s as [|c s IH]; [reflexivity|].
  cbn [Py.lstrip Py.lower]. rewrite is_space_lower_char.
  destruct (Py.is_space c); [exact IH|reflexivity].
Qed.

Lemma lower_rstrip (s : string) : Py.lower (Py.rstrip s) = Py.rstrip (Py.lower s).
Proof.
  induction s as [|c s IH]; [reflexivity|].
  cbn [Py.rstrip Py.lower]. rewrite <- IH, is_space_lower_char.
  destruct (Py.rstrip s); cbn [Py.lower]; [|reflexivity].
  destruct (Py.is_space c); reflexivity.
Qed.

Lemma lower_strip (s : string) : Py.lower (Py.strip s) = Py.strip (Py.lower s).
Proof. unfold Py.strip. rewrite lower_rstrip, lower_lstrip. reflexivity. Qed.

Lemma prefix_cons (a b : ascii) (w s : string) :
  String.prefix (String a w) (String b s) = true <-> a = b /\ String.prefix w s = true.
Proof.
  cbn [String.prefix]. destruct (ascii_dec a b) as [->|Hne]; split.
  - auto.
  - intros [_ H]; exact H.
  - discriminate.
  - intros [H _]; contradiction.
Qed.

Lemma contains_prefix (w s : string) :
  String.prefix w s = true -> Py.contains w s = true.
Proof.
  destruct s; cbn [Py.contains]; intros H; [exact H|].
  rewrite H. reflexivity.
Qed.

Lemma contains_lstrip (w s : string) :
  starts_nonspace w = true ->
  Py.contains w s = true -> Py.contains w (Py.lstrip s) = true.
Proof.
  destruct w as [|a w]; [discriminate|]. cbn [starts_nonspace]. intros Ha.
  induction s as [|b s IH]; [auto|].
  cbn [Py.lstrip]. destruct (Py.is_space b) eqn:Hb; [|auto].
  cbn [Py.contains]. rewrite orb_true_iff. intros [H|H]; [|auto].
  apply prefix_cons in H. destruct H as [-> _].
  rewrite Hb in Ha. discriminate.
Qed.

Lemma prefix_rstrip (w : string) :
  ends_nonspace w = true ->
  forall s : string,
    String.prefix w s = true -> String.prefix w (Py.rstrip s) = true.
Proof.
  induction w as [|a w IH]; [discriminate|].
  intros Hw [|b s] H; [discriminate|].
  apply prefix_cons in H. destruct H as [<- H].
  cbn [Py.rstrip]. destruct w as [|a' w].
  - cbn [ends_nonspace] in Hw. apply negb_true_iff in Hw. rewrite Hw.
    destruct (Py.rstrip s); apply prefix_cons; split; reflexivity.
  - assert (Hw' : ends_nonspace (String a' w) = true) by exact Hw.
    specialize (IH Hw' s H).
    destruct (Py.rstrip s) as [|c r]; [discriminate|].
    apply prefix_cons. split; [reflexivity|exact IH].
Qed.

Lemma contains_rstrip (w s : string) :
  ends_nonspace w = true ->
  Py.contains w s = true -> Py.contains w (Py.rstrip s) = true.
Proof.
  intros Hw. induction s as [|b s IH]; [auto|].
  cbn [Py.contains]. rewrite orb_true_iff. intros [H|H].
  - apply contains_prefix. apply prefix_rstrip; assumption.
  - specialize (IH H). cbn [Py.rstrip].
    destruct (Py.rstrip s) as [|c r].
    + destruct w; discriminate.
    + cbn [Py.contains] in *. rewrite IH. apply orb_true_r.
Qed.

(** A word without blanks at its ends is found in a string exactly when
    it is found once the string is stripped. *)
Lemma contains_strip (w s : string) :
  starts_nonspace w = true -> ends_nonspace w = true ->
  Py.contains w s = true -> Py.contains w (Py.strip s) = true.
Proof.
  intros Hs He H. unfold Py.strip.
  apply contains_rstrip; [assumption|]. apply contains_lstrip; assumption.
Qed.

Lemma contains_lower_strip (w s : string) :
  starts_nonspace w = true -> ends_nonspace w = true ->
  Py.contains w (Py.lower s) = true ->
  Py.contains w (Py.lower (Py.strip s)) = true.
Proof.
  intros Hs He H. rewrite lower_strip. apply contains_strip; assumption.
Qed.

End Strings.

(** ** [int(n * c)] against exact arithmetic *)

Section Brackets.

(** [int(n * c)] between two rational multiples of [n]. *)
Lemma int_mul_bracket (n : Z) (c : Py.float) (T a b d : Z) :
  0 <= n -> literal_like c = true -> Py.int_mul n c = Ok T ->
  0 < d ->
  (IZR a / IZR d <= F2R c * ((1 - u64) * (1 - u64)))%R ->
  (F2R c * ((1 + u64) * (1 + u64)) <= IZR b / IZR d)%R ->
  0 <= T /\ d * T <= b * n /\ a * n < d * (T + 1).
Proof.
  intros Hn Hc HT Hd Ha Hb.
  destruct (int_mul_nonneg_inv n c T Hn Hc HT) as (HT0 & Hup & Hlo).
  assert (HdR : (0 < IZR d)%R) by (apply IZR_lt; lia).
  assert (HnR : (0 <= IZR n)%R) by (apply IZR_le; lia).
  split; [assumption|]. split.
  - apply le_IZR. rewrite !mult_IZR.
    apply Rle_trans with (IZR d * (IZR n * (IZR b / IZR d)))%R.
    + apply Rmult_le_compat_l; [lra|].
      apply Rle_trans with (1 := Hup). rewrite Rmult_assoc.
      apply Rmult_le_compat_l; assumption.
    + right. field. lra.
  - apply lt_IZR. rewrite !mult_IZR, plus_IZR.
    apply Rle_lt_trans with (IZR d * (IZR n * (IZR a / IZR d)))%R.
    + right. field. lra.
    + apply Rmult_lt_compat_l; [lra|].
      apply Rle_lt_trans with (2 := Hlo). rewrite Rmult_assoc.
      apply Rmult_le_compat_l; assumption.
Qed.

(** Evaluates the value of a literal and compares it with a fraction. *)
Ltac literal_bounds :=
  match goal with
  | |- context [F2R ?c] =>
      let c' := eval cbv in c in
      change c with c'; rewrite F2R_literal by (vm_compute; discriminate);
      match goal with
      | |- context [IZR (2 ^ ?k)] =>
          let v := eval vm_compute in (2 ^ k)%Z in
          change (2 ^ k)%Z with v
      end;
      unfold u64; change (2 ^ 53)%Z with 9007199254740992%Z; lra
  end.

Ltac bracket c a b d :=
  intros Hn HT;
  apply (int_mul_bracket _ c _ a b d); auto; try lia; try reflexivity;
  literal_bounds.

Lemma int_mul_1_10 (n T : Z) :
  0 <= n -> Py.int_mul n Py.c_1_10 = Ok T ->
  0 <= T /\ 1000 * T <= 1101 * n /\ 1099 * n < 1000 * (T + 1).
Proof. bracket Py.c_1_10 1099 1101 1000. Qed.

Lemma int_mul_0_90 (n T : Z) :
  0 <= n -> Py.int_mul n Py.c_0_90 = Ok T ->
  0 <= T /\ 1000 * T <= 901 * n /\ 899 * n < 1000 * (T + 1).
Proof. bracket Py.c_0_90 899 901 1000. Qed.

Lemma int_mul_1_08 (n T : Z) :
  0 <= n -> Py.int_mul n Py.c_1_08 = Ok T ->
  0 <= T /\ 1000 * T <= 1081 * n /\ 1079 * n < 1000 * (T + 1).
Proof. bracket Py.c_1_08 1079 1081 1000. Qed.

Lemma int_mul_0_58 (n T : Z) :
  0 <= n -> Py.int_mul n Py.c_0_58 = Ok T ->
  0 <= T /\ 1000 * T <= 581 * n /\ 579 * n < 1000 * (T + 1).
Proof. bracket Py.c_0_58 579 581 1000. Qed.

Lemma int_mul_0_40 (n T : Z) :
  0 <= n -> Py.int_mul n Py.c_0_40 = Ok T ->
  0 <= T /\ 1000 * T <= 401 * n /\ 399 * n < 1000 * (T + 1).
Proof. bracket Py.c_0_40 399 401 1000. Qed.

Lemma int_mul_0_88 (n T : Z) :
  0 <= n -> Py.int_mul n Py.c_0_88 = Ok T ->
  0 <= T /\ 1000 * T <= 881 * n /\ 879 * n < 1000 * (T + 1).
Proof. bracket Py.c_0_88 879 881 1000. Qed.

Lemma int_mul_0_82 (n T : Z) :
  0 <= n -> Py.int_mul n Py.c_0_82 = Ok T ->
  0 <= T /\ 1000 * T <= 821 * n /\ 819 * n < 1000 * (T + 1).
Proof. bracket Py.c_0_82 819 821 1000. Qed.

Lemma int_mul_1_15 (n T : Z) :
  0 <= n -> Py.int_mul n Py.c_1_15 = Ok T ->
  0 <= T /\ 1000 * T <= 1151 * n /\ 1149 * n < 1000 * (T + 1).
Proof. bracket Py.c_1_15 1149 1151 1000. Qed.

Lemma int_mul_1_5 (n T : Z) :
  0 <= n -> Py.int_mul n Py.c_1_5 = Ok T ->
  0 <= T /\ 1000 * T <= 1501 * n /\ 1499 * n < 1000 * (T + 1).
Proof. bracket Py.c_1_5 1499 1501 1000. Qed.

Lemma int_mul_0_80 (n T : Z) :
  0 <= n -> Py.int_mul n Py.c_0_80 = Ok T ->
  0 <= T /\ 1000 * T <= 801 * n /\ 799 * n < 1000 * (T + 1).
Proof. bracket Py.c_0_80 799 801 1000. Qed.

Lemma int_mul_0_85 (n T : Z) :
  0 <= n -> Py.int_mul n Py.c_0_85 = Ok T ->
  0 <= T /\ 1000 * T <= 851 * n /\ 849 * n < 1000 * (T + 1).
Proof. bracket Py.c_0_85 849 851 1000. Qed.

Lemma int_mul_1_05 (n T : Z) :
  0 <= n -> Py.int_mul n Py.c_1_05 = Ok T ->
  0 <= T /\ 1000 * T <= 1051 * n /\ 1049 * n < 1000 * (T + 1).
Proof. bracket Py.c_1_05 1049 1051 1000. Qed.

Lemma int_mul_1_07 (n T : Z) :
  0 <= n -> Py.int_mul n Py.c_1_07 = Ok T ->
  0 <= T /\ 1000 * T <= 1071 * n /\ 1069 * n < 1000 * (T + 1).
Proof. bracket Py.c_1_07 1069 1071 1000. Qed.

Lemma int_mul_0_70 (n T : Z) :
  0 <= n -> Py.int_mul n Py.c_0_70 = Ok T ->
  0 <= T /\ 1000 * T <= 701 * n /\ 699 * n < 1000 * (T + 1).
Proof. bracket Py.c_0_70 699 701 1000. Qed.

Lemma int_mul_0_002 (n T : Z) :
  0 <= n -> Py.int_mul n Py.c_0_002 = Ok T ->
  0 <= T /\ 10000 * T <= 21 * n /\ 19 * n < 10000 * (T + 1).
Proof. bracket Py.c_0_002 19 21 10000. Qed.

Lemma int_mul_0_6 (n T : Z) :
  0 <= n -> Py.int_mul n Py.c_0_6 = Ok T ->
  0 <= T /\ 1000 * T <= 601 * n /\ 599 * n < 1000 * (T + 1).
Proof. bracket Py.c_0_6 599 601 1000. Qed.

Lemma int_mul_1_1 (n T : Z) :
  0 <= n -> Py.int_mul n Py.c_1_1 = Ok T ->
  0 <= T /\ 1000 * T <= 1101 * n /\ 1099 * n < 1000 * (T + 1).
Proof. bracket Py.c_1_1 1099 1101 1000. Qed.

Lemma int_mul_1_2 (n T : Z) :
  0 <= n -> Py.int_mul n c_1_2 = Ok T ->
  0 <= T /\ 1000 * T <= 1201 * n /\ 1199 * n < 1000 * (T + 1).
Proof. bracket c_1_2 1199 1201 1000. Qed.

Lemma int_mul_1_0 (n T : Z) :
  0 <= n -> Py.int_mul n c_1_0 = Ok T ->
  0 <= T /\ 1000 * T <= 1001 * n /\ 999 * n < 1000 * (T + 1).
Proof. bracket c_1_0 999 1001 1000. Qed.
(** Finer lower bounds, for the chain grade B, premium, ceiling. *)
Lemma int_mul_0_90_fine (n T : Z) :
  0 <= n -> Py.int_mul n Py.c_0_90 = Ok T ->
  0 <= T /\ 10000 * T <= 9001 * n /\ 8999 * n < 10000 * (T + 1).
Proof. bracket Py.c_0_90 8999 9001 10000. Qed.

Lemma int_mul_1_08_fine (n T : Z) :
  0 <= n -> Py.int_mul n Py.c_1_08 = Ok T ->
  0 <= T /\ 10000 * T <= 10801 * n /\ 10799 * n < 10000 * (T + 1).
Proof. bracket Py.c_1_08 10799 10801 10000. Qed.

Lemma int_mul_0_88_fine (n T : Z) :
  0 <= n -> Py.int_mul n Py.c_0_88 = Ok T ->
  0 <= T /\ 10000 * T <= 8801 * n /\ 8799 * n < 10000 * (T + 1).
Proof. bracket Py.c_0_88 8799 8801 10000. Qed.

End Brackets.

(** ** The result monad *)

Lemma bind_Ok {A B : Type} (c : result A) (k : A -> result B) (b : B) :
  bind c k = Ok b -> exists a : A, c = Ok a /\ k a = Ok b.
Proof. destruct c as [a|e]; [eauto|discriminate]. Qed.

(** ** The fair price *)

Section FairPrice.

Lemma calculate_fair_price_eq (p : Product) :
  YourBuyerAgent.calculate_fair_price p =
  fair <- (if is_export p then Py.int_mul (base_market_price p) Py.c_1_10
           else if is_grade_b p then Py.int_mul (base_market_price p) Py.c_0_90
           else Ok (base_market_price p)) ;;
  if has_premium p then Py.int_mul fair Py.c_1_08 else Ok fair.
Proof. reflexivity. Qed.


(** A product that is not of grade B has a fair price of at least its base
    price. *)
Lemma calculate_fair_price_ge (p : Product) (fair : Z) :
  0 < base_market_price p ->
  is_export p = true \/ is_grade_b p = false ->
  YourBuyerAgent.calculate_fair_price p = Ok fair ->
  base_market_price p <= fair.
Proof.
  intros Hb Hg. rewrite calculate_fair_price_eq. intros H.
  apply bind_Ok in H. destruct H as (f1 & H1 & H2).
  assert (Hf1 : base_market_price p <= f1).
  { destruct (is_export p).
    - apply int_mul_1_10 in H1; lia.
    - destruct Hg as [Hg|Hg]; [discriminate|]. rewrite Hg in H1.
      injection H1 as <-. lia. }
  destruct (has_premium p).
  - apply int_mul_1_08 in H2; lia.
  - injection H2 as <-. lia.
Qed.

(** A product of grade B has a fair price of at most its base price. *)
Lemma calculate_fair_price_le (p : Product) (fair : Z) :
  0 < base_market_price p ->
  is_export p = false -> is_grade_b p = true ->
  YourBuyerAgent.calculate_fair_price p = Ok fair ->
  fair <= base_market_price p.
Proof.
  intros Hb He Hg. rewrite calculate_fair_price_eq, He, Hg. intros H.
  apply bind_Ok in H. destruct H as (f1 & H1 & H2).
  apply int_mul_0_90 in H1; [|lia].
  destruct (has_premium p).
  - apply int_mul_1_08 in H2; lia.
  - injection H2 as <-. lia.
Qed.

(** The fair price is computed for every base price below 2^900 in
    absolute value, and is at most four times as large. *)
Lemma calculate_fair_price_total (p : Product) :
  Z.abs (base_market_price p) < 2 ^ 900 ->
  exists fair : Z,
    YourBuyerAgent.calculate_fair_price p = Ok fair /\
    Z.abs fair <= 4 * Z.abs (base_market_price p).
Proof.
  intros Hb. rewrite calculate_fair_price_eq.
  assert (H960 : 2 * 2 ^ 900 < 2 ^ 960) by reflexivity.
  assert (H1 : exists f1 : Z,
            (if is_export p then Py.int_mul (base_market_price p) Py.c_1_10
             else if is_grade_b p
                  then Py.int_mul (base_market_price p) Py.c_0_90
                  else Ok (base_market_price p)) = Ok f1 /\
            Z.abs f1 <= 2 * Z.abs (base_market_price p)).
  { destruct (is_export p); [|destruct (is_grade_b p)].
    - apply int_mul_total; [lia|reflexivity].
    - apply int_mul_total; [lia|reflexivity].
    - eexists; split; [reflexivity|lia]. }
  destruct H1 as (f1 & -> & Hf1). cbn [bind].
  destruct (has_premium p).
  - destruct (int_mul_total f1 Py.c_1_08) as (T & HT & HTb); [lia|reflexivity|].
    exists T. split; [exact HT|lia].
  - exists f1. split; [reflexivity|lia].
Qed.


End FairPrice.

(** * The program *)

(** ** Loops *)

Section Loops.

Context {St : Type}.
Variable body : Z -> St -> result (flow * St).

Lemma for_range_invariant (P : St -> Prop) (rs : list Z) :
  (forall (r : Z) (st st' : St) (f : flow),
      In r rs -> P st -> body r st = Ok (f, st') -> P st') ->
  forall st st' : St, P st -> for_range body rs st = Ok st' -> P st'.
Proof.
  induction rs as [|r rs IH]; intros Hstep st st' HP Hrun.
  - injection Hrun as <-. exact HP.
  - cbn [for_range] in Hrun.
    destruct (body r st) as [[[] st1]|e] eqn:Hb; try discriminate.
    + apply (IH (fun r0 s s' f Hin => Hstep r0 s s' f (or_intror Hin)) st1 st');
        [|exact Hrun].
      apply (Hstep r st st1 Next); [left; reflexivity|exact HP|exact Hb].
    + injection Hrun as <-.
      apply (Hstep r st st1 Break); [left; reflexivity|exact HP|exact Hb].
Qed.

Lemma iterations_le (rs : list Z) :
  forall st : St, (iterations body rs st <= List.length rs)%nat.
Proof.
  induction rs as [|r rs IH]; intros st; cbn [iterations List.length]; [lia|].
  destruct (body r st) as [[[] st1]|e]; try lia.
  specialize (IH st1). lia.
Qed.

Lemma all_next_for_range (rs : list Z) :
  forall st st' : St,
    all_next body rs st = Some st' ->
    for_range body rs st = Ok st' /\ iterations body rs st = List.length rs.
Proof.
  induction rs as [|r rs IH]; intros st st' H; cbn [all_next] in H.
  - injection H as <-. split; reflexivity.
  - cbn [for_range iterations List.length].
    destruct (body r st) as [[[] st1]|e]; try discriminate.
    destruct (IH st1 st' H) as [H1 H2]. rewrite H1, H2. split; reflexivity.
Qed.

End Loops.

(** ** The rounds of the negotiation *)

Section Rounds.

Variable buyer_agent : BaseBuyerAgent.t.
Variable seller : MockSellerAgent.t.

(** What one round leaves behind. *)
Lemma round_body_spec (r : Z) (st st' : Locals.t) (f : flow) :
  round_body buyer_agent seller r st = Ok (f, st') ->
  current_round (Locals.context st') = r + 1 /\
  product (Locals.context st') = product (Locals.context st) /\
  your_budget (Locals.context st') = your_budget (Locals.context st) /\
  match f with
  | Break => Locals.deal_made st' = true /\
             exists fp : Z, Locals.final_price st' = Some fp
  | Next => Locals.deal_made st' = Locals.deal_made st /\
            Locals.final_price st' = Locals.final_price st
  end.
Proof.
  unfold round_body. intros H.
  apply bind_Ok in H. destruct H as ([[status offer] msg] & _ & H).
  destruct (DealStatus_eqb status ACCEPTED).
  - injection H as <- <-. cbn. repeat split; eauto.
  - apply bind_Ok in H. destruct H as ([[sp smsg] acc] & _ & H).
    destruct acc; injection H as <- <-; cbn; repeat split; eauto.
Qed.

Lemma round_body_consistent (r : Z) (st st' : Locals.t) (f : flow) :
  deal_consistent st ->
  round_body buyer_agent seller r st = Ok (f, st') ->
  deal_consistent st'.
Proof.
  intros Hc H. apply round_body_spec in H.
  destruct H as (_ & _ & _ & H). destruct f.
  - destruct H as [H1 H2]. unfold deal_consistent. rewrite H1, H2. exact Hc.
  - left. exact H.
Qed.

(** The round counter follows the iterations. *)
Lemma for_range_current_round (n : nat) :
  forall (k : nat) (st st' : Locals.t),
    for_range (round_body buyer_agent seller) (map Z.of_nat (seq k n)) st = Ok st' ->
    (n = 0%nat /\ st' = st) \/
    (current_round (Locals.context st') =
       Z.of_nat k
       + Z.of_nat (iterations (round_body buyer_agent seller)
                     (map Z.of_nat (seq k n)) st) /\
     (1 <= iterations (round_body buyer_agent seller)
             (map Z.of_nat (seq k n)) st)%nat).
Proof.
  induction n as [|n IH]; intros k st st' H.
  - left. injection H as <-. split; reflexivity.
  - right. cbn [seq map for_range iterations] in *.
    destruct (round_body buyer_agent seller (Z.of_nat k) st) as [[[] st1]|e] eqn:Hb;
      try discriminate.
    + destruct (IH (S k) st1 st' H) as [[-> ->]|[Hr Hi]].
      * apply round_body_spec in Hb. destruct Hb as (Hc & _).
        cbn [seq map iterations]. split; lia.
      * split; lia.
    + injection H as <-. apply round_body_spec in Hb. destruct Hb as (Hc & _).
      split; lia.
Qed.

End Rounds.

Section TestLoop.

Variable buyer_agent : BaseBuyerAgent.t.

Lemma opening_state_spec (product : Product) (buyer_budget seller_min : Z)
    (st0 : Locals.t) :
  opening_state product buyer_budget seller_min = Ok st0 ->
  Locals.deal_made st0 = false /\ Locals.final_price st0 = None /\
  current_round (Locals.context st0) = 0.
Proof.
  unfold opening_state. intros H.
  apply bind_Ok in H. destruct H as ([sp smsg] & _ & H).
  injection H as <-. repeat split.
Qed.

Lemma all_next_no_deal (seller : MockSellerAgent.t) (rs : list Z) :
  forall st st' : Locals.t,
    all_next (round_body buyer_agent seller) rs st = Some st' ->
    Locals.deal_made st' = Locals.deal_made st /\
    Locals.final_price st' = Locals.final_price st.
Proof.
  induction rs as [|r rs IH]; intros st st' H; cbn [all_next] in H.
  - injection H as <-. split; reflexivity.
  - destruct (round_body buyer_agent seller r st) as [[[] st1]|e] eqn:Hb;
      try discriminate.
    apply round_body_spec in Hb. destruct Hb as (_ & _ & _ & Hd & Hf).
    destruct (IH st1 st' H) as [H1 H2]. rewrite H1, H2. auto.
Qed.

Lemma negotiation_loop_consistent (product : Product)
    (buyer_budget seller_min : Z) (st : Locals.t) :
  negotiation_loop buyer_agent product buyer_budget seller_min = Ok st ->
  deal_consistent st.
Proof.
  unfold negotiation_loop. intros H.
  apply bind_Ok in H. destruct H as (st0 & H0 & H).
  apply opening_state_spec in H0. destruct H0 as (Hd & Hf & _).
  revert H. apply for_range_invariant.
  - intros r s s' f _. apply round_body_consistent.
  - right. auto.
Qed.

(** A no-deal state gives the all-zero outcome, whatever the divisors. *)
Lemma calculate_results_no_deal (product : Product) (buyer_budget : Z)
    (st : Locals.t) :
  Locals.deal_made st = false ->
  calculate_results product buyer_budget st =
  Ok {| deal_made := false;
        final_price := Locals.final_price st;
        rounds := current_round (Locals.context st);
        savings := 0;
        savings_pct := Py.Int 0;
        below_market_pct := Py.Int 0;
        conversation := messages (Locals.context st) |}.
Proof. unfold calculate_results. intros ->. reflexivity. Qed.

Lemma float_of_int_100 :
  Py.float_of_int 100 = Ok (S754_finite false 7036874417766400 (-46)).
Proof. reflexivity. Qed.

(** [(a - b) / a * 100] raises nothing but [OverflowError] when [a] is not
    zero, and nothing at all when the quotient is within range. *)
Lemma percent_below_spec (a b : Z) :
  a <> 0 ->
  (forall e : exn, percent_below a (Some b) = Raise e -> e = OverflowError) /\
  (Z.abs (a - b) < 2 ^ 1000 * Z.abs a ->
   exists x : Py.float, percent_below a (Some b) = Ok (Py.Float x)).
Proof.
  intros Ha. unfold percent_below, sub_optional. cbn [bind]. split.
  - intros e. unfold Py.truediv. rewrite (proj2 (Z.eqb_neq a 0) Ha).
    destruct (SFdiv_core_binary _ _ _ _ _ _) as [[q e'] l].
    destruct (binary_round_aux _ _ _ _ _ _); cbn [bind];
      unfold Py.mul_float_int; rewrite ?float_of_int_100; cbn [bind];
      intros H; try discriminate; injection H as <-; reflexivity.
  - intros Hq. destruct (truediv_finite (a - b) a Ha Hq) as (x & Hx & _).
    rewrite Hx. cbn [bind]. unfold Py.mul_float_int.
    rewrite float_of_int_100. cbn [bind]. eexists; reflexivity.
Qed.

End TestLoop.

Section Ranges.

Lemma range_bound_pos : 0 < range_bound.
Proof. reflexivity. Qed.

Lemma int_mul_total_range (n : Z) (c : Py.float) :
  Z.abs n <= 64 * range_bound -> literal_like c = true ->
  exists T : Z, Py.int_mul n c = Ok T /\ Z.abs T <= 2 * Z.abs n.
Proof.
  intros Hn. apply int_mul_total.
  eapply Z.le_lt_trans; [exact Hn|reflexivity].
Qed.

Lemma truediv_finite_range (a b : Z) :
  b <> 0 -> Z.abs a <= 64 * range_bound ->
  exists x : Py.float, Py.truediv a b = Ok x /\ is_finite x = true.
Proof.
  intros Hb Ha. apply truediv_finite; [exact Hb|].
  eapply Z.le_lt_trans; [exact Ha|].
  apply Z.lt_le_trans with (2 ^ 1000 * 1); [reflexivity|].
  apply Z.mul_le_mono_nonneg_l; [discriminate|lia].
Qed.

End Ranges.

Section Respond.

Variable context : NegotiationContext.
Variable seller_price : Z.
Variable seller_message : string.

(** What a returned answer was computed from. *)
Lemma respond_to_seller_offer_inv (status : DealStatus) (price : Z) (msg : string) :
  YourBuyerAgent.respond_to_seller_offer context seller_price seller_message
    = Ok (status, price, msg) ->
  exists fair ceiling : Z,
    YourBuyerAgent.calculate_fair_price (product context) = Ok fair /\
    Py.int_mul fair Py.c_0_88 = Ok ceiling /\
    ((seller_price <= Z.min (your_budget context) ceiling /\
      status = ACCEPTED /\ price = seller_price) \/
     (Z.min (your_budget context) ceiling < seller_price /\
      status = ONGOING /\
      exists last_offer raw step outrageous : Z,
        last_offer_of context fair = Ok last_offer /\
        raw_counter (current_round context) seller_price last_offer = Ok raw /\
        Py.int_mul fair Py.c_0_002 = Ok step /\
        Py.int_mul (base_market_price (product context)) Py.c_1_5 = Ok outrageous /\
        let stepped :=
          Z.max (Z.min raw (Z.min (your_budget context) ceiling))
                (last_offer + Z.max 1 step) in
        ((outrageous <= seller_price /\ current_round context <= 2 /\
          exists anchor : Z,
            Py.int_mul fair Py.c_0_70 = Ok anchor /\
            price = Z.min stepped anchor) \/
         ((seller_price < outrageous \/ 2 < current_round context) /\
          price = stepped)))).
Proof.
  unfold YourBuyerAgent.respond_to_seller_offer. intros H.
  apply bind_Ok in H. destruct H as (fair & Hfair & H).
  apply bind_Ok in H. destruct H as (ceiling & Hceil & H).
  exists fair, ceiling. split; [exact Hfair|]. split; [exact Hceil|].
  destruct (Z.leb_spec seller_price (Z.min (your_budget context) ceiling))
    as [Hacc|Hrej].
  - left. apply bind_Ok in H. destruct H as (ph & _ & H).
    injection H as <- <- _. auto.
  - right. split; [exact Hrej|].
    apply bind_Ok in H. destruct H as (last_offer & Hlast & H).
    apply bind_Ok in H. destruct H as (raw & Hraw & H).
    apply bind_Ok in H. destruct H as (step & Hstep & H).
    apply bind_Ok in H. destruct H as (outrageous & Hout & H).
    apply bind_Ok in H. destruct H as (counter & Hcounter & H).
    assert (Hres : status = ONGOING /\ price = counter).
    { destruct (_ && _) in H; apply bind_Ok in H; destruct H as (ph & _ & H);
        injection H as <- <- _; auto. }
    destruct Hres as [-> ->]. split; [reflexivity|].
    exists last_offer, raw, step, outrageous.
    repeat (split; [assumption|]).
    cbv zeta.
    destruct (Z.leb_spec outrageous seller_price) as [Ho|Ho];
      destruct (Z.leb_spec (current_round context) 2) as [Hr|Hr];
      cbn [andb] in Hcounter.
    + left. apply bind_Ok in Hcounter. destruct Hcounter as (anchor & Ha & Hc).
      injection Hc as <-. repeat (split; [assumption|]). exists anchor. auto.
    + right. injection Hcounter as <-. split; [right; lia|reflexivity].
    + right. injection Hcounter as <-. split; [left; lia|reflexivity].
    + right. injection Hcounter as <-. split; [left; lia|reflexivity].
Qed.

(** Within range the answer is computed. *)
Lemma respond_to_seller_offer_total :
  within_range context seller_price ->
  exists r : DealStatus * Z * string,
    YourBuyerAgent.respond_to_seller_offer context seller_price seller_message
      = Ok r.
Proof.
  intros (Hb & Hs & Hl).
  unfold YourBuyerAgent.respond_to_seller_offer.
  destruct (calculate_fair_price_total (product context) Hb) as (fair & -> & Hf).
  cbn [bind]. fold range_bound in Hb, Hs, Hl. pose proof range_bound_pos as HB.
  destruct (int_mul_total_range fair Py.c_0_88) as (ceiling & -> & _);
    [lia|reflexivity|]. cbn [bind].
  destruct (seller_price <=? Z.min (your_budget context) ceiling).
  { eexists. reflexivity. }
  assert (Hlast : exists last_offer : Z,
            match your_offers context with
            | [] => Py.int_mul fair Py.c_0_58
            | _ :: _ => Ok (last (your_offers context) 0)
            end = Ok last_offer /\ Z.abs last_offer <= 8 * range_bound).
  { destruct (your_offers context) eqn:Hy.
    - destruct (int_mul_total_range fair Py.c_0_58) as (l & Hl' & Hlb);
        [lia|reflexivity|]. exists l. split; [exact Hl'|lia].
    - eexists. split; [reflexivity|]. lia. }
  destruct Hlast as (last_offer & -> & Hlast). cbn [bind].
  assert (Hraw : exists raw : Z,
            (if current_round context <=? 3
             then target <- Py.int_mul seller_price Py.c_0_80 ;;
                  raised <- Py.int_mul last_offer Py.c_1_05 ;;
                  Ok (Z.max raised target)
             else if current_round context <=? 7
                  then target <- Py.int_mul seller_price Py.c_0_85 ;;
                       raised <- Py.int_mul last_offer Py.c_1_07 ;;
                       Ok (Z.max raised target)
                  else half <- Py.truediv (last_offer + seller_price) 2 ;;
                       Py.int_of_float half) = Ok raw).
  { destruct (current_round context <=? 3); [|destruct (current_round context <=? 7)].
    - destruct (int_mul_total_range seller_price Py.c_0_80) as (t & -> & _);
        [lia|reflexivity|].
      destruct (int_mul_total_range last_offer Py.c_1_05) as (r & -> & _);
        [lia|reflexivity|]. eexists; reflexivity.
    - destruct (int_mul_total_range seller_price Py.c_0_85) as (t & -> & _);
        [lia|reflexivity|].
      destruct (int_mul_total_range last_offer Py.c_1_07) as (r & -> & _);
        [lia|reflexivity|]. eexists; reflexivity.
    - destruct (truediv_finite_range (last_offer + seller_price) 2) as (x & -> & Hx);
        [lia|lia|].
      cbn [bind]. apply int_of_float_finite. exact Hx. }
  destruct Hraw as (raw & ->). cbn [bind].
  destruct (int_mul_total_range fair Py.c_0_002) as (step & -> & _);
    [lia|reflexivity|]. cbn [bind].
  destruct (int_mul_total_range (base_market_price (product context)) Py.c_1_5)
    as (outrageous & -> & _); [lia|reflexivity|]. cbn [bind].
  destruct (int_mul_total_range fair Py.c_0_70) as (anchor & Hanchor & _);
    [lia|reflexivity|].
  destruct ((outrageous <=? seller_price) && (current_round context <=? 2));
    rewrite ?Hanchor; cbn [bind];
    destruct (_ && _); eexists; reflexivity.
Qed.

End Respond.

Section Scenario.

Lemma is_export_of_lower (p : Product) :
  Py.contains "export" (Py.lower (quality_grade p)) = true -> is_export p = true.
Proof. apply contains_lower_strip; reflexivity. Qed.

Lemma is_grade_b_of_lower (p : Product) :
  Py.lower (quality_grade p) = "b" ->
  is_export p = false /\ is_grade_b p = true.
Proof.
  intros H. unfold is_export, is_grade_b. rewrite lower_strip, H.
  split; reflexivity.
Qed.

Lemma has_premium_of_lower (p : Product) :
  Py.contains "ratnagiri" (Py.lower (origin p)) = true ->
  Py.contains "alphonso" (Py.lower (name p)) = true ->
  has_premium p = true.
Proof.
  intros Ho Hn. unfold has_premium.
  rewrite (contains_lower_strip "ratnagiri"), (contains_lower_strip "alphonso");
    auto.
Qed.

End Scenario.

Section Compare.

Local Open Scope R_scope.

(** The value of a finite double as an integer mantissa scaled. *)
Lemma F2R_cond_Zopp (s : bool) (m : positive) (e : Z) :
  F2R (S754_finite s m e) = IZR (cond_Zopp s (Zpos m)) * powerRZ 2 e.
Proof.
  unfold F2R, sign_R, cond_Zopp. destruct s; [|lra].
  change (Z.opp (Zpos m)) with (Zneg m).
  replace (IZR (Zneg m)) with (- IZR (Zpos m)) by (rewrite <- opp_IZR; reflexivity).
  lra.
Qed.

(** [n >= x] between an [int] and a finite [float] compares the values. *)
Lemma int_ge_float_spec (n : Z) (x : Py.float) :
  is_finite x = true ->
  (Py.int_ge_float n x = true <-> F2R x <= IZR n).
Proof.
  destruct x as [s|s| |s m e]; try discriminate; intros _;
    unfold Py.int_ge_float, Py.compare_int_float.
  - cbn [F2R]. destruct (Z.compare_spec n 0) as [H|H|H]; split; intros H';
      try reflexivity; try discriminate; try (apply IZR_le; lia).
    apply le_IZR in H'. lia.
  - rewrite F2R_cond_Zopp. set (v := cond_Zopp s (Zpos m)).
    destruct (Z.leb_spec 0 e) as [He|He].
    + rewrite <- IZR_pow2, <- mult_IZR by lia.
      destruct (Z.compare_spec n (v * 2 ^ e)) as [H|H|H]; split; intros H';
        try reflexivity; try discriminate; try (apply IZR_le; lia).
      apply le_IZR in H'. lia.
    + assert (HD : (0 < 2 ^ (- e))%Z) by (apply Z.pow_pos_nonneg; lia).
      assert (HDR : 0 < IZR (2 ^ (- e))) by (apply IZR_lt; lia).
      assert (Hp : powerRZ 2 e * IZR (2 ^ (- e)) = 1).
      { rewrite IZR_pow2, <- pow2_add by lia.
        replace (e + - e)%Z with 0%Z by lia. reflexivity. }
      assert (Hiff : IZR v * powerRZ 2 e <= IZR n <-> (v <= n * 2 ^ (- e))%Z).
      { split; intros H.
        - apply le_IZR. rewrite mult_IZR.
          apply Rmult_le_compat_r with (r := IZR (2 ^ (- e))) in H; [|lra].
          rewrite Rmult_assoc, Hp in H. lra.
        - apply IZR_le in H. rewrite mult_IZR in H.
          apply Rmult_le_reg_r with (IZR (2 ^ (- e))); [lra|].
          rewrite Rmult_assoc, Hp. lra. }
      rewrite Hiff.
      destruct (Z.compare_spec (n * 2 ^ (- e)) v) as [H|H|H]; split; intros H';
        try reflexivity; try discriminate; lia.
Qed.

(** The two roundings of [n * c], chained. *)
Lemma mul_chain (n vb vc vf : R) :
  0 < n -> 0 < vc ->
  Rabs (vb - n) <= u64 * n ->
  Rabs (vf - vb * vc) <= u64 * Rabs (vb * vc) ->
  n * vc * ((1 - u64) * (1 - u64)) <= vf <= n * vc * ((1 + u64) * (1 + u64)).
Proof.
  intros Hn Hvc Herrb Herr.
  pose proof u64_small as Hu.
  apply Rabs_le_inv in Herrb.
  assert (Hvb : 0 < vb) by nra.
  rewrite (Rabs_pos_eq (vb * vc)) in Herr by nra.
  apply Rabs_le_inv in Herr.
  split.
  - apply Rle_trans with (vb * vc * (1 - u64)); [|lra].
    replace (n * vc * ((1 - u64) * (1 - u64)))
      with (n * (1 - u64) * vc * (1 - u64)) by ring.
    apply Rmult_le_compat_r; [lra|].
    apply Rmult_le_compat_r; lra.
  - apply Rle_trans with (vb * vc * (1 + u64)); [lra|].
    replace (n * vc * ((1 + u64) * (1 + u64)))
      with (n * (1 + u64) * vc * (1 + u64)) by ring.
    apply Rmult_le_compat_r; [lra|].
    apply Rmult_le_compat_r; lra.
Qed.

(** [n * c] for a non-negative [n] below 2^960: a finite double within two
    roundings of the exact product. *)
Lemma mul_int_float_nonneg (n : Z) (c : Py.float) :
  (0 <= n < 2 ^ 960)%Z -> literal_like c = true ->
  exists x : Py.float,
    Py.mul_int_float n c = Ok x /\ is_finite x = true /\
    IZR n * F2R c * ((1 - u64) * (1 - u64)) <= F2R x
      <= IZR n * F2R c * ((1 + u64) * (1 + u64)).
Proof.
  intros Hn Hc.
  destruct (literal_like_inv c Hc) as (mc & ec & -> & Hdc & Hec & Hvc).
  destruct n as [|n|n]; try lia.
  - eexists. split; [reflexivity|]. split; [reflexivity|].
    cbn [SFmul F2R xorb]. rewrite !Rmult_0_l. lra.
  - assert (Hd : (Zdigits2 (Zpos n) <= 960)%Z) by (apply Zdigits2_le; lia).
    assert (Hd1 : (1 <= Zdigits2 (Zpos n))%Z) by (simpl; lia).
    destruct (float_of_pos_normal n) as (mb & eb & Hfl & Hdb & Heb & Herrb).
    { eapply Z.lt_trans; [apply Hn|reflexivity]. }
    destruct (SFmul_normal false false mb mc eb ec Hdb Hdc)
      as (mf & ef & Hmul & _ & _ & Herr); [lia|].
    unfold Py.mul_int_float. rewrite Hfl. cbn [bind]. rewrite Hmul.
    eexists. split; [reflexivity|]. split; [reflexivity|].
    cbn [xorb] in *.
    apply mul_chain with (vb := F2R (S754_finite false mb eb)); auto.
    + apply IZR_lt; lia.
    + apply Hvc.
Qed.

End Compare.

(** The seller's acceptance threshold, against exact arithmetic. *)
Lemma threshold_bracket (min_price : Z) :
  0 <= min_price < 2 ^ 900 ->
  exists threshold : Py.float,
    Py.mul_int_float min_price Py.c_1_1 = Ok threshold /\
    forall buyer_offer : Z,
      (Py.int_ge_float buyer_offer threshold = true ->
       (11 * 10 ^ 14 - 1) * min_price <= 10 ^ 15 * buyer_offer) /\
      (Py.int_ge_float buyer_offer threshold = false ->
       10 ^ 15 * buyer_offer < (11 * 10 ^ 14 + 1) * min_price).
Proof.
  intros Hm.
  destruct (mul_int_float_nonneg min_price Py.c_1_1) as (th & Hth & Hfin & Hlo & Hhi).
  { split; [lia|]. eapply Z.lt_trans; [apply Hm|reflexivity]. }
  { reflexivity. }
  exists th. split; [exact Hth|]. intros offer.
  pose proof (int_ge_float_spec offer th Hfin) as Hspec.
  assert (HmR : (0 <= IZR min_price)%R) by (apply IZR_le; lia).
  assert (Ha : (IZR (11 * 10 ^ 14 - 1) / IZR (10 ^ 15)
                <= F2R Py.c_1_1 * ((1 - u64) * (1 - u64)))%R).
  { change (11 * 10 ^ 14 - 1) with 1099999999999999.
    change (10 ^ 15) with 1000000000000000.
    change Py.c_1_1 with (S754_finite false 4953959590107546 (-52)).
    rewrite F2R_literal by discriminate.
    change (2 ^ (- -52))%Z with 4503599627370496%Z.
    unfold u64. change (2 ^ 53)%Z with 9007199254740992%Z. lra. }
  assert (Hb : (F2R Py.c_1_1 * ((1 + u64) * (1 + u64))
                <= IZR (11 * 10 ^ 14 + 1) / IZR (10 ^ 15))%R).
  { change (11 * 10 ^ 14 + 1) with 1100000000000001.
    change (10 ^ 15) with 1000000000000000.
    change Py.c_1_1 with (S754_finite false 4953959590107546 (-52)).
    rewrite F2R_literal by discriminate.
    change (2 ^ (- -52))%Z with 4503599627370496%Z.
    unfold u64. change (2 ^ 53)%Z with 9007199254740992%Z. lra. }
  assert (HdR : (0 < IZR (10 ^ 15))%R) by (apply IZR_lt; reflexivity).
  rewrite Rmult_assoc in Hlo, Hhi.
  split; intros Hcmp.
  - apply Hspec in Hcmp. apply le_IZR. rewrite !mult_IZR.
    apply Rle_trans with (IZR (10 ^ 15) * F2R th)%R.
    + apply Rle_trans
        with (IZR (10 ^ 15) * (IZR min_price * (IZR (11 * 10 ^ 14 - 1) / IZR (10 ^ 15))))%R.
      * right. field. lra.
      * apply Rmult_le_compat_l; [lra|].
        apply Rle_trans with (2 := Hlo).
        apply Rmult_le_compat_l; assumption.
    + apply Rmult_le_compat_l; lra.
  - apply lt_IZR. rewrite !mult_IZR.
    assert (Hlt : (IZR offer < F2R th)%R).
    { apply Rnot_le_lt. intros Hle. apply Hspec in Hle. congruence. }
    apply Rlt_le_trans with (IZR (10 ^ 15) * F2R th)%R.
    + apply Rmult_lt_compat_l; lra.
    + apply Rle_trans
        with (IZR (10 ^ 15) * (IZR min_price * (IZR (11 * 10 ^ 14 + 1) / IZR (10 ^ 15))))%R.
      * apply Rmult_le_compat_l; [lra|].
        apply Rle_trans with (1 := Hhi).
        apply Rmult_le_compat_l; assumption.
      * right. field. lra.
Qed.

Section Deal.

(** The opening offer, from the three products it is computed from. *)
Lemma generate_opening_offer_eq (context : NegotiationContext)
    (fair opening floor : Z) :
  YourBuyerAgent.calculate_fair_price (product context) = Ok fair ->
  Py.int_mul fair Py.c_0_58 = Ok opening ->
  Py.int_mul (base_market_price (product context)) Py.c_0_40 = Ok floor ->
  exists msg : string,
    YourBuyerAgent.generate_opening_offer context
    = Ok (Z.max (Z.min opening (your_budget context)) floor, msg).
Proof.
  intros Hf Ho Hfl. unfold YourBuyerAgent.generate_opening_offer.
  rewrite Hf. cbn [bind]. rewrite Ho. cbn [bind]. rewrite Hfl. cbn [bind].
  eexists. reflexivity.
Qed.

(** A price within the ceiling is accepted. *)
Lemma respond_to_seller_offer_accept (context : NegotiationContext)
    (seller_price : Z) (seller_message : string) (fair ceiling : Z) :
  YourBuyerAgent.calculate_fair_price (product context) = Ok fair ->
  Py.int_mul fair Py.c_0_88 = Ok ceiling ->
  seller_price <= Z.min (your_budget context) ceiling ->
  exists msg : string,
    YourBuyerAgent.respond_to_seller_offer context seller_price seller_message
    = Ok (ACCEPTED, seller_price, msg).
Proof.
  intros Hf Hc Hle. unfold YourBuyerAgent.respond_to_seller_offer.
  rewrite Hf. cbn [bind]. rewrite Hc. cbn [bind].
  rewrite (proj2 (Z.leb_le _ _) Hle). eexists. reflexivity.
Qed.

(** The outcome of a deal at a price between 0 and the budget. *)
Lemma calculate_results_deal (product : Product) (buyer_budget fp : Z)
    (st : Locals.t) :
  Locals.deal_made st = true -> Locals.final_price st = Some fp ->
  0 < base_market_price product ->
  0 <= fp <= buyer_budget -> 0 < buyer_budget ->
  fp <= 2 * base_market_price product ->
  exists o : Outcome,
    calculate_results product buyer_budget st = Ok o /\
    deal_made o = true /\ final_price o = Some fp /\
    rounds o = current_round (Locals.context st) /\
    savings o = buyer_budget - fp.
Proof.
  intros Hd Hf Hb Hfp Hbud Hfp2.
  destruct (percent_below_spec buyer_budget fp) as [_ [x Hx]]; [lia| |].
  { apply Z.le_lt_trans with (1 * Z.abs buyer_budget); [lia|].
    apply Z.mul_lt_mono_pos_r; [lia|reflexivity]. }
  destruct (percent_below_spec (base_market_price product) fp) as [_ [y Hy]];
    [lia| |].
  { apply Z.le_lt_trans with (1 * Z.abs (base_market_price product)); [lia|].
    apply Z.mul_lt_mono_pos_r; [lia|reflexivity]. }
  unfold calculate_results. rewrite Hd, Hf. cbn [sub_optional bind].
  rewrite Hx, Hy. cbn [bind]. eexists. split; [reflexivity|]. cbn. auto.
Qed.

Lemma for_range_break {St : Type} (body : Z -> St -> result (flow * St))
    (r : Z) (rs : list Z) (st st' : St) :
  body r st = Ok (Break, st') -> for_range body (r :: rs) st = Ok st'.
Proof. intros H. cbn [for_range]. rewrite H. reflexivity. Qed.

Lemma for_range_next {St : Type} (body : Z -> St -> result (flow * St))
    (r : Z) (rs : list Z) (st st' : St) :
  body r st = Ok (Next, st') ->
  for_range body (r :: rs) st = for_range body rs st'.
Proof. intros H. cbn [for_range]. rewrite H. reflexivity. Qed.

Variable buyer_agent : BaseBuyerAgent.t.
Variable seller : MockSellerAgent.t.

(** The first round, from the opening offer and the seller's answer. *)
Lemma round_body_opening (st : Locals.t) (offer : Z) (buyer_msg : string)
    (price : Z) (seller_msg : string) (accepts : bool) :
  BaseBuyerAgent.generate_opening_offer buyer_agent
    (set_current_round 1 (Locals.context st)) = Ok (offer, buyer_msg) ->
  MockSellerAgent.respond_to_buyer seller offer 0
    = Ok (price, seller_msg, accepts) ->
  exists (f : flow) (st' : Locals.t),
    round_body buyer_agent seller 0 st = Ok (f, st') /\
    current_round (Locals.context st') = 1 /\
    product (Locals.context st') = product (Locals.context st) /\
    your_budget (Locals.context st') = your_budget (Locals.context st) /\
    Locals.seller_price st' = price /\
    (if accepts
     then f = Break /\ Locals.deal_made st' = true /\
          Locals.final_price st' = Some offer
     else f = Next).
Proof.
  intros Hgo Hs. unfold round_body.
  change (0 =? 0) with true. change (0 + 1) with 1.
  cbv iota. rewrite Hgo. cbn [bind DealStatus_eqb]. rewrite Hs. cbn [bind].
  destruct accepts; eexists _, _; (split; [reflexivity|]); cbn;
    repeat split; reflexivity.
Qed.

(** A later round in which the buyer accepts. *)
Lemma round_body_accepted (r : Z) (st : Locals.t) (price : Z) (buyer_msg : string) :
  r <> 0 ->
  BaseBuyerAgent.respond_to_seller_offer buyer_agent
    (set_current_round (r + 1) (Locals.context st))
    (Locals.seller_price st) (Locals.seller_msg st)
  = Ok (ACCEPTED, price, buyer_msg) ->
  exists st' : Locals.t,
    round_body buyer_agent seller r st = Ok (Break, st') /\
    current_round (Locals.context st') = r + 1 /\
    Locals.deal_made st' = true /\
    Locals.final_price st' = Some (Locals.seller_price st).
Proof.
  intros Hr Hresp. unfold round_body.
  rewrite (proj2 (Z.eqb_neq r 0) Hr), Hresp. cbn [bind DealStatus_eqb].
  eexists. split; [reflexivity|]. cbn. auto.
Qed.

End Deal.

(** * The claims of the specification *)

(** ** The budget *)

(** C1 (the code departs from the claim).  The claim: whatever the context,
    the seller's price and the seller's message, the price in the answer of
    [respond_to_seller_offer] is at most the budget, so no price the buyer
    emits after the opening offer exceeds it.  For the Alphonso product with
    a budget of 100000, a previous offer of 100000 and a seller at 150000,
    the answer of round 2 is ONGOING at 100388: the minimal step is added to
    the previous offer after the clamp to the ceiling.  In the test loop with
    that budget and a seller minimum of 150000 every offer after the opening
    one is above the budget. *)
Lemma respond_exceeds_budget :
  (exists msg : string,
      YourBuyerAgent.respond_to_seller_offer
        (context_at alphonso 100000 2 [270000; 150000] [100000])
        150000 "I can come down to ₹150000."
      = Ok (ONGOING, 100388, msg)) /\
  (exists st : Locals.t,
      negotiation_loop your_agent alphonso 100000 150000 = Ok st /\
      your_budget (Locals.context st) = 100000 /\
      your_offers (Locals.context st)
      = [100000; 100388; 100776; 101164; 101552; 101940; 102328; 102716;
         103104; 103492]).
Proof.
  split; eexists; [vm_compute; reflexivity|].
  split; [vm_compute; reflexivity|]. split; reflexivity.
Qed.

(** C2 (the code departs from the claim).  The claim: the opening offer is
    at most the budget, for every product and budget.  For the Alphonso
    product with a budget of 50000 the opening offer is 72000: the floor
    [int(base * 0.40)] is applied after the clamp to the budget. *)
Lemma opening_exceeds_budget :
  exists msg : string,
    YourBuyerAgent.generate_opening_offer (context_at alphonso 50000 1 [270000] [])
    = Ok (72000, msg).
Proof. eexists. vm_compute. reflexivity. Qed.

(** ** Answers to the seller *)

(** C3 (the code departs from the claim).  The claim, and the comment on
    the step in the code itself (never go down from last offer): a counter
    is at least the previous offer plus the minimal step.  In round 2, with
    a previous offer of 130000, a fair price of 180000 (step 360) and a
    seller at 270000 = int(180000 * 1.5), the answer is ONGOING at
    125999 = int(180000 * 0.70): the override for an outrageous price comes
    after the step and takes the counter below the previous offer. *)
Lemma respond_step_counterexample :
  exists msg : string,
    YourBuyerAgent.respond_to_seller_offer
      (context_at plain_grade_a 200000 2 [270000] [130000]) 270000
      "These are premium A grade Kesar Mangoes. I'm asking ₹270000."
    = Ok (ONGOING, 125999, msg) /\
    YourBuyerAgent.calculate_fair_price plain_grade_a = Ok 180000 /\
    last_offer_of (context_at plain_grade_a 200000 2 [270000] [130000]) 180000
    = Ok 130000 /\
    Py.int_mul 180000 Py.c_0_002 = Ok 360 /\
    Py.int_mul (base_market_price plain_grade_a) Py.c_1_5 = Ok 270000 /\
    Py.int_mul 180000 Py.c_0_70 = Ok 125999 /\
    125999 < 130000 /\ 125999 < 130000 + Z.max 1 360.
Proof. eexists. repeat split. Qed.

(** C4.  [respond_to_seller_offer] answers ACCEPTED at exactly the seller's
    price if and only if the seller's price is at most
    [min(budget, int(fair * 0.88))]; on every other input the answer is
    ONGOING, and it is never REJECTED nor TIMEOUT.  An answer is returned for
    all inputs within [within_range]. *)
Theorem respond_accepts_iff (context : NegotiationContext)
    (seller_price : Z) (seller_message : string) :
  (forall (status : DealStatus) (price : Z) (msg : string),
      YourBuyerAgent.respond_to_seller_offer context seller_price seller_message
        = Ok (status, price, msg) ->
      exists fair ceiling : Z,
        YourBuyerAgent.calculate_fair_price (product context) = Ok fair /\
        Py.int_mul fair Py.c_0_88 = Ok ceiling /\
        (status = ACCEPTED /\ price = seller_price <->
         seller_price <= Z.min (your_budget context) ceiling) /\
        (Z.min (your_budget context) ceiling < seller_price -> status = ONGOING) /\
        status <> REJECTED /\ status <> TIMEOUT) /\
  (within_range context seller_price ->
   exists r : DealStatus * Z * string,
     YourBuyerAgent.respond_to_seller_offer context seller_price seller_message
       = Ok r).
Proof.
  split; [|apply respond_to_seller_offer_total].
  intros status price msg H. apply respond_to_seller_offer_inv in H.
  destruct H as (fair & ceiling & Hfair & Hceil & H).
  exists fair, ceiling. split; [exact Hfair|]. split; [exact Hceil|].
  destruct H as [(Hle & -> & ->)|(Hlt & -> & _)].
  - repeat split; try discriminate; auto. intros ?; lia.
  - repeat split; try discriminate; auto; try lia.
    intros [? _]; discriminate.
Qed.

Lemma respond_accepts_iff_witness :
  within_range (context_at alphonso 216000 2 [270000; 144000] [112751]) 144000 /\
  (exists msg : string,
      YourBuyerAgent.respond_to_seller_offer
        (context_at alphonso 216000 2 [270000; 144000] [112751])
        144000 "I can come down to ₹144000."
      = Ok (ACCEPTED, 144000, msg)) /\
  144000 <= Z.min 216000 171072.
Proof.
  assert (Hr : within_range
                 (context_at alphonso 216000 2 [270000; 144000] [112751]) 144000).
  { repeat split. }
  destruct (respond_accepts_iff
              (context_at alphonso 216000 2 [270000; 144000] [112751])
              144000 "I can come down to ₹144000.") as [Hinv Htot].
  destruct (Htot Hr) as [[[status price] msg] H].
  destruct (Hinv status price msg H)
    as (fair & ceiling & Hf & Hc & Hiff & _).
  assert (H' := H). vm_compute in H'. injection H' as <- <- <-.
  vm_compute in Hf. injection Hf as <-.
  vm_compute in Hc. injection Hc as <-.
  split; [exact Hr|]. split; [eexists; exact H|].
  apply Hiff. split; reflexivity.
Defined.

(** ** The hard scenario *)




(** ** The test loop *)

(** C6.  For every agent, product, budget and seller minimum for which the
    opening exchange returns, [run_negotiation_test] terminates (with an
    outcome or a Python exception), its loop runs at most 10 rounds and
    [current_round] stays within 1..10; when no round ends in acceptance the
    outcome has [deal_made = false], no final price, [savings = 0] and 10
    rounds. *)
Theorem run_negotiation_test_round_limit (buyer_agent : BaseBuyerAgent.t)
    (product : Product) (buyer_budget seller_min : Z) (st0 : Locals.t) :
  opening_state product buyer_budget seller_min = Ok st0 ->
  let body := round_body buyer_agent (MockSellerAgent.init seller_min) in
  ((exists o : Outcome,
       run_negotiation_test buyer_agent product buyer_budget seller_min = Ok o) \/
   (exists e : exn,
       run_negotiation_test buyer_agent product buyer_budget seller_min = Raise e)) /\
  (iterations body (range 10) st0 <= 10)%nat /\
  (forall st : Locals.t,
      for_range body (range 10) st0 = Ok st ->
      current_round (Locals.context st)
        = Z.of_nat (iterations body (range 10) st0) /\
      1 <= current_round (Locals.context st) <= 10) /\
  (forall st : Locals.t,
      all_next body (range 10) st0 = Some st ->
      exists o : Outcome,
        run_negotiation_test buyer_agent product buyer_budget seller_min = Ok o /\
        deal_made o = false /\ final_price o = None /\ savings o = 0 /\
        rounds o = 10).
Proof.
  intros H0 body.
  pose proof (iterations_le body (range 10) st0) as Hle.
  change (List.length (range 10)) with 10%nat in Hle.
  split; [|split; [exact Hle|split]].
  - destruct (run_negotiation_test buyer_agent product buyer_budget seller_min);
      [left|right]; eauto.
  - intros st Hrun.
    destruct (for_range_current_round buyer_agent _ 10 0 st0 st Hrun)
      as [[Hn _]|[Hr Hi]]; [discriminate|].
    fold (range 10) in Hr, Hi. fold body in Hr, Hi. split; lia.
  - intros st Hall.
    destruct (all_next_for_range body (range 10) st0 st Hall) as [Hrun Hit].
    destruct (all_next_no_deal buyer_agent _ _ _ _ Hall) as [Hd Hf].
    destruct (opening_state_spec _ _ _ _ H0) as (Hd0 & Hf0 & _).
    rewrite Hd0 in Hd. rewrite Hf0 in Hf.
    destruct (for_range_current_round buyer_agent _ 10 0 st0 st Hrun)
      as [[Hn _]|[Hr Hi]]; [discriminate|].
    fold (range 10) in Hr. fold body in Hr. rewrite Hit in Hr.
    unfold run_negotiation_test, negotiation_loop. rewrite H0. cbn [bind].
    fold body. rewrite Hrun. cbn [bind].
    rewrite calculate_results_no_deal by exact Hd.
    eexists. split; [reflexivity|]. cbn. repeat split; auto.
Qed.

Lemma run_negotiation_test_round_limit_witness :
  exists o : Outcome,
    run_negotiation_test your_agent kesar 150000 123000 = Ok o /\
    deal_made o = false /\ final_price o = None /\ savings o = 0 /\
    rounds o = 10.
Proof.
  assert (H0 : exists st0, opening_state kesar 150000 123000 = Ok st0)
    by (eexists; reflexivity).
  destruct H0 as [st0 H0].
  destruct (run_negotiation_test_round_limit your_agent kesar 150000 123000 st0 H0)
    as (_ & _ & _ & H).
  injection H0 as <-.
  eapply H. vm_compute. reflexivity.
Defined.

(** ** The opening offer for the Alphonso product *)

(** C7, as stated, fails: with a budget of 200000 the opening offer is
    112751, not 112752 (in binary64, 194400 * 0.58 is just below 112752);
    and with a budget of 50000, below 112752, the offer is 72000 and not the
    budget. *)
Lemma alphonso_opening_counterexample :
  (exists msg : string,
      YourBuyerAgent.generate_opening_offer
        (context_at alphonso 200000 1 [270000] [])
      = Ok (112751, msg)) /\
  112752 <= 200000 /\ 112751 <> 112752 /\
  (exists msg : string,
      YourBuyerAgent.generate_opening_offer
        (context_at alphonso 50000 1 [270000] [])
      = Ok (72000, msg)) /\
  50000 < 112752 /\ 72000 <> 50000.
Proof.
  split; [eexists; vm_compute; reflexivity|].
  split; [discriminate|]. split; [discriminate|].
  split; [eexists; vm_compute; reflexivity|].
  split; [reflexivity|discriminate].
Qed.

(** C7, amended.  For a product of base price 180000, grade "A", an origin
    containing "ratnagiri" and a name containing "alphonso" (both in lower
    case), [calculate_fair_price] returns 194400 = int(180000 * 1.08),
    [generate_opening_offer] returns 112751 = int(194400 * 0.58) for every
    budget of at least 112751 (the floor int(180000 * 0.40) = 72000 does not
    bind), and returns the budget itself for a budget from 72000 up to
    112750. *)
Theorem alphonso_opening (context : NegotiationContext) :
  base_market_price (product context) = 180000 ->
  quality_grade (product context) = "A" ->
  Py.contains "ratnagiri" (Py.lower (origin (product context))) = true ->
  Py.contains "alphonso" (Py.lower (name (product context))) = true ->
  YourBuyerAgent.calculate_fair_price (product context) = Ok 194400 /\
  Py.int_mul 180000 Py.c_1_08 = Ok 194400 /\
  Py.int_mul 194400 Py.c_0_58 = Ok 112751 /\
  Py.int_mul 180000 Py.c_0_40 = Ok 72000 /\
  (112751 <= your_budget context ->
   exists msg : string,
     YourBuyerAgent.generate_opening_offer context = Ok (112751, msg)) /\
  (72000 <= your_budget context < 112751 ->
   exists msg : string,
     YourBuyerAgent.generate_opening_offer context
     = Ok (your_budget context, msg)).
Proof.
  intros Hbase Hgrade Horigin Hname.
  assert (Hfair : YourBuyerAgent.calculate_fair_price (product context) = Ok 194400).
  { rewrite calculate_fair_price_eq.
    rewrite (has_premium_of_lower _ Horigin Hname).
    unfold is_export, is_grade_b. rewrite Hgrade, Hbase. reflexivity. }
  assert (E58 : Py.int_mul 194400 Py.c_0_58 = Ok 112751) by reflexivity.
  assert (E40 : Py.int_mul 180000 Py.c_0_40 = Ok 72000) by reflexivity.
  split; [exact Hfair|]. split; [reflexivity|].
  split; [exact E58|]. split; [exact E40|].
  unfold YourBuyerAgent.generate_opening_offer.
  rewrite Hfair, Hbase. cbn [bind]. rewrite E58, E40. cbn [bind].
  split; intros Hb.
  - rewrite Z.min_l, Z.max_l by lia. eexists. reflexivity.
  - rewrite Z.min_r, Z.max_l by lia. eexists. reflexivity.
Qed.

Lemma alphonso_opening_witness :
  exists msg : string,
    YourBuyerAgent.generate_opening_offer
      (context_at alphonso 180000 1 [270000] [])
    = Ok (112751, msg).
Proof.
  destruct (alphonso_opening (context_at alphonso 180000 1 [270000] []))
    as (_ & _ & _ & _ & H & _); try reflexivity.
  apply H. cbn. lia.
Defined.

(** ** The mock seller *)

(** C8, as stated, with products and truncations in decimal arithmetic,
    fails: a seller of minimum 100 refuses the offer 110, which is
    100 x 1.1 (the binary64 product is 110.00000000000001), and answers the
    offer 100 with 114, where the truncation of 100 x 1.15 is 115. *)
Lemma mock_seller_decimal_counterexample :
  (exists msg : string,
      MockSellerAgent.respond_to_buyer (MockSellerAgent.init 100) 110 0
      = Ok (126, msg, false)) /\
  11 * 100 <= 10 * 110 /\
  (exists msg : string,
      MockSellerAgent.respond_to_buyer (MockSellerAgent.init 100) 100 0
      = Ok (114, msg, false)) /\
  Z.max 100 (115 * 100 / 100) = 115.
Proof.
  split; [eexists; vm_compute; reflexivity|]. split; [discriminate|].
  split; [eexists; vm_compute; reflexivity|reflexivity].
Qed.

(** C8, amended.  [get_opening_price] returns [int(base * 1.5)].
    [respond_to_buyer] accepts, at exactly the buyer's offer, if and only if
    the offer is at least [min_price * 1.1]; otherwise it counters with
    [max(min_price, int(offer * 1.05))] from round 8 on and with
    [max(min_price, int(offer * 1.15))] before.  The products are the
    binary64 ones of the code, [int] truncates the double, and the
    comparison is the exact one of an [int] with a double; the threshold
    [min_price * 1.1] is within one part in 10^15 of the decimal one.  Both
    functions return on all inputs below 2^900. *)
Theorem mock_seller_policy (self : MockSellerAgent.t) :
  (forall (product : Product) (price : Z) (msg : string),
      MockSellerAgent.get_opening_price self product = Ok (price, msg) ->
      Py.int_mul (base_market_price product) Py.c_1_5 = Ok price) /\
  (forall (buyer_offer round_num price : Z) (msg : string) (accepts : bool),
      MockSellerAgent.respond_to_buyer self buyer_offer round_num
        = Ok (price, msg, accepts) ->
      exists threshold : Py.float,
        Py.mul_int_float (MockSellerAgent.min_price self) Py.c_1_1 = Ok threshold /\
        (accepts = true <-> Py.int_ge_float buyer_offer threshold = true) /\
        (accepts = true -> price = buyer_offer) /\
        (accepts = false -> 8 <= round_num ->
         exists softened : Z,
           Py.int_mul buyer_offer Py.c_1_05 = Ok softened /\
           price = Z.max (MockSellerAgent.min_price self) softened) /\
        (accepts = false -> round_num < 8 ->
         exists raised : Z,
           Py.int_mul buyer_offer Py.c_1_15 = Ok raised /\
           price = Z.max (MockSellerAgent.min_price self) raised) /\
        (0 <= MockSellerAgent.min_price self < 2 ^ 900 ->
         (accepts = true ->
          (11 * 10 ^ 14 - 1) * MockSellerAgent.min_price self
            <= 10 ^ 15 * buyer_offer) /\
         (accepts = false ->
          10 ^ 15 * buyer_offer
            < (11 * 10 ^ 14 + 1) * MockSellerAgent.min_price self))) /\
  (forall product : Product,
      Z.abs (base_market_price product) < 2 ^ 900 ->
      exists r : Z * string,
        MockSellerAgent.get_opening_price self product = Ok r) /\
  (forall buyer_offer round_num : Z,
      Z.abs (MockSellerAgent.min_price self) < 2 ^ 900 ->
      Z.abs buyer_offer < 2 ^ 900 ->
      exists r : Z * string * bool,
        MockSellerAgent.respond_to_buyer self buyer_offer round_num = Ok r).
Proof.
  split; [|split; [|split]].
  - intros product price msg H. unfold MockSellerAgent.get_opening_price in H.
    apply bind_Ok in H. destruct H as (p & Hp & H). injection H as <- _. exact Hp.
  - intros offer round_num price msg accepts H.
    unfold MockSellerAgent.respond_to_buyer in H.
    apply bind_Ok in H. destruct H as (th & Hth & H).
    exists th. split; [exact Hth|].
    assert (Hbr : 0 <= MockSellerAgent.min_price self < 2 ^ 900 ->
                  (Py.int_ge_float offer th = true ->
                   (11 * 10 ^ 14 - 1) * MockSellerAgent.min_price self
                     <= 10 ^ 15 * offer) /\
                  (Py.int_ge_float offer th = false ->
                   10 ^ 15 * offer
                     < (11 * 10 ^ 14 + 1) * MockSellerAgent.min_price self)).
    { intros Hm. destruct (threshold_bracket _ Hm) as (th' & Hth' & Hb).
      rewrite Hth in Hth'. injection Hth' as <-. apply Hb. }
    destruct (Py.int_ge_float offer th) eqn:Hge.
    + injection H as <- _ <-.
      split; [split; reflexivity|]. split; [reflexivity|].
      split; [discriminate|]. split; [discriminate|].
      intros Hm. destruct (Hbr Hm) as [Hacc _].
      split; [intros _; apply Hacc; reflexivity|discriminate].
    + assert (Hno : Py.int_ge_float offer th = false -> true = false -> False)
        by discriminate.
      destruct (Z.leb_spec 8 round_num) as [Hr|Hr];
        apply bind_Ok in H; destruct H as (t & Ht & H); injection H as <- _ <-.
      * split; [split; discriminate|]. split; [discriminate|].
        split; [intros _ _; exists t; auto|]. split; [intros _ ?; lia|].
        intros Hm. destruct (Hbr Hm) as [_ Hrej].
        split; [discriminate|intros _; apply Hrej; reflexivity].
      * split; [split; discriminate|]. split; [discriminate|].
        split; [intros _ ?; lia|]. split; [intros _ _; exists t; auto|].
        intros Hm. destruct (Hbr Hm) as [_ Hrej].
        split; [discriminate|intros _; apply Hrej; reflexivity].
  - intros product Hb. unfold MockSellerAgent.get_opening_price.
    destruct (int_mul_total (base_market_price product) Py.c_1_5) as (t & -> & _);
      [|reflexivity|eexists; reflexivity].
    eapply Z.lt_trans; [exact Hb|reflexivity].
  - intros offer round_num Hm Ho. unfold MockSellerAgent.respond_to_buyer.
    destruct (float_of_int_total (MockSellerAgent.min_price self)) as (x & Hx & _).
    { eapply Z.lt_trans; [exact Hm|reflexivity]. }
    unfold Py.mul_int_float. rewrite Hx. cbn [bind].
    destruct (Py.int_ge_float offer _); [eexists; reflexivity|].
    destruct (8 <=? round_num).
    + destruct (int_mul_total offer Py.c_1_05) as (t & -> & _);
        [|reflexivity|eexists; reflexivity].
      eapply Z.lt_trans; [exact Ho|reflexivity].
    + destruct (int_mul_total offer Py.c_1_15) as (t & -> & _);
        [|reflexivity|eexists; reflexivity].
      eapply Z.lt_trans; [exact Ho|reflexivity].
Qed.

Lemma mock_seller_policy_witness :
  (exists msg : string,
      MockSellerAgent.respond_to_buyer (MockSellerAgent.init 123000) 136000 4
      = Ok (136000, msg, true)) /\
  (11 * 10 ^ 14 - 1) * 123000 <= 10 ^ 15 * 136000.
Proof.
  assert (H : exists msg : string,
             MockSellerAgent.respond_to_buyer (MockSellerAgent.init 123000) 136000 4
             = Ok (136000, msg, true))
    by (eexists; vm_compute; reflexivity).
  split; [exact H|]. destruct H as [msg H].
  destruct (mock_seller_policy (MockSellerAgent.init 123000)) as (_ & Hresp & _).
  destruct (Hresp 136000 4 136000 msg true H) as (th & _ & _ & _ & _ & _ & Hb).
  apply Hb; [split; [discriminate|reflexivity]|reflexivity].
Defined.

(** ** The fair price *)

(** C9.  [calculate_fair_price] is a function of the product; for a positive
    base price its result is at least the base price when the grade contains
    "export" (case-insensitive) and at most the base price when the grade is
    "b" (case-insensitive), with or without the origin premium.  It returns
    a result for every positive base price below 2^900. *)
Theorem fair_price_grade_bounds (p : Product) :
  0 < base_market_price p ->
  (forall q : Product,
      q = p ->
      YourBuyerAgent.calculate_fair_price q = YourBuyerAgent.calculate_fair_price p) /\
  (forall fair : Z,
      YourBuyerAgent.calculate_fair_price p = Ok fair ->
      (Py.contains "export" (Py.lower (quality_grade p)) = true ->
       base_market_price p <= fair) /\
      (Py.lower (quality_grade p) = "b" -> fair <= base_market_price p)) /\
  (base_market_price p < 2 ^ 900 ->
   exists fair : Z, YourBuyerAgent.calculate_fair_price p = Ok fair).
Proof.
  intros Hb. split; [intros q ->; reflexivity|]. split.
  - intros fair Hfair. split.
    + intros He. apply (calculate_fair_price_ge p fair Hb); [|exact Hfair].
      left. apply is_export_of_lower. exact He.
    + intros Hg. destruct (is_grade_b_of_lower p Hg) as [He Hgb].
      apply (calculate_fair_price_le p fair Hb He Hgb Hfair).
  - intros Hlt. destruct (calculate_fair_price_total p) as (fair & Hfair & _).
    + rewrite Z.abs_eq by lia. exact Hlt.
    + exists fair. exact Hfair.
Qed.

Lemma fair_price_grade_bounds_witness :
  0 < base_market_price kesar /\
  Py.lower (quality_grade kesar) = "b" /\
  YourBuyerAgent.calculate_fair_price kesar = Ok 135000 /\
  135000 <= base_market_price kesar.
Proof.
  assert (Hb : 0 < base_market_price kesar) by reflexivity.
  destruct (fair_price_grade_bounds kesar Hb) as (_ & H & _).
  split; [exact Hb|]. split; [reflexivity|]. split; [reflexivity|].
  apply (H 135000); reflexivity.
Defined.

(** ** The outcome *)

(** C10.  After the loop of [run_negotiation_test], with a positive budget
    and a positive base price: on a run without a deal the final price is
    [None] and savings, [savings_pct] and [below_market_pct] are all 0, no
    division being evaluated; on a run with a deal the final price is set,
    neither division raises [ZeroDivisionError] (the only exception left is
    the overflow of int/int beyond the binary64 range), and below that range
    both percentages are floats. *)
Theorem calculate_results_total (buyer_agent : BaseBuyerAgent.t)
    (product : Product) (buyer_budget seller_min : Z) (st : Locals.t) :
  negotiation_loop buyer_agent product buyer_budget seller_min = Ok st ->
  (Locals.deal_made st = false ->
   Locals.final_price st = None /\
   calculate_results product buyer_budget st =
   Ok {| deal_made := false;
         final_price := None;
         rounds := current_round (Locals.context st);
         savings := 0;
         savings_pct := Py.Int 0;
         below_market_pct := Py.Int 0;
         conversation := messages (Locals.context st) |}) /\
  (Locals.deal_made st = true ->
   0 < buyer_budget -> 0 < base_market_price product ->
   exists fp : Z,
     Locals.final_price st = Some fp /\
     (forall e : exn,
         calculate_results product buyer_budget st = Raise e ->
         e = OverflowError) /\
     (Z.abs (buyer_budget - fp) < 2 ^ 1000 * buyer_budget ->
      Z.abs (base_market_price product - fp)
        < 2 ^ 1000 * base_market_price product ->
      exists (x y : Py.float),
        calculate_results product buyer_budget st =
        Ok {| deal_made := true;
              final_price := Some fp;
              rounds := current_round (Locals.context st);
              savings := buyer_budget - fp;
              savings_pct := Py.Float x;
              below_market_pct := Py.Float y;
              conversation := messages (Locals.context st) |})).
Proof.
  intros Hloop.
  pose proof (negotiation_loop_consistent _ _ _ _ _ Hloop) as Hc.
  split.
  - intros Hd. destruct Hc as [[Hd' _]|[_ Hf]]; [congruence|].
    split; [exact Hf|]. rewrite calculate_results_no_deal, Hf by exact Hd.
    reflexivity.
  - intros Hd Hb Hm. destruct Hc as [[_ [fp Hf]]|[Hd' _]]; [|congruence].
    exists fp. split; [exact Hf|].
    destruct (percent_below_spec buyer_budget fp) as [Hr1 Ht1]; [lia|].
    destruct (percent_below_spec (base_market_price product) fp) as [Hr2 Ht2];
      [lia|].
    unfold calculate_results. rewrite Hd, Hf. cbn [sub_optional bind]. split.
    + intros e.
      destruct (percent_below buyer_budget (Some fp)) as [x|e1] eqn:H1; cbn [bind].
      * destruct (percent_below (base_market_price product) (Some fp))
          as [y|e2] eqn:H2; cbn [bind]; intros H; try discriminate.
        injection H as <-. apply Hr2. reflexivity.
      * intros H. injection H as <-. apply Hr1. reflexivity.
    + intros Hq1 Hq2.
      destruct Ht1 as [x Hx]; [lia|]. destruct Ht2 as [y Hy]; [lia|].
      rewrite Hx, Hy. cbn [bind]. exists x, y. reflexivity.
Qed.

Lemma calculate_results_total_witness :
  exists (st : Locals.t) (x y : Py.float),
    negotiation_loop your_agent alphonso 216000 144000 = Ok st /\
    calculate_results alphonso 216000 st =
    Ok {| deal_made := true;
          final_price := Some 144000;
          rounds := 2;
          savings := 72000;
          savings_pct := Py.Float x;
          below_market_pct := Py.Float y;
          conversation := messages (Locals.context st) |}.
Proof.
  assert (H0 : exists st, negotiation_loop your_agent alphonso 216000 144000 = Ok st)
    by (eexists; vm_compute; reflexivity).
  destruct H0 as [st H0]. exists st.
  destruct (calculate_results_total your_agent alphonso 216000 144000 st H0)
    as [_ H].
  assert (Hst := H0). vm_compute in Hst. injection Hst as <-.
  destruct H as (fp & Hf & _ & Ht); [reflexivity|lia|cbn; lia|].
  vm_compute in Hf. injection Hf as <-.
  destruct Ht as (x & y & Hxy); [vm_compute; reflexivity|vm_compute; reflexivity|].
  exists x, y. split; [exact H0|exact Hxy].
Defined.

(** ** Binary64 products against decimal arithmetic *)

(** [int(100 * 1.15)] is 114 and [int(180000 * 0.70)] is 125999. *)
Example int_mul_below_decimal :
  Py.int_mul 100 Py.c_1_15 = Ok 114 /\ Py.int_mul 180000 Py.c_0_70 = Ok 125999.
Proof. split; reflexivity. Qed.

(** A product beyond the range of binary64 raises [OverflowError]. *)
Example int_mul_overflow : Py.int_mul (10 ^ 400) Py.c_0_80 = Raise OverflowError.
Proof. vm_compute. reflexivity. Qed.

(** * Lemmas for the properties beyond the claims *)

(** ** Small cases and anchors *)

(** Products of concrete integers are evaluated. *)
Ltac eval_int_mul :=
  repeat match goal with
         | H : Py.int_mul 0 _ = Ok _ |- _ =>
             vm_compute in H; injection H as H; subst
         | H : Py.int_mul (Zpos ?n) _ = Ok _ |- _ =>
             is_ground n; vm_compute in H; injection H as H; subst
         | H : Ok _ = Ok _ |- _ => injection H as H; subst
         end.

(** A case for each value of a small integer. *)
Ltac enumerate n lo hi :=
  let rec go k :=
    tryif (let b := eval vm_compute in (hi <? k)%Z in constr_eq b true)
    then (exfalso; lia)
    else (let H := fresh in
          destruct (Z.eq_dec n k) as [H|H];
          [subst n | let k' := eval vm_compute in (k + 1)%Z in go k'])
  in go lo.

Lemma calculate_fair_price_cases (p : Product) (fair : Z) :
  YourBuyerAgent.calculate_fair_price p = Ok fair ->
  exists (c1 c2 : option Py.float) (f1 : Z),
    In c1 [Some Py.c_1_10; Some Py.c_0_90; None] /\
    In c2 [Some Py.c_1_08; None] /\
    match c1 with
    | Some c => Py.int_mul (base_market_price p) c = Ok f1
    | None => f1 = base_market_price p
    end /\
    match c2 with
    | Some c => Py.int_mul f1 c = Ok fair
    | None => fair = f1
    end.
Proof.
  intros Hfair. rewrite calculate_fair_price_eq in Hfair.
  apply bind_Ok in Hfair. destruct Hfair as (f1 & H1 & H2).
  exists (if is_export p then Some Py.c_1_10
          else if is_grade_b p then Some Py.c_0_90 else None),
         (if has_premium p then Some Py.c_1_08 else None), f1.
  split; [destruct (is_export p); [|destruct (is_grade_b p)]; simpl; auto|].
  split; [destruct (has_premium p); simpl; auto|].
  split.
  - destruct (is_export p); [|destruct (is_grade_b p)]; auto.
    injection H1 as <-. reflexivity.
  - destruct (has_premium p); auto. injection H2 as <-. reflexivity.
Qed.

Lemma calculate_fair_price_nonneg (p : Product) (fair : Z) :
  0 <= base_market_price p ->
  YourBuyerAgent.calculate_fair_price p = Ok fair ->
  0 <= fair /\ 899 * base_market_price p < 1000 * (fair + 1) /\
  1000 * fair <= 1191 * base_market_price p.
Proof.
  intros Hbase Hfair.
  destruct (calculate_fair_price_cases p fair Hfair)
    as (c1 & c2 & f1 & Hc1 & Hc2 & H1 & H2).
  simpl in Hc1, Hc2.
  destruct Hc1 as [<-|[<-|[<-|[]]]];
    try (apply int_mul_1_10 in H1; [|lia]);
    try (apply int_mul_0_90 in H1; [|lia]);
    destruct Hc2 as [<-|[<-|[]]];
    try (apply int_mul_1_08 in H2; [|lia]); nia.
Qed.

Lemma floor_le_anchor (p : Product) (fair anchor floor : Z) :
  0 <= base_market_price p ->
  YourBuyerAgent.calculate_fair_price p = Ok fair ->
  Py.int_mul fair Py.c_0_58 = Ok anchor ->
  Py.int_mul (base_market_price p) Py.c_0_40 = Ok floor ->
  floor <= anchor.
Proof.
  intros Hbase Hfair Ha Hf.
  destruct (Z_lt_le_dec (base_market_price p) 20) as [Hsmall|Hbig].
  - destruct (calculate_fair_price_cases p fair Hfair)
      as (c1 & c2 & f1 & Hc1 & Hc2 & H1 & H2).
    revert H1 Hf Hbase Hsmall. generalize (base_market_price p) as b.
    intros b H1 Hf Hb0 Hsmall. simpl in Hc1, Hc2.
    enumerate b 0 19;
      (destruct Hc1 as [<-|[<-|[<-|[]]]]; destruct Hc2 as [<-|[<-|[]]];
       subst; eval_int_mul; lia).
  - pose proof (calculate_fair_price_nonneg p fair Hbase Hfair).
    apply int_mul_0_58 in Ha; [|lia].
    apply int_mul_0_40 in Hf; lia.
Qed.

Lemma generate_opening_offer_inv (context : NegotiationContext)
    (offer : Z) (msg : string) :
  YourBuyerAgent.generate_opening_offer context = Ok (offer, msg) ->
  exists fair anchor floor : Z,
    YourBuyerAgent.calculate_fair_price (product context) = Ok fair /\
    Py.int_mul fair Py.c_0_58 = Ok anchor /\
    Py.int_mul (base_market_price (product context)) Py.c_0_40 = Ok floor /\
    offer = Z.max (Z.min anchor (your_budget context)) floor.
Proof.
  unfold YourBuyerAgent.generate_opening_offer. intros H.
  apply bind_Ok in H. destruct H as (fair & Hfair & H).
  apply bind_Ok in H. destruct H as (anchor & Ha & H).
  apply bind_Ok in H. destruct H as (floor & Hf & H).
  apply bind_Ok in H. destruct H as (phrase & _ & H).
  injection H as <- _. exists fair, anchor, floor. auto.
Qed.

(** ** Loops with an index, and the rounds *)

Section IndexedLoops.

Context {St : Type}.
Variable body : Z -> St -> result (flow * St).
Variable P : nat -> St -> Prop.
Variable Q : St -> Prop.

(** An invariant indexed by the iteration, with a postcondition for the
    iteration that breaks. *)
Lemma for_range_seq_invariant (n : nat) :
  forall (k : nat) (st st' : St),
    (forall (i : nat) (s s' : St),
        (k <= i < k + n)%nat -> P i s ->
        body (Z.of_nat i) s = Ok (Next, s') -> P (S i) s') ->
    (forall (i : nat) (s s' : St),
        (k <= i < k + n)%nat -> P i s ->
        body (Z.of_nat i) s = Ok (Break, s') -> Q s') ->
    P k st ->
    for_range body (map Z.of_nat (seq k n)) st = Ok st' ->
    Q st' \/ P (k + n)%nat st'.
Proof.
  induction n as [|n IH]; intros k st st' Hnext Hbreak HP H.
  - injection H as <-. right. rewrite Nat.add_0_r. exact HP.
  - cbn [seq map for_range] in H.
    destruct (body (Z.of_nat k) st) as [[[|] s1]|e] eqn:E; try discriminate.
    + replace (k + S n)%nat with (S k + n)%nat by lia.
      apply (IH (S k) s1 st'); auto.
      * intros i s s' Hi. apply Hnext. lia.
      * intros i s s' Hi. apply Hbreak. lia.
      * apply (Hnext k st s1); auto. lia.
    + injection H as <-. left. apply (Hbreak k st s1); auto. lia.
Qed.

End IndexedLoops.

Section RoundBody.

Variable buyer_agent : BaseBuyerAgent.t.
Variable seller : MockSellerAgent.t.

(** The three ways a round ends. *)
Lemma round_body_inv (r : Z) (st st' : Locals.t) (f : flow) :
  round_body buyer_agent seller r st = Ok (f, st') ->
  exists (status : DealStatus) (offer : Z) (bmsg : string),
    (if r =? 0
     then BaseBuyerAgent.generate_opening_offer buyer_agent
            (set_current_round (r + 1) (Locals.context st)) = Ok (offer, bmsg) /\
          status = ONGOING
     else BaseBuyerAgent.respond_to_seller_offer buyer_agent
            (set_current_round (r + 1) (Locals.context st))
            (Locals.seller_price st) (Locals.seller_msg st)
          = Ok (status, offer, bmsg)) /\
    ((status = ACCEPTED /\ f = Break /\
      st' = {| Locals.context :=
                 append_message "buyer" bmsg
                   (append_your_offer offer
                      (set_current_round (r + 1) (Locals.context st)));
               Locals.seller_price := Locals.seller_price st;
               Locals.seller_msg := Locals.seller_msg st;
               Locals.deal_made := true;
               Locals.final_price := Some (Locals.seller_price st) |}) \/
     (status <> ACCEPTED /\
      exists (sp : Z) (sm : string) (accepts : bool),
        MockSellerAgent.respond_to_buyer seller offer r = Ok (sp, sm, accepts) /\
        ((accepts = true /\ f = Break /\
          st' = {| Locals.context :=
                     append_message "seller" sm
                       (append_message "buyer" bmsg
                          (append_your_offer offer
                             (set_current_round (r + 1) (Locals.context st))));
                   Locals.seller_price := sp;
                   Locals.seller_msg := sm;
                   Locals.deal_made := true;
                   Locals.final_price := Some offer |}) \/
         (accepts = false /\ f = Next /\
          st' = {| Locals.context :=
                     append_message "seller" sm
                       (append_seller_offer sp
                          (append_message "buyer" bmsg
                             (append_your_offer offer
                                (set_current_round (r + 1) (Locals.context st)))));
                   Locals.seller_price := sp;
                   Locals.seller_msg := sm;
                   Locals.deal_made := Locals.deal_made st;
                   Locals.final_price := Locals.final_price st |})))).
Proof.
  unfold round_body. intros H.
  apply bind_Ok in H. destruct H as ([[status offer] bmsg] & Hb & H).
  exists status, offer, bmsg. split.
  - destruct (r =? 0).
    + apply bind_Ok in Hb. destruct Hb as ([o m] & Hg & Hb).
      injection Hb as <- <- <-. auto.
    + exact Hb.
  - destruct status; cbn [DealStatus_eqb] in H;
      try (injection H as <- <-; left; auto; fail);
      right; (split; [discriminate|]);
      apply bind_Ok in H; destruct H as ([[sp sm] acc] & Hs & H);
      exists sp, sm, acc; (split; [exact Hs|]);
      destruct acc; injection H as <- <-; auto.
Qed.

End RoundBody.

(** What the result dictionary takes from the loop. *)
Lemma calculate_results_inv (product : Product) (buyer_budget : Z)
    (st : Locals.t) (o : Outcome) :
  calculate_results product buyer_budget st = Ok o ->
  deal_made o = Locals.deal_made st /\
  final_price o = Locals.final_price st /\
  rounds o = current_round (Locals.context st) /\
  conversation o = messages (Locals.context st) /\
  (Locals.deal_made st = false -> savings o = 0) /\
  (forall fp : Z,
      Locals.deal_made st = true -> Locals.final_price st = Some fp ->
      savings o = buyer_budget - fp).
Proof.
  unfold calculate_results. intros H.
  apply bind_Ok in H. destruct H as (sv & Hsv & H).
  apply bind_Ok in H. destruct H as (sp & Hsp & H).
  apply bind_Ok in H. destruct H as (bm & Hbm & H).
  injection H as <-. cbn.
  repeat (split; [reflexivity|]). split.
  - intros Hd. rewrite Hd in Hsv. injection Hsv as <-. reflexivity.
  - intros fp Hd Hfp. rewrite Hd, Hfp in Hsv. injection Hsv as <-. reflexivity.
Qed.

Lemma run_negotiation_test_inv (buyer_agent : BaseBuyerAgent.t)
    (product : Product) (buyer_budget seller_min : Z) (o : Outcome) :
  run_negotiation_test buyer_agent product buyer_budget seller_min = Ok o ->
  exists st0 st : Locals.t,
    opening_state product buyer_budget seller_min = Ok st0 /\
    for_range (round_body buyer_agent (MockSellerAgent.init seller_min))
      (map Z.of_nat (seq 0 10)) st0 = Ok st /\
    calculate_results product buyer_budget st = Ok o.
Proof.
  unfold run_negotiation_test, negotiation_loop. intros H.
  apply bind_Ok in H. destruct H as (st & H & Ho).
  apply bind_Ok in H. destruct H as (st0 & H0 & H).
  exists st0, st. auto.
Qed.

(** ** Comparisons with a product *)

Section Thresholds.

Local Open Scope R_scope.

(** [n <= x] between an [int] and a finite [float] compares the values. *)
Lemma int_le_float_spec (n : Z) (x : Py.float) :
  is_finite x = true ->
  (Py.int_le_float n x = true <-> IZR n <= F2R x).
Proof.
  destruct x as [s|s| |s m e]; try discriminate; intros _;
    unfold Py.int_le_float, Py.compare_int_float.
  - cbn [F2R]. destruct (Z.compare_spec n 0) as [H|H|H]; split; intros H';
      try reflexivity; try discriminate; try (apply IZR_le; lia).
    apply le_IZR in H'. lia.
  - rewrite F2R_cond_Zopp. set (v := cond_Zopp s (Zpos m)).
    destruct (Z.leb_spec 0 e) as [He|He].
    + rewrite <- IZR_pow2, <- mult_IZR by lia.
      destruct (Z.compare_spec n (v * 2 ^ e)) as [H|H|H]; split; intros H';
        try reflexivity; try discriminate; try (apply IZR_le; lia).
      apply le_IZR in H'. lia.
    + assert (HD : (0 < 2 ^ (- e))%Z) by (apply Z.pow_pos_nonneg; lia).
      assert (HDR : 0 < IZR (2 ^ (- e))) by (apply IZR_lt; lia).
      assert (Hp : powerRZ 2 e * IZR (2 ^ (- e)) = 1).
      { rewrite IZR_pow2, <- pow2_add by lia.
        replace (e + - e)%Z with 0%Z by lia. reflexivity. }
      assert (Hiff : IZR n <= IZR v * powerRZ 2 e <-> (n * 2 ^ (- e) <= v)%Z).
      { split; intros H.
        - apply le_IZR. rewrite mult_IZR.
          apply Rmult_le_compat_r with (r := IZR (2 ^ (- e))) in H; [|lra].
          rewrite Rmult_assoc, Hp in H. lra.
        - apply IZR_le in H. rewrite mult_IZR in H.
          apply Rmult_le_reg_r with (IZR (2 ^ (- e))); [lra|].
          rewrite Rmult_assoc, Hp. lra. }
      rewrite Hiff.
      destruct (Z.compare_spec (n * 2 ^ (- e)) v) as [H|H|H]; split; intros H';
        try reflexivity; try discriminate; lia.
Qed.

(** [n * c] for a non-negative [n]: plus infinity, or a finite double
    within two roundings of the exact product. *)
Lemma mul_int_float_cases (n : Z) (c x : Py.float) :
  (0 <= n)%Z -> literal_like c = true ->
  Py.mul_int_float n c = Ok x ->
  x = S754_infinity false \/
  (is_finite x = true /\
   IZR n * F2R c * ((1 - u64) * (1 - u64)) <= F2R x
     <= IZR n * F2R c * ((1 + u64) * (1 + u64))).
Proof.
  intros Hn Hc Hx.
  destruct (literal_like_inv c Hc) as (mc & ec & -> & Hdc & Hec & Hvc).
  destruct n as [|n|n]; try lia.
  - injection Hx as <-. right. split; [reflexivity|].
    cbn [SFmul F2R xorb]. rewrite !Rmult_0_l. lra.
  - unfold Py.mul_int_float in Hx.
    destruct (float_of_pos_cases n)
      as [Hr|(mb & eb & Hfl & Hdb & Heb & _ & Herrb)];
      rewrite ?Hr, ?Hfl in Hx; [discriminate|].
    cbv beta iota delta [bind] in Hx.
    assert (Hd1 : (1 <= Zdigits2 (Zpos n))%Z) by (simpl; lia).
    destruct (SFmul_cases false false mb mc eb ec Hdb Hdc)
      as [Hinf|(mf & ef & Hmul & _ & _ & Herr)]; [lia| |].
    + left. rewrite Hinf in Hx. injection Hx as <-. reflexivity.
    + right. rewrite Hmul in Hx. injection Hx as <-. split; [reflexivity|].
      cbn [xorb] in *.
      apply mul_chain with (vb := F2R (S754_finite false mb eb)); auto.
      * apply IZR_lt; lia.
      * apply Hvc.
Qed.

End Thresholds.

(** A comparison with [n * c], against exact arithmetic: the constant lies
    between [a/d] and [b/d]. *)
Lemma compare_mul_bracket (n : Z) (c x : Py.float) (a b d : Z) :
  0 <= n -> literal_like c = true ->
  Py.mul_int_float n c = Ok x ->
  0 < d ->
  (IZR a / IZR d <= F2R c * ((1 - u64) * (1 - u64)))%R ->
  (F2R c * ((1 + u64) * (1 + u64)) <= IZR b / IZR d)%R ->
  forall k : Z,
    (Py.int_ge_float k x = true -> a * n <= d * k) /\
    (Py.int_le_float k x = false -> a * n < d * k) /\
    (is_finite x = true -> Py.int_ge_float k x = false -> d * k < b * n) /\
    (is_finite x = true -> Py.int_le_float k x = true -> d * k <= b * n).
Proof.
  intros Hn Hc Hx Hd Ha Hb k.
  assert (HdR : (0 < IZR d)%R) by (apply IZR_lt; lia).
  assert (HnR : (0 <= IZR n)%R) by (apply IZR_le; lia).
  destruct (mul_int_float_cases n c x Hn Hc Hx) as [->|(Hfin & Hlo & Hhi)].
  - repeat split; try discriminate.
  - pose proof (int_ge_float_spec k x Hfin) as Hge.
    pose proof (int_le_float_spec k x Hfin) as Hle.
    rewrite Rmult_assoc in Hlo, Hhi.
    assert (Hlo' : (IZR a * IZR n <= IZR d * F2R x)%R).
    { apply Rle_trans with (IZR d * (IZR n * (IZR a / IZR d)))%R.
      - right. field. lra.
      - apply Rmult_le_compat_l; [lra|].
        apply Rle_trans with (2 := Hlo).
        apply Rmult_le_compat_l; assumption. }
    assert (Hhi' : (IZR d * F2R x <= IZR b * IZR n)%R).
    { apply Rle_trans with (IZR d * (IZR n * (IZR b / IZR d)))%R.
      - apply Rmult_le_compat_l; [lra|].
        apply Rle_trans with (1 := Hhi).
        apply Rmult_le_compat_l; assumption.
      - right. field. lra. }
    split; [|split; [|split]].
    + intros H. apply Hge in H. apply le_IZR. rewrite !mult_IZR.
      apply Rle_trans with (1 := Hlo'). apply Rmult_le_compat_l; lra.
    + intros H. apply lt_IZR. rewrite !mult_IZR.
      assert (Hlt : (F2R x < IZR k)%R).
      { apply Rnot_le_lt. intros H'. apply Hle in H'. congruence. }
      apply Rle_lt_trans with (1 := Hlo'). apply Rmult_lt_compat_l; lra.
    + intros _ H. apply lt_IZR. rewrite !mult_IZR.
      assert (Hlt : (IZR k < F2R x)%R).
      { apply Rnot_le_lt. intros H'. apply Hge in H'. congruence. }
      apply Rlt_le_trans with (2 := Hhi'). apply Rmult_lt_compat_l; lra.
    + intros _ H. apply Hle in H. apply le_IZR. rewrite !mult_IZR.
      apply Rle_trans with (2 := Hhi'). apply Rmult_le_compat_l; lra.
Qed.

Ltac literal_bracket :=
  match goal with
  | |- context [F2R ?c] =>
      let c' := eval cbv in c in
      change c with c'; rewrite F2R_literal by (vm_compute; discriminate);
      match goal with
      | |- context [IZR (2 ^ ?k)] =>
          let v := eval vm_compute in (2 ^ k)%Z in
          change (2 ^ k)%Z with v
      end;
      unfold u64; change (2 ^ 53)%Z with 9007199254740992%Z; lra
  end.

Lemma compare_mul_1_1 (n : Z) (x : Py.float) (k : Z) :
  0 <= n -> Py.mul_int_float n Py.c_1_1 = Ok x ->
  (Py.int_ge_float k x = true -> 1099 * n <= 1000 * k) /\
  (Py.int_le_float k x = false -> 1099 * n < 1000 * k) /\
  (is_finite x = true -> Py.int_ge_float k x = false -> 1000 * k < 1101 * n) /\
  (is_finite x = true -> Py.int_le_float k x = true -> 1000 * k <= 1101 * n).
Proof.
  intros Hn Hx.
  apply (compare_mul_bracket n Py.c_1_1 x 1099 1101 1000); auto;
    try lia; try reflexivity; literal_bracket.
Qed.

Lemma compare_mul_0_85 (n : Z) (x : Py.float) (k : Z) :
  0 <= n -> Py.mul_int_float n Py.c_0_85 = Ok x ->
  (Py.int_ge_float k x = true -> 849 * n <= 1000 * k) /\
  (Py.int_le_float k x = false -> 849 * n < 1000 * k) /\
  (is_finite x = true -> Py.int_ge_float k x = false -> 1000 * k < 851 * n) /\
  (is_finite x = true -> Py.int_le_float k x = true -> 1000 * k <= 851 * n).
Proof.
  intros Hn Hx.
  apply (compare_mul_bracket n Py.c_0_85 x 849 851 1000); auto;
    try lia; try reflexivity; literal_bracket.
Qed.

Lemma compare_mul_0_95 (n : Z) (x : Py.float) (k : Z) :
  0 <= n -> Py.mul_int_float n Py.c_0_95 = Ok x ->
  (Py.int_ge_float k x = true -> 949 * n <= 1000 * k) /\
  (Py.int_le_float k x = false -> 949 * n < 1000 * k) /\
  (is_finite x = true -> Py.int_ge_float k x = false -> 1000 * k < 951 * n) /\
  (is_finite x = true -> Py.int_le_float k x = true -> 1000 * k <= 951 * n).
Proof.
  intros Hn Hx.
  apply (compare_mul_bracket n Py.c_0_95 x 949 951 1000); auto;
    try lia; try reflexivity; literal_bracket.
Qed.

(** The two answers of the mock seller. *)
Lemma respond_to_buyer_inv (self : MockSellerAgent.t)
    (buyer_offer round_num price : Z) (msg : string) (accepts : bool) :
  MockSellerAgent.respond_to_buyer self buyer_offer round_num
    = Ok (price, msg, accepts) ->
  exists threshold : Py.float,
    Py.mul_int_float (MockSellerAgent.min_price self) Py.c_1_1 = Ok threshold /\
    Py.int_ge_float buyer_offer threshold = accepts /\
    (if accepts then price = buyer_offer
     else exists raised : Z,
         Py.int_mul buyer_offer
           (if 8 <=? round_num then Py.c_1_05 else Py.c_1_15) = Ok raised /\
         price = Z.max (MockSellerAgent.min_price self) raised).
Proof.
  unfold MockSellerAgent.respond_to_buyer. intros H.
  apply bind_Ok in H. destruct H as (th & Hth & H).
  exists th. split; [exact Hth|].
  destruct (Py.int_ge_float buyer_offer th).
  - injection H as <- _ <-. auto.
  - destruct (8 <=? round_num);
      apply bind_Ok in H; destruct H as (raised & Hr & H);
      injection H as <- _ <-; split; auto; exists raised; auto.
Qed.

Lemma respond_to_buyer_floor (self : MockSellerAgent.t)
    (buyer_offer round_num price : Z) (msg : string) (accepts : bool) :
  0 <= MockSellerAgent.min_price self ->
  MockSellerAgent.respond_to_buyer self buyer_offer round_num
    = Ok (price, msg, accepts) ->
  MockSellerAgent.min_price self <= price /\
  (0 <= buyer_offer -> buyer_offer <= price).
Proof.
  intros Hm H. apply respond_to_buyer_inv in H.
  destruct H as (th & Hth & Hcmp & H).
  destruct accepts.
  - subst price.
    destruct (compare_mul_1_1 _ th buyer_offer Hm Hth) as (Hge & _).
    specialize (Hge Hcmp). lia.
  - destruct H as (raised & Hr & ->). split; [lia|]. intros Ho.
    destruct (8 <=? round_num).
    + apply int_mul_1_05 in Hr; lia.
    + apply int_mul_1_15 in Hr; lia.
Qed.

(** ** [ExampleSimpleAgent] *)

Lemma mul_int_float_finite (n : Z) (c x : Py.float) :
  0 <= n < 2 ^ 900 -> literal_like c = true ->
  Py.mul_int_float n c = Ok x -> is_finite x = true.
Proof.
  intros Hn Hc Hx.
  destruct (mul_int_float_nonneg n c) as (y & Hy & Hfin & _); auto.
  - split; [lia|]. eapply Z.lt_trans; [apply Hn|reflexivity].
  - congruence.
Qed.

Lemma compare_mul_0_85_fine (n : Z) (x : Py.float) (k : Z) :
  0 <= n -> Py.mul_int_float n Py.c_0_85 = Ok x ->
  (Py.int_ge_float k x = true -> (85 * 10 ^ 13 - 1) * n <= 10 ^ 15 * k) /\
  (Py.int_le_float k x = false -> (85 * 10 ^ 13 - 1) * n < 10 ^ 15 * k) /\
  (is_finite x = true -> Py.int_ge_float k x = false ->
   10 ^ 15 * k < (85 * 10 ^ 13 + 1) * n) /\
  (is_finite x = true -> Py.int_le_float k x = true ->
   10 ^ 15 * k <= (85 * 10 ^ 13 + 1) * n).
Proof.
  intros Hn Hx.
  change (85 * 10 ^ 13 - 1) with 849999999999999.
  change (85 * 10 ^ 13 + 1) with 850000000000001.
  change (10 ^ 15) with 1000000000000000.
  apply (compare_mul_bracket n Py.c_0_85 x
           849999999999999 850000000000001 1000000000000000); auto;
    try lia; try reflexivity; literal_bracket.
Qed.

Section Example.

Variable context : NegotiationContext.
Variable seller_price : Z.
Variable seller_message : string.

(** The two answers of the example agent. *)
Lemma example_respond_inv (status : DealStatus) (price : Z) (msg : string) :
  ExampleSimpleAgent.respond_to_seller_offer context seller_price seller_message
    = Ok (status, price, msg) ->
  (status = ACCEPTED /\ price = seller_price /\
   seller_price <= your_budget context /\
   exists limit : Py.float,
     Py.mul_int_float (base_market_price (product context)) Py.c_0_85 = Ok limit /\
     Py.int_le_float seller_price limit = true) \/
  (status = ONGOING /\
   (your_budget context < seller_price \/
    exists limit : Py.float,
      Py.mul_int_float (base_market_price (product context)) Py.c_0_85 = Ok limit /\
      Py.int_le_float seller_price limit = false) /\
   exists (raised : Z) (close : Py.float),
     Py.int_mul (last (your_offers context) 0) Py.c_1_1 = Ok raised /\
     Py.mul_int_float seller_price Py.c_0_95 = Ok close /\
     price = if Py.int_ge_float (Z.min raised (your_budget context)) close
             then Z.min (seller_price - 1000) (your_budget context)
             else Z.min raised (your_budget context)).
Proof.
  unfold ExampleSimpleAgent.respond_to_seller_offer. intros H.
  apply bind_Ok in H. destruct H as (within & Hw & H).
  assert (Hw' : (within = true /\ seller_price <= your_budget context /\
                 exists limit : Py.float,
                   Py.mul_int_float (base_market_price (product context))
                     Py.c_0_85 = Ok limit /\
                   Py.int_le_float seller_price limit = true) \/
                (within = false /\
                 (your_budget context < seller_price \/
                  exists limit : Py.float,
                    Py.mul_int_float (base_market_price (product context))
                      Py.c_0_85 = Ok limit /\
                    Py.int_le_float seller_price limit = false))).
  { destruct (Z.leb_spec seller_price (your_budget context)) as [Hle|Hlt].
    - apply bind_Ok in Hw. destruct Hw as (limit & Hl & Hw).
      injection Hw as <-.
      destruct (Py.int_le_float seller_price limit) eqn:E.
      + left. split; [reflexivity|]. split; [exact Hle|]. exists limit. auto.
      + right. split; [reflexivity|]. right. exists limit. auto.
    - injection Hw as <-. right. split; [reflexivity|]. left. exact Hlt. }
  destruct Hw' as [(-> & Hle & Hlim)|(-> & Hno)].
  - injection H as <- <- _. left. auto.
  - right. apply bind_Ok in H. destruct H as (raised & Hr & H).
    apply bind_Ok in H. destruct H as (close & Hc & H).
    assert (Hst : status = ONGOING /\
                  price = if Py.int_ge_float (Z.min raised (your_budget context)) close
                          then Z.min (seller_price - 1000) (your_budget context)
                          else Z.min raised (your_budget context)).
    { destruct (Py.int_ge_float _ close); injection H as <- <- _; auto. }
    destruct Hst as [-> ->]. split; [reflexivity|]. split; [exact Hno|].
    exists raised, close. auto.
Qed.

End Example.

(** ** The shape of a run *)

Lemma turns_length (n : nat) : forall a b : string, List.length (turns n a b) = n.
Proof. induction n as [|n IH]; intros a b; cbn; [|rewrite IH]; reflexivity. Qed.

Lemma turns_snoc (i : nat) (a b : string) :
  turns (2 * i + 2) a b = (turns (2 * i + 1) a b ++ [b])%list /\
  turns (2 * i + 3) a b = (turns (2 * i + 2) a b ++ [a])%list.
Proof.
  induction i as [|i [IH1 IH2]]; [split; reflexivity|].
  replace (2 * S i + 2)%nat with (S (S (2 * i + 2))) by lia.
  replace (2 * S i + 3)%nat with (S (S (2 * i + 3))) by lia.
  replace (2 * S i + 1)%nat with (S (S (2 * i + 1))) by lia.
  cbn [turns]. rewrite IH1 at 1. rewrite IH2 at 1. split; reflexivity.
Qed.

Section Shape.

Variable buyer_agent : BaseBuyerAgent.t.
Variable seller : MockSellerAgent.t.

Lemma round_body_next_head (i : nat) (s s' : Locals.t) :
  loop_head i s ->
  round_body buyer_agent seller (Z.of_nat i) s = Ok (Next, s') ->
  loop_head (S i) s'.
Proof.
  intros (Hr & Hd & Hf & Hy & Hs & Hsp & Hm) H.
  apply round_body_inv in H.
  destruct H as (status & offer & bmsg & _ & [(_ & Hx & _)|(_ & H)]);
    [discriminate|].
  destruct H as (sp & sm & acc & _ & [(_ & Hx & _)|(_ & _ & ->)]);
    [discriminate|].
  destruct (turns_snoc i "seller" "buyer") as [E1 E2].
  unfold loop_head. replace (2 * S i + 1)%nat with (2 * i + 3)%nat by lia.
  rewrite E2, E1. cbn -[turns Nat.mul Nat.add].
  rewrite !length_app, !map_app, last_last, Hy, Hs, Hm.
  cbn -[turns Nat.mul Nat.add].
  repeat split; auto; lia.
Qed.

Lemma round_body_break_exit (i : nat) (s s' : Locals.t) :
  (i < 10)%nat -> loop_head i s ->
  round_body buyer_agent seller (Z.of_nat i) s = Ok (Break, s') ->
  loop_exit s'.
Proof.
  intros Hi (Hr & Hd & Hf & Hy & Hs & Hsp & Hm) H.
  apply round_body_inv in H.
  destruct (turns_snoc i "seller" "buyer") as [E1 E2].
  destruct H as (status & offer & bmsg & Hb & [(-> & _ & ->)|(_ & H)]).
  - split; [reflexivity|]. exists (S i).
    replace (2 * S i)%nat with (2 * i + 2)%nat by lia. rewrite E1.
    cbn -[turns Nat.mul Nat.add].
    rewrite !length_app, !map_app, Hy, Hs, Hm. cbn -[turns Nat.mul Nat.add].
    split; [lia|]. split; [lia|]. split; [lia|]. split; [reflexivity|].
    left. split.
    + destruct i; [|lia]. cbn in Hb. destruct Hb as [_ Hb]. discriminate.
    + split; [rewrite Hsp; reflexivity|reflexivity].
  - destruct H as (sp & sm & acc & _ & [(_ & _ & ->)|(_ & Hx & _)]);
      [|discriminate].
    split; [reflexivity|]. exists (S i).
    replace (2 * S i + 1)%nat with (2 * i + 3)%nat by lia. rewrite E2, E1.
    cbn -[turns Nat.mul Nat.add].
    rewrite !length_app, !map_app, last_last, Hy, Hs, Hm.
    cbn -[turns Nat.mul Nat.add].
    split; [lia|]. split; [lia|]. split; [lia|]. split; [reflexivity|].
    right. split; reflexivity.
Qed.

End Shape.

Lemma opening_state_head (p : Product) (buyer_budget seller_min : Z)
    (st0 : Locals.t) :
  opening_state p buyer_budget seller_min = Ok st0 ->
  loop_head 0 st0 /\
  product (Locals.context st0) = p /\
  your_budget (Locals.context st0) = buyer_budget.
Proof.
  unfold opening_state. intros H.
  apply bind_Ok in H. destruct H as ([sp sm] & _ & H). injection H as <-.
  repeat split.
Qed.

(** The shape of the state the loop leaves behind. *)
Lemma negotiation_loop_shape (buyer_agent : BaseBuyerAgent.t) (product : Product)
    (buyer_budget seller_min : Z) (st : Locals.t) :
  negotiation_loop buyer_agent product buyer_budget seller_min = Ok st ->
  loop_exit st \/ loop_head 10 st.
Proof.
  unfold negotiation_loop. intros H.
  apply bind_Ok in H. destruct H as (st0 & H0 & H).
  apply opening_state_head in H0. destruct H0 as (H0 & _).
  unfold range in H.
  apply (for_range_seq_invariant
           (round_body buyer_agent (MockSellerAgent.init seller_min))
           loop_head loop_exit 10 0 st0 st); auto.
  - intros i s s' _. apply round_body_next_head.
  - intros i s s' Hi. apply round_body_break_exit. lia.
Qed.

(** The opening anchor is below the anchor for an outrageous seller, and
    below the ceiling. *)
Lemma anchor_58_le_70 (fair a b : Z) :
  0 <= fair ->
  Py.int_mul fair Py.c_0_58 = Ok a -> Py.int_mul fair Py.c_0_70 = Ok b ->
  a <= b.
Proof.
  intros Hf Ha Hb.
  destruct (Z_lt_le_dec fair 10) as [Hsmall|Hbig].
  - enumerate fair 0 9; eval_int_mul; lia.
  - apply int_mul_0_58 in Ha; [|lia]. apply int_mul_0_70 in Hb; lia.
Qed.

Lemma anchor_58_le_88 (fair a b : Z) :
  0 <= fair ->
  Py.int_mul fair Py.c_0_58 = Ok a -> Py.int_mul fair Py.c_0_88 = Ok b ->
  a <= b.
Proof.
  intros Hf Ha Hb.
  destruct (Z_lt_le_dec fair 10) as [Hsmall|Hbig].
  - enumerate fair 0 9; eval_int_mul; lia.
  - apply int_mul_0_58 in Ha; [|lia]. apply int_mul_0_88 in Hb; lia.
Qed.

Lemma Sorted_snoc (l : list Z) (x : Z) :
  Sorted Z.le l -> (l = [] \/ last l 0 <= x) -> Sorted Z.le (l ++ [x]).
Proof.
  induction l as [|a l IH]; intros Hs Hl; cbn [app].
  - repeat constructor.
  - inversion Hs as [|? ? Hs' Hd]; subst.
    destruct Hl as [Hl|Hl]; [discriminate|].
    destruct l as [|c l].
    + cbn in *. repeat constructor. exact Hl.
    + constructor.
      * apply IH; [exact Hs'|]. right. exact Hl.
      * inversion Hd; subst. cbn [app]. constructor. assumption.
Qed.

(** A loop invariant of [run_negotiation_test], with the starting state
    and the two ways a round ends. *)
Lemma negotiation_loop_invariant (buyer_agent : BaseBuyerAgent.t)
    (p : Product) (buyer_budget seller_min : Z)
    (P : nat -> Locals.t -> Prop) (Q : Locals.t -> Prop) (st : Locals.t) :
  (forall st0 : Locals.t,
      opening_state p buyer_budget seller_min = Ok st0 -> P 0%nat st0) ->
  (forall (i : nat) (s s' : Locals.t),
      (i < 10)%nat -> loop_head i s -> P i s ->
      product (Locals.context s) = p ->
      your_budget (Locals.context s) = buyer_budget ->
      round_body buyer_agent (MockSellerAgent.init seller_min) (Z.of_nat i) s
        = Ok (Next, s') ->
      P (S i) s') ->
  (forall (i : nat) (s s' : Locals.t),
      (i < 10)%nat -> loop_head i s -> P i s ->
      product (Locals.context s) = p ->
      your_budget (Locals.context s) = buyer_budget ->
      round_body buyer_agent (MockSellerAgent.init seller_min) (Z.of_nat i) s
        = Ok (Break, s') ->
      Q s') ->
  negotiation_loop buyer_agent p buyer_budget seller_min = Ok st ->
  Q st \/ P 10%nat st.
Proof.
  intros Hinit Hnext Hbreak H. unfold negotiation_loop in H.
  apply bind_Ok in H. destruct H as (st0 & H0 & H).
  destruct (opening_state_head _ _ _ _ H0) as (Hh0 & Hp0 & Hb0).
  unfold range in H.
  destruct (for_range_seq_invariant
              (round_body buyer_agent (MockSellerAgent.init seller_min))
              (fun i s => loop_head i s /\ P i s /\
                          product (Locals.context s) = p /\
                          your_budget (Locals.context s) = buyer_budget)
              Q 10 0 st0 st) as [HQ|(_ & HP & _)]; auto.
  - intros i s s' Hi (Hh & HP & Hp & Hb) Hr.
    destruct (round_body_spec _ _ _ _ _ _ Hr) as (_ & Hp' & Hb' & _).
    split; [apply (round_body_next_head _ _ _ _ _ Hh Hr)|].
    split; [apply (Hnext i s s'); auto; lia|].
    split; congruence.
  - intros i s s' Hi (Hh & HP & Hp & Hb) Hr.
    apply (Hbreak i s s'); auto. lia.
Qed.

Lemma example_opening_le_budget (context : NegotiationContext)
    (offer : Z) (msg : string) :
  ExampleSimpleAgent.generate_opening_offer context = Ok (offer, msg) ->
  exists opening : Z,
    Py.int_mul (base_market_price (product context)) Py.c_0_6 = Ok opening /\
    offer = Z.min opening (your_budget context).
Proof.
  unfold ExampleSimpleAgent.generate_opening_offer. intros H.
  apply bind_Ok in H. destruct H as (opening & Ho & H).
  injection H as <- _. exists opening. auto.
Qed.

Lemma example_respond_le_budget (context : NegotiationContext)
    (seller_price : Z) (seller_message : string)
    (status : DealStatus) (price : Z) (msg : string) :
  ExampleSimpleAgent.respond_to_seller_offer context seller_price seller_message
    = Ok (status, price, msg) ->
  price <= your_budget context /\
  (status = ACCEPTED -> seller_price <= your_budget context).
Proof.
  intros H. apply example_respond_inv in H.
  destruct H as [(-> & -> & Hle & _)|(-> & _ & raised & close & _ & _ & ->)].
  - auto.
  - split; [destruct (Py.int_ge_float _ close); lia|discriminate].
Qed.

Lemma Forall_snoc {A : Type} (P : A -> Prop) (l : list A) (x : A) :
  Forall P l -> P x -> Forall P (l ++ [x]).
Proof. intros Hl Hx. apply Forall_app. split; [exact Hl|]. constructor; auto. Qed.

(** The example agent's offers, and the price of its deals, stay within
    the budget. *)
Lemma example_loop_within_budget (agent_name : string) (product : Product)
    (buyer_budget seller_min : Z) (st : Locals.t) :
  negotiation_loop (ExampleSimpleAgent.agent agent_name) product buyer_budget
    seller_min = Ok st ->
  Forall (fun x : Z => x <= buyer_budget) (your_offers (Locals.context st)) /\
  (forall fp : Z, Locals.final_price st = Some fp -> fp <= buyer_budget).
Proof.
  intros H.
  destruct (negotiation_loop_invariant
              (ExampleSimpleAgent.agent agent_name) product buyer_budget seller_min
              (fun _ s => Forall (fun x : Z => x <= buyer_budget)
                            (your_offers (Locals.context s)) /\
                          Locals.final_price s = None)
              (fun s => Forall (fun x : Z => x <= buyer_budget)
                          (your_offers (Locals.context s)) /\
                        forall fp : Z, Locals.final_price s = Some fp ->
                                       fp <= buyer_budget)
              st) as [HQ|(HP & Hn)]; [| | |exact H| |].
  - intros st0 H0. apply opening_state_head in H0.
    destruct H0 as ((_ & _ & Hf & Hy & _) & _).
    destruct (your_offers (Locals.context st0)); [|discriminate]. auto.
  - intros i s s' Hi Hh (HF & Hn) Hp Hb Hr. apply round_body_inv in Hr.
    destruct Hr as (status & offer & bmsg & Hbuy & [(_ & Hx & _)|(_ & Hs)]);
      [discriminate|].
    destruct Hs as (sp & sm & acc & _ & [(_ & Hx & _)|(_ & _ & ->)]);
      [discriminate|].
    cbn. split; [|exact Hn]. apply Forall_snoc; [exact HF|].
    destruct (Z.of_nat i =? 0).
    + destruct Hbuy as [Hbuy _]. cbn in Hbuy.
      apply example_opening_le_budget in Hbuy.
      destruct Hbuy as (opening & _ & ->). cbn. lia.
    + cbn in Hbuy. apply example_respond_le_budget in Hbuy. cbn in Hbuy. lia.
  - intros i s s' Hi Hh (HF & Hn) Hp Hb Hr. apply round_body_inv in Hr.
    assert (Hoff : forall status offer bmsg,
               (if Z.of_nat i =? 0
                then BaseBuyerAgent.generate_opening_offer
                       (ExampleSimpleAgent.agent agent_name)
                       (set_current_round (Z.of_nat i + 1) (Locals.context s))
                     = Ok (offer, bmsg) /\ status = ONGOING
                else BaseBuyerAgent.respond_to_seller_offer
                       (ExampleSimpleAgent.agent agent_name)
                       (set_current_round (Z.of_nat i + 1) (Locals.context s))
                       (Locals.seller_price s) (Locals.seller_msg s)
                     = Ok (status, offer, bmsg)) ->
               offer <= buyer_budget /\
               (status = ACCEPTED -> Locals.seller_price s <= buyer_budget)).
    { intros status offer bmsg Hbuy. destruct (Z.of_nat i =? 0).
      - destruct Hbuy as [Hbuy ->]. cbn in Hbuy.
        apply example_opening_le_budget in Hbuy.
        destruct Hbuy as (opening & _ & ->). cbn. split; [lia|discriminate].
      - cbn in Hbuy. apply example_respond_le_budget in Hbuy. cbn in Hbuy.
        rewrite Hb in Hbuy. exact Hbuy. }
    destruct Hr as (status & offer & bmsg & Hbuy & Hr).
    destruct (Hoff _ _ _ Hbuy) as [Hle Hacc].
    destruct Hr as [(-> & _ & ->)|(_ & Hs)].
    + cbn. split; [apply Forall_snoc; auto|].
      intros fp E. injection E as <-. auto.
    + destruct Hs as (sp & sm & acc & _ & [(_ & _ & ->)|(_ & Hx & _)]);
        [|discriminate].
      cbn. split; [apply Forall_snoc; auto|].
      intros fp E. injection E as <-. exact Hle.
  - exact HQ.
  - split; [exact HP|]. intros fp E. congruence.
Qed.

(** ** [YourBuyerAgent] in the loop *)

Lemma respond_to_buyer_ge_offer (self : MockSellerAgent.t)
    (buyer_offer round_num price : Z) (msg : string) (accepts : bool) :
  0 <= buyer_offer ->
  MockSellerAgent.respond_to_buyer self buyer_offer round_num
    = Ok (price, msg, accepts) ->
  buyer_offer <= price.
Proof.
  intros Ho H. apply respond_to_buyer_inv in H.
  destruct H as (th & _ & _ & H). destruct accepts; [lia|].
  destruct H as (raised & Hr & ->).
  destruct (8 <=? round_num).
  - apply int_mul_1_05 in Hr; lia.
  - apply int_mul_1_15 in Hr; lia.
Qed.

Lemma last_offer_of_nonempty (context : NegotiationContext) (fair : Z) :
  your_offers context <> [] ->
  last_offer_of context fair = Ok (last (your_offers context) 0).
Proof.
  unfold last_offer_of. destruct (your_offers context); [congruence|reflexivity].
Qed.

Lemma nth_error_snoc {A : Type} (l : list A) (x y : A) (k : nat) :
  nth_error (l ++ [x]) k = Some y ->
  nth_error l k = Some y \/ (k = List.length l /\ y = x).
Proof.
  intros H. destruct (Nat.lt_ge_cases k (List.length l)) as [Hk|Hk].
  - left. rewrite nth_error_app1 in H; assumption.
  - right. rewrite nth_error_app2 in H by exact Hk.
    destruct (k - List.length l)%nat as [|[|j]] eqn:E; cbn in H;
      try discriminate.
    injection H as <-. split; [lia|reflexivity].
Qed.

(** The answer of [YourBuyerAgent] in a round after the first, when the
    context holds an earlier offer. *)
Lemma your_respond_round (c : NegotiationContext) (seller_price : Z)
    (seller_msg : string) (status : DealStatus) (price : Z) (msg : string) :
  your_offers c <> [] ->
  YourBuyerAgent.respond_to_seller_offer c seller_price seller_msg
    = Ok (status, price, msg) ->
  exists fair ceiling : Z,
    YourBuyerAgent.calculate_fair_price (product c) = Ok fair /\
    Py.int_mul fair Py.c_0_88 = Ok ceiling /\
    ((status = ACCEPTED /\ price = seller_price /\
      seller_price <= Z.min (your_budget c) ceiling) \/
     (status = ONGOING /\ Z.min (your_budget c) ceiling < seller_price /\
      exists step : Z,
        Py.int_mul fair Py.c_0_002 = Ok step /\
        price <= Z.max (Z.min (your_budget c) ceiling)
                   (last (your_offers c) 0 + Z.max 1 step) /\
        (2 < current_round c -> last (your_offers c) 0 < price) /\
        ((forall anchor : Z,
             Py.int_mul fair Py.c_0_70 = Ok anchor ->
             last (your_offers c) 0 <= anchor) ->
         last (your_offers c) 0 <= price))).
Proof.
  intros Hne H. apply respond_to_seller_offer_inv in H.
  destruct H as (fair & ceiling & Hfair & Hceil & H).
  exists fair, ceiling. split; [exact Hfair|]. split; [exact Hceil|].
  destruct H as [(Hle & -> & ->)|(Hlt & -> & H)]; [left; auto|right].
  split; [reflexivity|]. split; [exact Hlt|].
  destruct H as (lo & raw & step & outrageous & Hl & _ & Hs & _ & H).
  rewrite (last_offer_of_nonempty c fair Hne) in Hl. injection Hl as <-.
  exists step. split; [exact Hs|]. cbv zeta in H.
  destruct H as [(_ & Hr & anchor & Ha & ->)|([Hx|Hr] & ->)].
  - split; [lia|]. split; [lia|].
    intros Hle. specialize (Hle anchor Ha). lia.
  - split; [lia|]. split; [lia|]. intros; lia.
  - split; [lia|]. split; [lia|]. intros; lia.
Qed.

(** The opening offer of [YourBuyerAgent], for a non-negative base price. *)
Lemma your_opening_round (c : NegotiationContext) (offer : Z) (msg : string) :
  0 <= base_market_price (product c) ->
  YourBuyerAgent.generate_opening_offer c = Ok (offer, msg) ->
  0 <= offer /\
  exists fair anchor floor : Z,
    YourBuyerAgent.calculate_fair_price (product c) = Ok fair /\
    Py.int_mul fair Py.c_0_58 = Ok anchor /\
    Py.int_mul (base_market_price (product c)) Py.c_0_40 = Ok floor /\
    0 <= fair /\ offer <= anchor /\
    (floor <= your_budget c -> offer = Z.min anchor (your_budget c)).
Proof.
  intros Hbase H. apply generate_opening_offer_inv in H.
  destruct H as (fair & anchor & floor & Hfair & Ha & Hf & ->).
  pose proof (floor_le_anchor _ _ _ _ Hbase Hfair Ha Hf).
  destruct (calculate_fair_price_nonneg _ _ Hbase Hfair) as (Hf0 & _).
  apply int_mul_0_40 in Hf as Hf'; [|exact Hbase].
  split; [lia|]. exists fair, anchor, floor.
  repeat (split; [assumption|]). split; lia.
Qed.

(** ** Runs that can be predicted *)

Section ForwardLoops.

Context {St : Type}.
Variable body : Z -> St -> result (flow * St).
Variable P : nat -> St -> Prop.

(** A loop in which every iteration returns and goes on. *)
Lemma for_range_seq_all_next (n : nat) :
  forall (k : nat) (st : St),
    (forall (i : nat) (s : St),
        (k <= i < k + n)%nat -> P i s ->
        exists s' : St, body (Z.of_nat i) s = Ok (Next, s') /\ P (S i) s') ->
    P k st ->
    exists st' : St,
      for_range body (map Z.of_nat (seq k n)) st = Ok st' /\ P (k + n)%nat st'.
Proof.
  induction n as [|n IH]; intros k st Hstep HP.
  - exists st. rewrite Nat.add_0_r. split; [reflexivity|exact HP].
  - destruct (Hstep k st ltac:(lia) HP) as (s1 & Hb & HP1).
    destruct (IH (S k) s1) as (st' & Hloop & HP').
    + intros i s Hi. apply Hstep. lia.
    + exact HP1.
    + exists st'. cbn [seq map for_range]. rewrite Hb.
      replace (k + S n)%nat with (S k + n)%nat by lia. auto.
Qed.

End ForwardLoops.

(** The mock seller answers every offer within the range of a double. *)
Lemma respond_to_buyer_total (self : MockSellerAgent.t) (buyer_offer round_num : Z) :
  Z.abs (MockSellerAgent.min_price self) <= 64 * range_bound ->
  Z.abs buyer_offer <= 64 * range_bound ->
  exists (price : Z) (msg : string) (accepts : bool),
    MockSellerAgent.respond_to_buyer self buyer_offer round_num
    = Ok (price, msg, accepts).
Proof.
  intros Hm Ho. unfold MockSellerAgent.respond_to_buyer, Py.mul_int_float.
  destruct (float_of_int_total (MockSellerAgent.min_price self)) as (x & Hx & _).
  { eapply Z.le_lt_trans; [exact Hm|reflexivity]. }
  rewrite Hx. cbn [bind].
  destruct (Py.int_ge_float buyer_offer _); [eexists _, _, _; reflexivity|].
  destruct (8 <=? round_num).
  - destruct (int_mul_total_range buyer_offer Py.c_1_05) as (T & HT & _);
      [exact Ho|reflexivity|].
    rewrite HT. cbn [bind]. eexists _, _, _; reflexivity.
  - destruct (int_mul_total_range buyer_offer Py.c_1_15) as (T & HT & _);
      [exact Ho|reflexivity|].
    rewrite HT. cbn [bind]. eexists _, _, _; reflexivity.
Qed.

(** The seller holds at its minimum when the offer is low enough. *)
Lemma respond_to_buyer_holds (self : MockSellerAgent.t) (buyer_offer : Z) :
  0 <= MockSellerAgent.min_price self <= 64 * range_bound ->
  0 <= buyer_offer ->
  1151 * buyer_offer <= 1000 * MockSellerAgent.min_price self ->
  1 <= MockSellerAgent.min_price self ->
  exists msg : string,
    MockSellerAgent.respond_to_buyer self buyer_offer 0
    = Ok (MockSellerAgent.min_price self, msg, false).
Proof.
  intros Hm Ho Hlow Hpos.
  destruct (respond_to_buyer_total self buyer_offer 0) as (price & msg & acc & H);
    [lia|lia|].
  apply respond_to_buyer_inv in H as Hinv.
  destruct Hinv as (th & Hth & Hcmp & Hprice).
  destruct acc.
  - destruct (compare_mul_1_1 _ th buyer_offer (proj1 Hm) Hth) as (Hge & _).
    specialize (Hge Hcmp). lia.
  - destruct Hprice as (raised & Hr & ->). change (8 <=? 0) with false in Hr.
    apply int_mul_1_15 in Hr; [|exact Ho].
    exists msg. rewrite H. repeat f_equal. lia.
Qed.

Section TwoRounds.

Variable buyer_agent : BaseBuyerAgent.t.
Variable p : Product.
Variables buyer_budget seller_min : Z.
Variables (offer price : Z) (smsg : string).

Hypothesis Hbase : 0 < base_market_price p < range_bound.
Hypothesis Hbudget : 0 < buyer_budget.
Hypothesis Hopening :
  forall c : NegotiationContext,
    product c = p -> your_budget c = buyer_budget ->
    exists msg : string,
      BaseBuyerAgent.generate_opening_offer buyer_agent c = Ok (offer, msg).
Hypothesis Hseller :
  MockSellerAgent.respond_to_buyer (MockSellerAgent.init seller_min) offer 0
  = Ok (price, smsg, false).
Hypothesis Haccept :
  forall c : NegotiationContext,
    product c = p -> your_budget c = buyer_budget ->
    exists (answer : Z) (msg : string),
      BaseBuyerAgent.respond_to_seller_offer buyer_agent c price smsg
      = Ok (ACCEPTED, answer, msg).
Hypothesis Hprice : 0 <= price <= buyer_budget.
Hypothesis Hprice2 : price <= 2 * base_market_price p.

(** The seller counters the opening offer and the buyer takes the counter:
    a deal in round 2, at the seller's price. *)
Lemma two_round_deal :
  exists o : Outcome,
    run_negotiation_test buyer_agent p buyer_budget seller_min = Ok o /\
    deal_made o = true /\ final_price o = Some price /\ rounds o = 2 /\
    savings o = buyer_budget - price.
Proof.
  pose proof range_bound_pos as HB.
  destruct (int_mul_total_range (base_market_price p) Py.c_1_5)
    as (sp0 & Hsp0 & _); [lia|reflexivity|].
  unfold run_negotiation_test, negotiation_loop, opening_state,
    MockSellerAgent.get_opening_price.
  rewrite Hsp0. cbn [bind].
  match goal with
  | |- context [for_range _ _ ?s] => set (st0 := s)
  end.
  assert (Hp0 : product (Locals.context st0) = p) by reflexivity.
  assert (Hbud0 : your_budget (Locals.context st0) = buyer_budget) by reflexivity.
  clearbody st0.
  change (range 10) with (0 :: 1 :: [2; 3; 4; 5; 6; 7; 8; 9]).
  destruct (Hopening (set_current_round 1 (Locals.context st0))) as [bmsg Hgo];
    [exact Hp0|exact Hbud0|].
  destruct (round_body_opening buyer_agent (MockSellerAgent.init seller_min)
              st0 offer bmsg price smsg false Hgo Hseller)
    as (f & st1 & Hround & Hr1 & Hp1 & Hbud1 & Hsp1 & ->).
  rewrite (for_range_next _ _ _ _ _ Hround).
  assert (Hmsg1 : Locals.seller_msg st1 = smsg).
  { apply round_body_inv in Hround.
    destruct Hround as (status & o1 & b1 & Hb & [(_ & Hx & _)|(_ & Hs)]);
      [discriminate|].
    destruct Hs as (sp & sm & acc & Hs & [(_ & Hx & _)|(_ & _ & ->)]);
      [discriminate|].
    cbn in Hb. destruct Hb as [Hb _].
    assert (o1 = offer) by congruence. subst o1.
    cbn. congruence. }
  destruct (Haccept (set_current_round (1 + 1) (Locals.context st1)))
    as (answer & amsg & Hacc); [cbn; congruence|cbn; congruence|].
  destruct (round_body_accepted buyer_agent (MockSellerAgent.init seller_min)
              1 st1 answer amsg) as (st2 & Hround2 & Hr2 & Hd2 & Hf2);
    [discriminate|rewrite Hsp1, Hmsg1; exact Hacc|].
  rewrite (for_range_break _ _ _ _ _ Hround2). cbn [bind].
  rewrite Hsp1 in Hf2.
  destruct (calculate_results_deal p buyer_budget price st2 Hd2 Hf2)
    as (o & Ho & Hod & Hof & Hor & Hos); try lia.
  exists o. rewrite Hor, Hr2. auto.
Qed.

End TwoRounds.

(** [n * c] has the sign of [n]. *)
Lemma mul_int_float_sign (n : Z) (c x : Py.float) :
  0 <= n -> literal_like c = true ->
  Py.mul_int_float n c = Ok x -> with_sign false x = x.
Proof.
  intros Hn Hc Hx.
  destruct (literal_like_inv c Hc) as (mc & ec & -> & _).
  unfold Py.mul_int_float in Hx.
  apply bind_Ok in Hx. destruct Hx as (y & Hy & Hx). injection Hx as <-.
  destruct n as [|n|n]; try lia.
  - injection Hy as <-. reflexivity.
  - apply SFmul_pos_sign. apply (float_of_pos_sign n). exact Hy.
Qed.

(** Truncation does not go above a non-negative double. *)
Lemma int_le_float_trunc (x : Py.float) (T : Z) :
  with_sign false x = x -> Py.int_of_float x = Ok T ->
  Py.int_le_float T x = true.
Proof.
  destruct x as [s|s| |s m e]; try discriminate; intros Hs HT.
  - injection HT as <-. reflexivity.
  - injection Hs as <-. cbn in HT. injection HT as <-.
    unfold Py.int_le_float, Py.compare_int_float. cbn [cond_Zopp].
    destruct (Z.leb_spec 0 e) as [He|He].
    + rewrite Z.shiftl_mul_pow2 by exact He. rewrite Z.compare_refl. reflexivity.
    + rewrite <- (Z.opp_involutive e) at 1.
      rewrite Z.shiftl_opp_r, Z.shiftr_div_pow2 by lia.
      assert (Hd : 0 < 2 ^ (- e)) by (apply Z.pow_pos_nonneg; lia).
      pose proof (Z.mul_div_le (Zpos m) (2 ^ (- e)) Hd) as Hle.
      rewrite Z.mul_comm in Hle.
      destruct (Z.compare_spec (Zpos m / 2 ^ (- e) * 2 ^ (- e)) (Zpos m));
        try reflexivity; lia.
Qed.

Section Closing.

Variable p : Product.
Variables buyer_budget seller_min : Z.
Hypothesis Hbase : 1000 <= base_market_price p < range_bound.
Hypothesis Hmin : seller_min <= buyer_budget.

(** The ceiling of a product that is not a plain grade B is above 85.1% of
    the base price. *)
Lemma ceiling_above_minimum (fair ceiling : Z) :
  is_grade_b p = false \/ has_premium p = true ->
  YourBuyerAgent.calculate_fair_price p = Ok fair ->
  Py.int_mul fair Py.c_0_88 = Ok ceiling ->
  851 * base_market_price p <= 1000 * ceiling.
Proof.
  intros Hkind Hfair Hceil.
  assert (Hb0 : 0 < base_market_price p) by lia.
  destruct (calculate_fair_price_nonneg p fair (Z.lt_le_incl _ _ Hb0) Hfair)
    as (Hf0 & _).
  apply int_mul_0_88_fine in Hceil; [|exact Hf0].
  destruct (is_grade_b p) eqn:Hgb.
  - destruct Hkind as [Hk|Hprem]; [discriminate|].
    rewrite calculate_fair_price_eq, Hgb, Hprem in Hfair.
    destruct (is_export p).
    + apply bind_Ok in Hfair. destruct Hfair as (f1 & H1 & H2).
      apply int_mul_1_10 in H1; [|lia]. apply int_mul_1_08_fine in H2; lia.
    + apply bind_Ok in Hfair. destruct Hfair as (f1 & H1 & H2).
      apply int_mul_0_90_fine in H1; [|lia]. apply int_mul_1_08_fine in H2; lia.
  - pose proof (calculate_fair_price_ge p fair Hb0 (or_intror Hgb) Hfair).
    lia.
Qed.

(** [YourBuyerAgent] closes in round 2, at the seller's minimum, when the
    product is not a plain grade B and the minimum lies between 79.8% and
    85.1% of the base price. *)
Lemma your_agent_closes :
  is_grade_b p = false \/ has_premium p = true ->
  798 * base_market_price p <= 1000 * seller_min ->
  1000 * seller_min <= 851 * base_market_price p ->
  exists o : Outcome,
    run_negotiation_test your_agent p buyer_budget seller_min = Ok o /\
    deal_made o = true /\ final_price o = Some seller_min /\ rounds o = 2 /\
    savings o = buyer_budget - seller_min.
Proof.
  intros Hkind Hlo Hhi. pose proof range_bound_pos as HB.
  destruct (calculate_fair_price_total p) as (fair & Hfair & _).
  { fold range_bound. lia. }
  assert (Hb0 : 0 < base_market_price p) by lia.
  destruct (calculate_fair_price_nonneg p fair (Z.lt_le_incl _ _ Hb0) Hfair)
    as (Hf0 & _ & Hfle).
  destruct (int_mul_total_range fair Py.c_0_58) as (a58 & Ha & _);
    [lia|reflexivity|].
  destruct (int_mul_0_58 _ _ Hf0 Ha) as (Ha0 & Hale & _).
  destruct (int_mul_total_range (base_market_price p) Py.c_0_40)
    as (floor & Hfl & _); [lia|reflexivity|].
  pose proof (floor_le_anchor p fair a58 floor (Z.lt_le_incl _ _ Hb0) Hfair Ha Hfl)
    as Hfa.
  destruct (int_mul_total_range fair Py.c_0_88) as (ceiling & Hceil & _);
    [lia|reflexivity|].
  pose proof (ceiling_above_minimum fair ceiling Hkind Hfair Hceil) as Hcge.
  destruct (respond_to_buyer_holds (MockSellerAgent.init seller_min) a58)
    as [smsg Hs]; cbn [MockSellerAgent.min_price MockSellerAgent.init];
    try lia.
  cbn [MockSellerAgent.min_price MockSellerAgent.init] in Hs.
  apply (two_round_deal your_agent p buyer_budget seller_min a58 seller_min smsg);
    auto; try lia.
  - intros c Hp Hb.
    destruct (generate_opening_offer_eq c fair a58 floor) as [msg Hgo];
      rewrite ?Hp; auto.
    exists msg. rewrite Hb in Hgo.
    replace (Z.max (Z.min a58 buyer_budget) floor) with a58 in Hgo by lia.
    exact Hgo.
  - intros c Hp Hb.
    destruct (respond_to_seller_offer_accept c seller_min smsg fair ceiling)
      as [msg Hacc]; rewrite ?Hp, ?Hb; auto; try lia.
    exists seller_min, msg. exact Hacc.
Qed.

(** [ExampleSimpleAgent] closes in round 2, at the seller's minimum, when
    the minimum is at least 70% of the base price and at most 85% of it. *)
Lemma example_agent_closes (agent_name : string) :
  700 * base_market_price p <= 1000 * seller_min ->
  1000 * seller_min <= 849 * base_market_price p \/
  Py.int_mul (base_market_price p) Py.c_0_85 = Ok seller_min ->
  exists o : Outcome,
    run_negotiation_test (ExampleSimpleAgent.agent agent_name) p buyer_budget
      seller_min = Ok o /\
    deal_made o = true /\ final_price o = Some seller_min /\ rounds o = 2 /\
    savings o = buyer_budget - seller_min.
Proof.
  intros Hlo Hhi. pose proof range_bound_pos as HB.
  assert (Hb0 : 0 <= base_market_price p) by lia.
  destruct (int_mul_total_range (base_market_price p) Py.c_0_6)
    as (o6 & Ho6 & _); [lia|reflexivity|].
  destruct (int_mul_0_6 _ _ Hb0 Ho6) as (Ho0 & Hole & _).
  destruct (mul_int_float_nonneg (base_market_price p) Py.c_0_85)
    as (limit & Hlimit & Hfin & _); [|reflexivity|].
  { split; [lia|]. apply Z.lt_trans with range_bound; [lia|reflexivity]. }
  assert (Hm85 : 1000 * seller_min <= 851 * base_market_price p).
  { destruct Hhi as [Hhi|Hhi]; [lia|]. apply int_mul_0_85 in Hhi; lia. }
  assert (Hcmp : Py.int_le_float seller_min limit = true).
  { destruct Hhi as [Hhi|Hhi].
    - destruct (Py.int_le_float seller_min limit) eqn:E; [reflexivity|].
      destruct (compare_mul_0_85 _ limit seller_min Hb0 Hlimit) as (_ & Hgt & _).
      specialize (Hgt E). lia.
    - unfold Py.int_mul in Hhi. rewrite Hlimit in Hhi. cbn [bind] in Hhi.
      apply int_le_float_trunc; [|exact Hhi].
      apply (mul_int_float_sign _ Py.c_0_85 limit Hb0); auto. }
  destruct (respond_to_buyer_holds (MockSellerAgent.init seller_min) o6)
    as [smsg Hs]; cbn [MockSellerAgent.min_price MockSellerAgent.init];
    try lia.
  cbn [MockSellerAgent.min_price MockSellerAgent.init] in Hs.
  apply (two_round_deal (ExampleSimpleAgent.agent agent_name) p buyer_budget
           seller_min o6 seller_min smsg); auto; try lia.
  - intros c Hp Hb. cbn [BaseBuyerAgent.generate_opening_offer ExampleSimpleAgent.agent].
    unfold ExampleSimpleAgent.generate_opening_offer.
    rewrite Hp, Ho6, Hb. cbn [bind].
    replace (Z.min o6 buyer_budget) with o6 by lia. eexists. reflexivity.
  - intros c Hp Hb. cbn [BaseBuyerAgent.respond_to_seller_offer ExampleSimpleAgent.agent].
    unfold ExampleSimpleAgent.respond_to_seller_offer.
    rewrite Hp, Hb, (Zle_imp_le_bool _ _ Hmin), Hlimit. cbn [bind].
    rewrite Hcmp. eexists _, _. reflexivity.
Qed.

End Closing.

(** The budget and the seller's minimum of the three scenarios. *)
Lemma scenario_inputs (s : scenario) (p : Product) :
  1000 <= base_market_price p < range_bound ->
  exists buyer_budget seller_min : Z,
    scenario_budget s p = Ok buyer_budget /\
    scenario_seller_min s p = Ok seller_min /\
    seller_min <= buyer_budget /\
    798 * base_market_price p <= 1000 * seller_min /\
    1000 * seller_min <= 851 * base_market_price p /\
    (1000 * seller_min <= 849 * base_market_price p \/
     Py.int_mul (base_market_price p) Py.c_0_85 = Ok seller_min).
Proof.
  intros Hb. pose proof range_bound_pos as HB.
  assert (Hb0 : 0 <= base_market_price p) by lia.
  destruct s; cbn [scenario_budget scenario_seller_min].
  - destruct (int_mul_total_range (base_market_price p) c_1_2)
      as (B & HBu & _); [lia|reflexivity|].
    destruct (int_mul_total_range (base_market_price p) Py.c_0_80)
      as (M & HM & _); [lia|reflexivity|].
    exists B, M. apply int_mul_1_2 in HBu as HB'; [|lia].
    apply int_mul_0_80 in HM as HM'; [|lia].
    repeat (split; [auto; lia|]). left. lia.
  - destruct (int_mul_total_range (base_market_price p) c_1_0)
      as (B & HBu & _); [lia|reflexivity|].
    destruct (int_mul_total_range (base_market_price p) Py.c_0_85)
      as (M & HM & _); [lia|reflexivity|].
    exists B, M. apply int_mul_1_0 in HBu as HB'; [|lia].
    apply int_mul_0_85 in HM as HM'; [|lia].
    repeat (split; [auto; lia|]). right. exact HM.
  - destruct (int_mul_total_range (base_market_price p) Py.c_0_90)
      as (B & HBu & _); [lia|reflexivity|].
    destruct (int_mul_total_range (base_market_price p) Py.c_0_82)
      as (M & HM & _); [lia|reflexivity|].
    exists B, M. apply int_mul_0_90 in HBu as HB'; [|lia].
    apply int_mul_0_82 in HM as HM'; [|lia].
    repeat (split; [auto; lia|]). left. lia.
Qed.

(** A round in which neither side accepts. *)
Lemma round_body_next (buyer_agent : BaseBuyerAgent.t) (seller : MockSellerAgent.t)
    (r : Z) (st : Locals.t) (status : DealStatus) (offer : Z) (bmsg : string)
    (sp : Z) (sm : string) :
  (if r =? 0
   then BaseBuyerAgent.generate_opening_offer buyer_agent
          (set_current_round (r + 1) (Locals.context st)) = Ok (offer, bmsg) /\
        status = ONGOING
   else BaseBuyerAgent.respond_to_seller_offer buyer_agent
          (set_current_round (r + 1) (Locals.context st))
          (Locals.seller_price st) (Locals.seller_msg st)
        = Ok (status, offer, bmsg)) ->
  status <> ACCEPTED ->
  MockSellerAgent.respond_to_buyer seller offer r = Ok (sp, sm, false) ->
  round_body buyer_agent seller r st =
  Ok (Next,
      {| Locals.context :=
           append_message "seller" sm
             (append_seller_offer sp
                (append_message "buyer" bmsg
                   (append_your_offer offer
                      (set_current_round (r + 1) (Locals.context st)))));
         Locals.seller_price := sp;
         Locals.seller_msg := sm;
         Locals.deal_made := Locals.deal_made st;
         Locals.final_price := Locals.final_price st |}).
Proof.
  intros Hb Hst Hs. unfold round_body.
  destruct (r =? 0).
  - destruct Hb as [Hb ->]. rewrite Hb. cbn [bind DealStatus_eqb].
    rewrite Hs. reflexivity.
  - rewrite Hb. cbn [bind].
    destruct status; try congruence; cbn [DealStatus_eqb]; rewrite Hs; reflexivity.
Qed.

Section GradeB.

Variable p : Product.
Variables buyer_budget seller_min : Z.
Hypothesis Hbase : 1000 <= base_market_price p < range_bound.
Hypothesis Hexport : is_export p = false.
Hypothesis Hgrade : is_grade_b p = true.
Hypothesis Hpremium : has_premium p = false.
Hypothesis Hmin : 798 * base_market_price p <= 1000 * seller_min.
Hypothesis Hmin' : seller_min < range_bound.

Variables fair ceiling step anchor floor : Z.
Hypothesis Hfair : YourBuyerAgent.calculate_fair_price p = Ok fair.
Hypothesis Hceil : Py.int_mul fair Py.c_0_88 = Ok ceiling.
Hypothesis Hstep : Py.int_mul fair Py.c_0_002 = Ok step.
Hypothesis Hanchor : Py.int_mul fair Py.c_0_58 = Ok anchor.
Hypothesis Hfloor : Py.int_mul (base_market_price p) Py.c_0_40 = Ok floor.

Lemma grade_b_bounds :
  0 <= fair /\ 0 <= floor /\ floor <= anchor /\ anchor <= ceiling /\
  1000000 * ceiling <= 793781 * base_market_price p /\
  1 <= Z.max 1 step /\
  10000000 * Z.max 1 step <= 18921 * base_market_price p.
Proof.
  assert (Hb0 : 0 <= base_market_price p) by lia.
  destruct (calculate_fair_price_nonneg p fair Hb0 Hfair) as (Hf0 & _).
  pose proof (floor_le_anchor p fair anchor floor Hb0 Hfair Hanchor Hfloor).
  pose proof (anchor_58_le_88 fair anchor ceiling Hf0 Hanchor Hceil).
  pose proof Hfair as Hf. rewrite calculate_fair_price_eq in Hf.
  rewrite Hexport, Hgrade, Hpremium in Hf.
  apply bind_Ok in Hf. destruct Hf as (f1 & H1 & Hf). injection Hf as <-.
  apply int_mul_0_90 in H1; [|exact Hb0].
  pose proof (int_mul_0_88 _ _ Hf0 Hceil).
  pose proof (int_mul_0_002 _ _ Hf0 Hstep).
  pose proof (int_mul_0_40 _ _ Hb0 Hfloor).
  repeat split; lia.
Qed.

Lemma stalled_step (i : nat) (s : Locals.t) :
  (i < 10)%nat -> stalled p buyer_budget seller_min ceiling step anchor i s ->
  exists s' : Locals.t,
    round_body your_agent (MockSellerAgent.init seller_min) (Z.of_nat i) s
    = Ok (Next, s') /\
    stalled p buyer_budget seller_min ceiling step anchor (S i) s'.
Proof.
  intros Hi (Hh & Hp & Hb & Hlate & Hfirst).
  pose proof range_bound_pos as HB.
  destruct grade_b_bounds as (Hf0 & Hfl0 & Hfa & Hac & Hc & Hd1 & Hd).
  set (d := Z.max 1 step) in *.
  assert (Hbuyer : exists (status : DealStatus) (offer : Z) (bmsg : string),
             (if Z.of_nat i =? 0
              then BaseBuyerAgent.generate_opening_offer your_agent
                     (set_current_round (Z.of_nat i + 1) (Locals.context s))
                   = Ok (offer, bmsg) /\ status = ONGOING
              else BaseBuyerAgent.respond_to_seller_offer your_agent
                     (set_current_round (Z.of_nat i + 1) (Locals.context s))
                     (Locals.seller_price s) (Locals.seller_msg s)
                   = Ok (status, offer, bmsg)) /\
             status = ONGOING /\
             0 <= offer <= ceiling + Z.of_nat i * d /\
             (i = 0%nat -> offer <= anchor)).
  { destruct i as [|i].
    - destruct (generate_opening_offer_eq
                  (set_current_round 1 (Locals.context s)) fair anchor floor)
        as [msg Hgo]; cbn [product set_current_round]; rewrite ?Hp; auto.
      cbn [your_budget set_current_round] in Hgo. rewrite Hb in Hgo.
      exists ONGOING, (Z.max (Z.min anchor buyer_budget) floor), msg.
      split; [split; [exact Hgo|reflexivity]|].
      split; [reflexivity|]. split; [lia|]. intros _. lia.
    - destruct (Hlate ltac:(lia)) as ((Hsp1 & Hsp2) & Hl0 & Hl1).
      destruct Hh as (_ & _ & _ & Hy & _).
      assert (Hne : your_offers (Locals.context s) <> []).
      { intros E. rewrite E in Hy. discriminate. }
      assert (Hid : Z.of_nat (S i) * d <= 9 * d) by nia.
      assert (Hid' : 0 <= (Z.of_nat (S i) - 1) * d) by nia.
      destruct (respond_to_seller_offer_total
                  (set_current_round (Z.of_nat (S i) + 1) (Locals.context s))
                  (Locals.seller_price s) (Locals.seller_msg s))
        as [[[status offer] bmsg] Hresp].
      { unfold within_range. cbn [product your_offers set_current_round].
        rewrite Hp. fold range_bound. repeat split; lia. }
      replace (Z.of_nat (S i) =? 0) with false by (symmetry; apply Z.eqb_neq; lia).
      exists status, offer, bmsg. split; [exact Hresp|].
      apply your_respond_round in Hresp; [|exact Hne].
      cbn [product your_offers your_budget current_round set_current_round] in Hresp.
      rewrite Hp, Hb in Hresp.
      destruct Hresp as (fair' & ceiling' & Hfair' & Hceil' & Hresp).
      assert (fair' = fair) by congruence. subst fair'.
      assert (ceiling' = ceiling) by congruence. subst ceiling'.
      destruct Hresp as [(_ & _ & Hle)|(-> & _ & step' & Hs' & Hle & Hlater & Hearly)];
        [exfalso; lia|].
      assert (step' = step) by congruence. subst step'. fold d in Hle.
      split; [reflexivity|]. split; [|intros E; discriminate].
      split; [|nia].
      destruct i as [|i].
      + assert (last (your_offers (Locals.context s)) 0 <= offer); [|lia].
        apply Hearly. intros a70 Ha70.
        pose proof (anchor_58_le_70 fair anchor a70 Hf0 Hanchor Ha70).
        specialize (Hfirst eq_refl). lia.
      + assert (last (your_offers (Locals.context s)) 0 < offer); [|lia].
        apply Hlater. lia. }
  destruct Hbuyer as (status & offer & bmsg & Hbuy & -> & Ho & Ho1).
  assert (Hid : Z.of_nat i * d <= 9 * d) by nia.
  destruct (respond_to_buyer_total (MockSellerAgent.init seller_min) offer
              (Z.of_nat i)) as (sp & sm & acc & Hs);
    cbn [MockSellerAgent.min_price MockSellerAgent.init]; try lia.
  apply respond_to_buyer_inv in Hs as Hinv.
  cbn [MockSellerAgent.min_price MockSellerAgent.init] in Hinv.
  destruct Hinv as (th & Hth & Hcmp & Hprice).
  destruct acc.
  { exfalso.
    destruct (compare_mul_1_1 seller_min th offer ltac:(lia) Hth) as (Hge & _).
    specialize (Hge Hcmp). lia. }
  destruct Hprice as (raised & Hr & ->).
  assert (Hraised : 1000 * raised <= 1151 * offer).
  { destruct (8 <=? Z.of_nat i).
    - apply int_mul_1_05 in Hr; lia.
    - apply int_mul_1_15 in Hr; lia. }
  pose proof (round_body_next your_agent (MockSellerAgent.init seller_min)
                (Z.of_nat i) s ONGOING offer bmsg _ sm Hbuy ltac:(discriminate) Hs)
    as Hround.
  eexists. split; [exact Hround|].
  split; [apply (round_body_next_head _ _ _ _ _ Hh Hround)|].
  cbn [Locals.context Locals.seller_price product your_budget your_offers
       append_message append_seller_offer append_your_offer set_current_round].
  rewrite last_last.
  split; [exact Hp|]. split; [exact Hb|]. split.
  - intros _. replace (Z.of_nat (S i) - 1) with (Z.of_nat i) by lia.
    split; [lia|exact Ho].
  - intros E. apply Ho1. lia.
Qed.

(** No round closes the deal. *)
Lemma grade_b_no_deal :
  exists o : Outcome,
    run_negotiation_test your_agent p buyer_budget seller_min = Ok o /\
    deal_made o = false /\ final_price o = None /\ rounds o = 10 /\
    savings o = 0.
Proof.
  pose proof range_bound_pos as HB.
  destruct (int_mul_total_range (base_market_price p) Py.c_1_5)
    as (sp0 & Hsp0 & _); [lia|reflexivity|].
  destruct (opening_state p buyer_budget seller_min) as [st0|e] eqn:E0.
  2:{ unfold opening_state, MockSellerAgent.get_opening_price in E0.
      rewrite Hsp0 in E0. discriminate. }
  destruct (opening_state_head _ _ _ _ E0) as (Hh0 & Hp0 & Hb0).
  destruct (for_range_seq_all_next
              (round_body your_agent (MockSellerAgent.init seller_min))
              (stalled p buyer_budget seller_min ceiling step anchor) 10 0 st0)
    as (st & Hloop & Hst).
  - intros i s Hi. apply stalled_step. lia.
  - split; [exact Hh0|]. split; [exact Hp0|]. split; [exact Hb0|].
    split; intros; lia.
  - destruct Hst as ((Hr & Hd & Hf & _) & _).
    unfold run_negotiation_test, negotiation_loop. rewrite E0. cbn [bind].
    unfold range. rewrite Hloop. cbn [bind].
    rewrite (calculate_results_no_deal p buyer_budget st Hd).
    eexists. split; [reflexivity|]. cbn. rewrite Hf, Hr. auto.
Qed.

End GradeB.

(** A plain grade-B product: the fair price is 90% of the base price. *)
Lemma grade_b_no_deal_run (p : Product) (buyer_budget seller_min : Z) :
  1000 <= base_market_price p < range_bound ->
  is_export p = false -> is_grade_b p = true -> has_premium p = false ->
  798 * base_market_price p <= 1000 * seller_min ->
  seller_min < range_bound ->
  exists o : Outcome,
    run_negotiation_test your_agent p buyer_budget seller_min = Ok o /\
    deal_made o = false /\ final_price o = None /\ rounds o = 10 /\
    savings o = 0.
Proof.
  intros Hb He Hg Hp Hm Hm'. pose proof range_bound_pos as HB.
  destruct (calculate_fair_price_total p) as (fair & Hfair & _).
  { fold range_bound. lia. }
  destruct (calculate_fair_price_nonneg p fair ltac:(lia) Hfair) as (Hf0 & _ & Hf1).
  destruct (int_mul_total_range fair Py.c_0_88) as (ceiling & Hceil & _);
    [lia|reflexivity|].
  destruct (int_mul_total_range fair Py.c_0_002) as (step & Hstep & _);
    [lia|reflexivity|].
  destruct (int_mul_total_range fair Py.c_0_58) as (anchor & Hanchor & _);
    [lia|reflexivity|].
  destruct (int_mul_total_range (base_market_price p) Py.c_0_40)
    as (floor & Hfloor & _); [lia|reflexivity|].
  apply (grade_b_no_deal p buyer_budget seller_min Hb He Hg Hp Hm Hm'
           fair ceiling step anchor floor); assumption.
Qed.

Lemma catchphrase_in (i : nat) (phrase : string) :
  YourBuyerAgent.catchphrase i = Ok phrase ->
  In phrase (catchphrases YourBuyerAgent.define_personality).
Proof.
  unfold YourBuyerAgent.catchphrase, getitem. intros H.
  destruct (nth_error _ i) as [x|] eqn:E; [|discriminate].
  injection H as <-. apply (nth_error_In _ _ E).
Qed.

(** ** Bids and asks *)

Lemma nth_error_last (l : list Z) (n : nat) :
  List.length l = S n -> nth_error l n = Some (last l 0).
Proof.
  destruct l as [|a l] using rev_ind; [discriminate|]. intros H.
  rewrite length_app in H. cbn in H.
  rewrite last_last, nth_error_app2 by lia.
  replace (n - List.length l)%nat with 0%nat by lia. reflexivity.
Qed.

(** One more bid, against the standing ask. *)
Lemma bids_below_asks_bid (bids asks : list Z) (bid : Z) :
  bids_below_asks bids asks ->
  List.length asks = S (List.length bids) ->
  bid <= last asks 0 ->
  bids_below_asks (bids ++ [bid]) asks.
Proof.
  intros H Hl Hb k b a Hk Ha.
  destruct (nth_error_snoc _ _ _ _ Hk) as [Hk'|[-> ->]].
  - apply (H k b a Hk' Ha).
  - rewrite (nth_error_last asks _ Hl) in Ha. injection Ha as <-. exact Hb.
Qed.

(** One more bid, and the seller's next ask. *)
Lemma bids_below_asks_round (bids asks : list Z) (bid ask : Z) :
  bids_below_asks bids asks ->
  List.length asks = S (List.length bids) ->
  bid <= last asks 0 ->
  bids_below_asks (bids ++ [bid]) (asks ++ [ask]).
Proof.
  intros H Hl Hb k b a Hk Ha.
  assert (Hlt : (k < List.length asks)%nat).
  { assert (Hk' : nth_error (bids ++ [bid]) k <> None) by congruence.
    apply nth_error_Some in Hk'. rewrite length_app in Hk'. cbn in Hk'. lia. }
  rewrite nth_error_app1 in Ha by exact Hlt.
  apply (bids_below_asks_bid bids asks bid H Hl Hb k b a Hk Ha).
Qed.

(** The opening offer of [YourBuyerAgent] against the seller's opening
    price. *)
Lemma your_opening_below_ask (c : NegotiationContext) (offer ask : Z)
    (msg : string) :
  2 <= base_market_price (product c) ->
  YourBuyerAgent.generate_opening_offer c = Ok (offer, msg) ->
  Py.int_mul (base_market_price (product c)) Py.c_1_5 = Ok ask ->
  offer < ask /\
  exists floor : Z,
    Py.int_mul (base_market_price (product c)) Py.c_0_40 = Ok floor /\
    floor <= offer.
Proof.
  intros Hbase H Hask. apply generate_opening_offer_inv in H.
  destruct H as (fair & anchor & floor & Hfair & Ha & Hf & ->).
  assert (Hb0 : 0 <= base_market_price (product c)) by lia.
  pose proof (floor_le_anchor _ _ _ _ Hb0 Hfair Ha Hf) as Hfa.
  destruct (calculate_fair_price_nonneg _ _ Hb0 Hfair) as (Hf0 & _ & Hfle).
  apply int_mul_0_58 in Ha; [|exact Hf0].
  apply int_mul_1_5 in Hask; [|exact Hb0].
  split; [lia|]. exists floor. split; [exact Hf|lia].
Qed.

(** After an offer of at least the floor, the seller's counter leaves room
    for the buyer's minimal step. *)
Lemma seller_counter_above_step (self : MockSellerAgent.t) (p : Product)
    (offer round_num price : Z) (msg : string) (fair step floor : Z) :
  1000 <= base_market_price p ->
  YourBuyerAgent.calculate_fair_price p = Ok fair ->
  Py.int_mul fair Py.c_0_002 = Ok step ->
  Py.int_mul (base_market_price p) Py.c_0_40 = Ok floor ->
  floor <= offer ->
  MockSellerAgent.respond_to_buyer self offer round_num = Ok (price, msg, false) ->
  offer + Z.max 1 step < price.
Proof.
  intros Hbase Hfair Hstep Hfloor Hle H.
  assert (Hb0 : 0 <= base_market_price p) by lia.
  destruct (calculate_fair_price_nonneg _ _ Hb0 Hfair) as (Hf0 & _ & Hfle).
  apply int_mul_0_002 in Hstep; [|exact Hf0].
  apply int_mul_0_40 in Hfloor; [|exact Hb0].
  apply respond_to_buyer_inv in H.
  destruct H as (th & _ & _ & raised & Hr & ->).
  destruct (8 <=? round_num).
  - apply int_mul_1_05 in Hr; lia.
  - apply int_mul_1_15 in Hr; lia.
Qed.

(** The opening offer of the example agent against the seller's opening
    price. *)
Lemma example_opening_below_ask (base opening ask : Z) :
  0 <= base ->
  Py.int_mul base Py.c_0_6 = Ok opening ->
  Py.int_mul base Py.c_1_5 = Ok ask ->
  opening <= ask.
Proof.
  intros Hb Ho Ha.
  destruct (Z_lt_le_dec base 2) as [Hsmall|Hbig].
  - enumerate base 0 1; eval_int_mul; lia.
  - apply int_mul_0_6 in Ho; [|exact Hb]. apply int_mul_1_5 in Ha; lia.
Qed.

(** An answer of the example agent against the price it answers. *)
Lemma example_respond_below_ask (context : NegotiationContext)
    (seller_price : Z) (seller_message : string)
    (status : DealStatus) (price : Z) (msg : string) :
  0 <= seller_price < 2 ^ 900 ->
  ExampleSimpleAgent.respond_to_seller_offer context seller_price seller_message
    = Ok (status, price, msg) ->
  price <= seller_price /\ price <= your_budget context.
Proof.
  intros Hsp H. apply example_respond_inv in H.
  destruct H as [(-> & -> & Hle & _)|(-> & _ & raised & close & _ & Hc & ->)].
  - split; [lia|exact Hle].
  - destruct (Py.int_ge_float _ close) eqn:E; [lia|].
    destruct (compare_mul_0_95 seller_price close
                (Z.min raised (your_budget context)) (proj1 Hsp) Hc)
      as (_ & _ & Hlt & _).
    assert (Hfin : is_finite close = true)
      by (apply (mul_int_float_finite seller_price Py.c_0_95); auto).
    specialize (Hlt Hfin E). lia.
Qed.

(** The seller's counter to an offer below 2^899. *)
Lemma seller_counter_range (seller_min offer round_num price : Z)
    (msg : string) :
  0 <= seller_min < 2 ^ 900 -> offer < 2 ^ 899 ->
  MockSellerAgent.respond_to_buyer (MockSellerAgent.init seller_min)
    offer round_num = Ok (price, msg, false) ->
  0 <= price < 2 ^ 900.
Proof.
  intros Hm Ho H. apply respond_to_buyer_inv in H.
  destruct H as (th & _ & _ & raised & Hr & ->).
  cbn [MockSellerAgent.min_price MockSellerAgent.init].
  assert (Hraised : raised < 2 ^ 900).
  { assert (Hc : literal_like (if 8 <=? round_num then Py.c_1_05 else Py.c_1_15)
                 = true) by (destruct (8 <=? round_num); reflexivity).
    assert (Hpos : forall n T : Z,
               0 <= n ->
               Py.int_mul n (if 8 <=? round_num then Py.c_1_05 else Py.c_1_15)
                 = Ok T -> 0 <= T /\ 1000 * T <= 1151 * n).
    { intros n T Hn HT. destruct (8 <=? round_num).
      - apply int_mul_1_05 in HT; lia.
      - apply int_mul_1_15 in HT; lia. }
    assert (H899 : 2 ^ 900 = 2 * 2 ^ 899) by reflexivity.
    assert (H0 : 0 < 2 ^ 899) by reflexivity.
    destruct offer as [|n|n].
    - apply Hpos in Hr; lia.
    - apply Hpos in Hr; lia.
    - rewrite int_mul_opp in Hr by exact Hc.
      apply bind_Ok in Hr. destruct Hr as (T & HT & Hr). injection Hr as <-.
      apply Hpos in HT; lia. }
  lia.
Qed.

(** ** Division *)

Section Division.

(** The location of a remainder places it against the half of the
    divisor. *)
Lemma shr_inv_new_location (q k U : Z) :
  0 <= q -> 0 <= k < U ->
  shr_inv (q * U + k) U (shr_record_of_loc q (new_location U k)).
Proof.
  intros Hq Hk. unfold new_location, new_location_even, new_location_odd.
  replace (q * U + k - q * U) with k by lia.
  destruct (Z.even U) eqn:Hev.
  - apply Z.even_spec in Hev. destruct Hev as [h Hh].
    destruct (Z.eqb_spec k 0) as [->|Hk0].
    + unfold shr_inv; cbn [shr_record_of_loc shr_m shr_r shr_s].
      replace (q * U + 0 - q * U) with 0 by lia.
      repeat split; try lia; intros; try discriminate; exfalso; lia.
    + destruct (Z.compare_spec (2 * k) U) as [H|H|H];
        unfold shr_inv; cbn [shr_record_of_loc shr_m shr_r shr_s];
        replace (q * U + k - q * U) with k by lia;
        repeat split; try lia; intros; try discriminate; try reflexivity;
        exfalso; lia.
  - assert (Hodd : Z.odd U = true) by (rewrite <- Z.negb_even, Hev; reflexivity).
    apply Z.odd_spec in Hodd. destruct Hodd as [h Hh].
    destruct (Z.eqb_spec k 0) as [->|Hk0].
    + unfold shr_inv; cbn [shr_record_of_loc shr_m shr_r shr_s].
      replace (q * U + 0 - q * U) with 0 by lia.
      repeat split; try lia; intros; try discriminate; exfalso; lia.
    + destruct (Z.compare_spec (2 * k + 1) U) as [H|H|H];
        unfold shr_inv; cbn [shr_record_of_loc shr_m shr_r shr_s];
        replace (q * U + k - q * U) with k by lia;
        repeat split; try lia; intros; try discriminate; try reflexivity;
        exfalso; lia.
Qed.

(** Rounding a mantissa of at least 53 bits that stands, with its
    location, for the exact value [X] in units of [U]. *)
Lemma binary_round_aux_loc (s : bool) (mx ex : Z) (lx : location) (X U : Z) :
  0 < U -> shr_inv X U (shr_record_of_loc mx lx) ->
  53 <= Zdigits2 mx ->
  -1074 <= Zdigits2 mx + ex - 53 ->
  binary_round_aux Py.prec Py.emax s mx ex lx = S754_infinity s \/
  exists (mf : positive) (ef : Z),
    binary_round_aux Py.prec Py.emax s mx ex lx = S754_finite s mf ef /\
    Zdigits2 (Zpos mf) = 53 /\
    Zdigits2 mx + ex - 53 <= ef <= Zdigits2 mx + ex - 52 /\
    ef <= 971 /\
    2 ^ 53 * Z.abs (X - Zpos mf * (U * 2 ^ (ef - ex))) <= X.
Proof.
  intros HU0 Hinv0 Hd Hlo.
  assert (Hmx : 0 < mx).
  { destruct Hinv0 as (H0 & _).
    destruct mx as [|p|p]; [cbn in Hd; lia|lia|].
    destruct lx as [|[]]; cbn in H0; lia. }
  set (d := Zdigits2 mx) in *.
  rewrite binary_round_aux_eq.
  set (n := d + ex - 53 - ex).
  assert (Hr1 : shr_fexp Py.prec Py.emax mx ex lx =
                shr (shr_record_of_loc mx lx) ex n).
  { unfold shr_fexp. fold d. rewrite fexp_eq, Z.max_l by lia. reflexivity. }
  rewrite Hr1. clear Hr1.
  assert (Hn : n = d - 53) by (unfold n; lia). clearbody n.
  destruct (shr_inv_shr X U (shr_record_of_loc mx lx) ex n)
    as [He1 Hinv]; [lia|exact Hinv0|].
  set (r1 := shr (shr_record_of_loc mx lx) ex n) in *.
  cbv zeta. rewrite He1.
  replace (Z.max 0 n) with n in * by lia.
  assert (HP : 0 < 2 ^ n) by (apply Z.pow_pos_nonneg; lia).
  assert (HU : 0 < U * 2 ^ n) by nia.
  destruct (round_nearest_even_inv _ _ _ HU Hinv) as [Hm1 Hnear].
  set (m1 := round_nearest_even (shr_m (fst r1)) (loc_of_shr_record (fst r1))) in *.
  destruct Hinv as (Hm & Hrem & _).
  destruct (Zdigits2_bounds mx) as [Hdl Hdu]; [lia|]. fold d in Hdl, Hdu.
  assert (Hsplit : 2 ^ (d - 1) = 2 ^ 52 * 2 ^ n /\ 2 ^ d = 2 ^ 53 * 2 ^ n).
  { rewrite <- !Z.pow_add_r by lia. split; f_equal; lia. }
  destruct Hsplit as [Hs1 Hs2]. rewrite Hs1 in Hdl. rewrite Hs2 in Hdu.
  assert (HX : mx * U <= X < (mx + 1) * U).
  { destruct Hinv0 as (_ & H0 & _).
    destruct lx as [|[]]; cbn [shr_record_of_loc shr_m] in H0; lia. }
  set (V := U * 2 ^ n) in *.
  assert (HXV : 2 ^ 52 * V <= X < 2 ^ 53 * V) by (unfold V; nia).
  assert (Hmr : 2 ^ 52 <= shr_m (fst r1) < 2 ^ 53) by nia.
  assert (Hm1r : 2 ^ 52 <= m1 <= 2 ^ 53) by lia.
  change (Py.emax - Py.prec) with 971.
  destruct (Z.eq_dec m1 (2 ^ 53)) as [Htop|Hntop].
  - rewrite Htop in *.
    unfold shr_fexp. change (Zdigits2 (2 ^ 53)) with 54.
    rewrite fexp_eq, Z.max_l by lia.
    replace (54 + (ex + n) - 53 - (ex + n)) with 1 by lia.
    change (2 ^ 53) with 9007199254740992 at 1 2 3.
    cbn [shr iter_pos shr_1 fst snd shr_record_of_loc shr_m].
    destruct (Z.leb_spec (ex + n + 1) 971) as [Hfit|Hover]; [right|left; reflexivity].
    exists (4503599627370496%positive), (ex + n + 1).
    repeat split; try reflexivity; try lia.
    replace (ex + n + 1 - ex) with (n + 1) by lia.
    rewrite Z.pow_add_r by lia.
    replace (U * (2 ^ n * 2 ^ 1)) with (V * 2) by (unfold V; change (2 ^ 1) with 2; ring).
    change (Zpos 4503599627370496) with (2 ^ 52).
    change (2 ^ 53) with (2 * 2 ^ 52) in *. nia.
  - assert (Hdm : Zdigits2 m1 = 53) by (apply Zdigits2_unique; simpl; lia).
    unfold shr_fexp. rewrite Hdm, fexp_eq, Z.max_l by lia.
    replace (53 + (ex + n) - 53 - (ex + n)) with 0 by lia.
    cbn [shr fst snd shr_record_of_loc shr_m].
    destruct m1 as [|p1|p1]; try lia.
    destruct (Z.leb_spec (ex + n) 971) as [Hfit|Hover]; [right|left; reflexivity].
    exists p1, (ex + n).
    repeat split; try assumption; try lia.
    replace (ex + n - ex) with n by lia. fold V.
    change (2 ^ 53) with (2 * 2 ^ 52) in *. nia.
Qed.

End Division.

Section Quotient.

Lemma Zdigits2_ge (m k : Z) : 0 <= k -> 2 ^ k <= m -> k + 1 <= Zdigits2 m.
Proof.
  intros Hk Hm.
  assert (H0 : 0 < 2 ^ k) by (apply Z.pow_pos_nonneg; lia).
  destruct (Zdigits2_bounds m) as [_ Hu]; [lia|].
  destruct (Z.le_gt_cases (k + 1) (Zdigits2 m)) as [H|H]; [exact H|].
  exfalso. assert (2 ^ Zdigits2 m <= 2 ^ k); [|lia].
  apply Z.pow_le_mono_r; [lia|]. lia.
Qed.

(** The quotient [SFdiv_core_binary] hands to the rounding. *)
Lemma truediv_core (a b : positive) :
  Zpos b < 2 ^ 1000 ->
  exists (q e r : Z),
    SFdiv_core_binary Py.prec Py.emax (Zpos a) 0 (Zpos b) 0
    = (q, e, new_location (Zpos b) r) /\
    -1053 <= e <= 0 /\
    Zpos a * 2 ^ (- e) = q * Zpos b + r /\ 0 <= r < Zpos b /\
    53 <= Zdigits2 q /\
    Zdigits2 q + e <= Zdigits2 (Zpos a) - Zdigits2 (Zpos b) + 1.
Proof.
  intros Hb. unfold SFdiv_core_binary.
  set (d1 := Zdigits2 (Zpos a)). set (d2 := Zdigits2 (Zpos b)).
  assert (Hd1 : 1 <= d1) by (unfold d1; simpl; lia).
  assert (Hd2 : 1 <= d2 <= 1000).
  { split; [unfold d2; simpl; lia|]. apply Zdigits2_le; lia. }
  destruct (Zdigits2_bounds (Zpos a)) as [Ha1 Ha2]; [lia|]. fold d1 in Ha1, Ha2.
  destruct (Zdigits2_bounds (Zpos b)) as [Hb1 Hb2]; [lia|]. fold d2 in Hb1, Hb2.
  rewrite fexp_eq.
  replace (d1 + 0 - (d2 + 0)) with (d1 - d2) by lia.
  rewrite Z.max_l by lia. change (0 - 0) with 0.
  set (e := Z.min (d1 - d2 - 53) 0).
  assert (He : -1053 <= e <= 0) by (unfold e; lia).
  set (m' := match 0 - e with
             | 0 => Zpos a
             | Zpos _ => Z.shiftl (Zpos a) (0 - e)
             | Zneg _ => 0
             end).
  assert (Hm' : m' = Zpos a * 2 ^ (- e)).
  { unfold m'. replace (0 - e) with (- e) by lia.
    destruct (- e) as [|p|p] eqn:Hs.
    - change (2 ^ 0) with 1. lia.
    - rewrite Z.shiftl_mul_pow2 by lia. reflexivity.
    - lia. }
  clearbody m'.
  assert (HP : 0 < 2 ^ (- e)) by (apply Z.pow_pos_nonneg; lia).
  pose proof (Z_div_mod m' (Zpos b) ltac:(lia)) as Hdm.
  destruct (Z.div_eucl m' (Zpos b)) as [q r]. destruct Hdm as [Hdm Hr].
  exists q, e, r. split; [reflexivity|]. split; [exact He|].
  split; [lia|]. split; [exact Hr|].
  (* the size of the quotient *)
  assert (Hlow : 2 ^ 52 * Zpos b <= m').
  { rewrite Hm'. unfold e.
    destruct (Z.le_gt_cases (d1 - d2 - 53) 0) as [Hc|Hc].
    - rewrite Z.min_l by lia.
      replace (- (d1 - d2 - 53)) with (53 + d2 - d1) by lia.
      apply Z.le_trans with (2 ^ 52 * 2 ^ d2); [nia|].
      apply Z.le_trans with (2 ^ (d1 - 1) * 2 ^ (53 + d2 - d1)).
      + rewrite <- !Z.pow_add_r by lia. apply Z.pow_le_mono_r; lia.
      + apply Z.mul_le_mono_nonneg_r; [apply Z.pow_nonneg; lia|exact Ha1].
    - rewrite Z.min_r by lia. change (2 ^ (- 0)) with 1. rewrite Z.mul_1_r.
      apply Z.le_trans with (2 ^ 52 * 2 ^ d2); [nia|].
      apply Z.le_trans with (2 ^ (d1 - 1)); [|exact Ha1].
      rewrite <- Z.pow_add_r by lia. apply Z.pow_le_mono_r; lia. }
  assert (Hq52 : 2 ^ 52 <= q) by nia.
  split; [apply (Zdigits2_ge q 52); lia|].
  assert (Hhigh : m' < 2 ^ (d1 - d2 + 1 - e) * Zpos b).
  { rewrite Hm'.
    apply Z.lt_le_trans with (2 ^ d1 * 2 ^ (- e)); [nia|].
    replace (d1 - d2 + 1 - e) with (d1 + - e + (1 - d2)) by lia.
    destruct (Z.eq_dec d2 1) as [E1|E1].
    - rewrite E1. change (1 - 1) with 0. rewrite Z.add_0_r, Z.pow_add_r by lia. nia.
    - apply Z.le_trans with (2 ^ (d1 - d2 + 1 - e) * 2 ^ (d2 - 1)).
      + rewrite <- !Z.pow_add_r by lia. apply Z.pow_le_mono_r; lia.
      + replace (d1 + - e + (1 - d2)) with (d1 - d2 + 1 - e) by lia.
        apply Z.mul_le_mono_nonneg_l; [apply Z.pow_nonneg; lia|exact Hb1]. }
  assert (Hq : q < 2 ^ (d1 - d2 + 1 - e)).
  { assert (0 < 2 ^ (d1 - d2 + 1 - e)) by (apply Z.pow_pos_nonneg; lia). nia. }
  assert (Zdigits2 q <= d1 - d2 + 1 - e) by (apply Zdigits2_le; lia).
  lia.
Qed.

Local Open Scope R_scope.

(** [a / b] for positive integers: an overflow, or the quotient within
    one rounding. *)
Lemma truediv_pos_cases (a b : positive) :
  (Zpos b < 2 ^ 1000)%Z ->
  Py.truediv (Zpos a) (Zpos b) = Raise OverflowError \/
  exists (mf : positive) (ef : Z),
    Py.truediv (Zpos a) (Zpos b) = Ok (S754_finite false mf ef) /\
    Zdigits2 (Zpos mf) = 53%Z /\
    (-1053 <= ef <= Zdigits2 (Zpos a) - Zdigits2 (Zpos b) - 51)%Z /\
    Rabs (F2R (S754_finite false mf ef) - IZR (Zpos a) / IZR (Zpos b))
    <= u64 * (IZR (Zpos a) / IZR (Zpos b)).
Proof.
  intros Hb.
  destruct (truediv_core a b Hb) as (q & e & r & Hcore & He & Hqr & Hr & Hd & Hdq).
  unfold Py.truediv. change (Zpos b =? 0)%Z with false. cbv iota.
  change (Z.abs (Zpos a)) with (Zpos a). change (Z.abs (Zpos b)) with (Zpos b).
  rewrite Hcore. change (xorb (Zpos a <? 0)%Z (Zpos b <? 0)%Z) with false.
  assert (Hq0 : (0 <= q)%Z).
  { destruct q as [|p|p]; try lia. exfalso.
    assert (0 < 2 ^ (- e))%Z by (apply Z.pow_pos_nonneg; lia). nia. }
  destruct (binary_round_aux_loc false q e (new_location (Zpos b) r)
              (q * Zpos b + r) (Zpos b))
    as [Hinf|(mf & ef & Hres & Hdf & Hef & _ & Herr)]; try lia.
  { apply shr_inv_new_location; lia. }
  - left. rewrite Hinf. reflexivity.
  - right. exists mf, ef. rewrite Hres.
    split; [reflexivity|]. split; [exact Hdf|]. split; [lia|].
    rewrite <- Hqr in Herr.
    set (k := (ef - e)%Z) in *.
    assert (Hk : (0 <= k)%Z) by (unfold k; lia).
    assert (HbR : 0 < IZR (Zpos b)) by (apply IZR_lt; lia).
    assert (HaR : 0 < IZR (Zpos a)) by (apply IZR_lt; lia).
    assert (HP : 0 < powerRZ 2 e) by apply pow2_pos.
    assert (HPe : powerRZ 2 e * IZR (2 ^ (- e)) = 1).
    { rewrite IZR_pow2, <- pow2_add by lia.
      replace (e + - e)%Z with 0%Z by lia. reflexivity. }
    assert (Hval : F2R (S754_finite false mf ef)
                   = IZR (Zpos mf * (Zpos b * 2 ^ k)) * (powerRZ 2 e / IZR (Zpos b))).
    { unfold F2R, sign_R. replace ef with (e + k)%Z by (unfold k; lia).
      rewrite pow2_add, !mult_IZR, IZR_pow2 by lia. field. lra. }
    assert (Hex : IZR (Zpos a) / IZR (Zpos b)
                  = IZR (Zpos a * 2 ^ (- e)) * (powerRZ 2 e / IZR (Zpos b))).
    { rewrite mult_IZR.
      replace (IZR (Zpos a) * IZR (2 ^ (- e)) * (powerRZ 2 e / IZR (Zpos b)))
        with (IZR (Zpos a) * (powerRZ 2 e * IZR (2 ^ (- e))) / IZR (Zpos b))
        by (field; lra).
      rewrite HPe. field. lra. }
    rewrite Hval, Hex, <- Rmult_minus_distr_r, <- minus_IZR.
    rewrite Rabs_mult, (Rabs_pos_eq (powerRZ 2 e / IZR (Zpos b)))
      by (apply Rlt_le, Rdiv_lt_0_compat; assumption).
    rewrite <- Rmult_assoc.
    apply Rmult_le_compat_r; [apply Rlt_le, Rdiv_lt_0_compat; assumption|].
    rewrite <- Rabs_Ropp, <- opp_IZR, Rabs_Zabs.
    replace (- (Zpos mf * (Zpos b * 2 ^ k) - Zpos a * 2 ^ (- e)))%Z
      with (Zpos a * 2 ^ (- e) - Zpos mf * (Zpos b * 2 ^ k))%Z by lia.
    apply IZR_le in Herr. rewrite mult_IZR in Herr.
    unfold u64.
    assert (H53 : 0 < IZR (2 ^ 53)) by (apply IZR_lt; reflexivity).
    apply Rmult_le_reg_l with (IZR (2 ^ 53)); [exact H53|].
    rewrite <- Rmult_assoc, Rinv_r, Rmult_1_l by lra. exact Herr.
Qed.

End Quotient.

Section SignedQuotient.

(** Rounding zero gives zero. *)
Lemma binary_round_aux_zero (s : bool) (e : Z) :
  binary_round_aux Py.prec Py.emax s 0 e loc_Exact = S754_zero s.
Proof.
  rewrite binary_round_aux_eq. cbv zeta.
  assert (Hz : forall (e0 n : Z),
             fst (shr (shr_record_of_loc 0 loc_Exact) e0 n)
             = shr_record_of_loc 0 loc_Exact).
  { intros e0 n.
    destruct (shr_inv_shr 0 1 (shr_record_of_loc 0 loc_Exact) e0 n)
      as [_ (Hm & Hrem & Hr & Hs)]; [lia|apply shr_inv_exact; lia|].
    assert (HU : 0 < 1 * 2 ^ Z.max 0 n) by (apply Z.mul_pos_pos; [lia|apply Z.pow_pos_nonneg; lia]).
    destruct (fst (shr (shr_record_of_loc 0 loc_Exact) e0 n)) as [m r t].
    cbn [shr_m shr_r shr_s] in *.
    assert (m = 0) by nia. subst m.
    destruct r; [exfalso; assert (1 * 2 ^ Z.max 0 n <= 2 * (0 - 0 * (1 * 2 ^ Z.max 0 n))) by (apply Hr; reflexivity); lia|].
    destruct t; [exfalso; destruct (proj1 Hs eq_refl); lia|].
    reflexivity. }
  unfold shr_fexp. rewrite Hz. cbn [loc_of_shr_record shr_record_of_loc shr_m round_nearest_even].
  rewrite Hz. reflexivity.
Qed.

Lemma truediv_zero (b : positive) : Py.truediv 0 (Zpos b) = Ok (S754_zero false).
Proof.
  unfold Py.truediv, SFdiv_core_binary. change (Zpos b =? 0) with false. cbv iota.
  change (Z.abs 0) with 0. change (Z.abs (Zpos b)) with (Zpos b).
  assert (Hm : forall s : Z,
             match s with
             | 0 => 0
             | Zpos _ => Z.shiftl 0 s
             | Zneg _ => 0
             end = 0).
  { intros [|p|p]; try reflexivity. apply Z.shiftl_0_l. }
  rewrite Hm. cbn [Z.div_eucl].
  assert (Hl : new_location (Zpos b) 0 = loc_Exact).
  { unfold new_location, new_location_even, new_location_odd.
    destruct (Z.even (Zpos b)); reflexivity. }
  rewrite Hl, binary_round_aux_zero. reflexivity.
Qed.

(** The quotient of a negative dividend is the opposite of the quotient of
    its absolute value. *)
Lemma truediv_opp (a b : positive) :
  Py.truediv (Zneg a) (Zpos b) =
  x <- Py.truediv (Zpos a) (Zpos b) ;; Ok (with_sign true x).
Proof.
  unfold Py.truediv. change (Zpos b =? 0) with false. cbv iota.
  change (Z.abs (Zneg a)) with (Zpos a). change (Z.abs (Zpos a)) with (Zpos a).
  destruct (SFdiv_core_binary Py.prec Py.emax (Zpos a) 0 (Z.abs (Zpos b)) 0)
    as [[q e] l].
  change (xorb (Zneg a <? 0) (Zpos b <? 0)) with true.
  change (xorb (Zpos a <? 0) (Zpos b <? 0)) with false.
  rewrite (binary_round_aux_sign true).
  destruct (binary_round_aux Py.prec Py.emax false q e l); reflexivity.
Qed.

Local Open Scope R_scope.

Lemma F2R_with_sign_true (m : positive) (e : Z) :
  F2R (S754_finite true m e) = - F2R (S754_finite false m e).
Proof. unfold F2R, sign_R. ring. Qed.

(** [a / b] for a positive divisor: an overflow, or a double of the sign
    of [a] within one rounding of the quotient. *)
Lemma truediv_cases (a : Z) (b : positive) :
  (Zpos b < 2 ^ 1000)%Z ->
  Py.truediv a (Zpos b) = Raise OverflowError \/
  exists x : Py.float,
    Py.truediv a (Zpos b) = Ok x /\
    (a = 0%Z -> x = S754_zero false) /\
    (a <> 0%Z ->
     exists (mf : positive) (ef : Z),
       x = S754_finite (a <? 0)%Z mf ef /\ Zdigits2 (Zpos mf) = 53%Z /\
       (-1053 <= ef <= Zdigits2 (Z.abs a) - Zdigits2 (Zpos b) - 51)%Z) /\
    Rabs (F2R x - IZR a / IZR (Zpos b)) <= u64 * Rabs (IZR a / IZR (Zpos b)).
Proof.
  intros Hb. pose proof u64_small as Hu.
  assert (HbR : 0 < IZR (Zpos b)) by (apply IZR_lt; lia).
  destruct a as [|a|a].
  - right. exists (S754_zero false). split; [apply truediv_zero|].
    split; [reflexivity|]. split; [congruence|].
    cbn [F2R]. unfold Rdiv. rewrite Rmult_0_l, Rminus_0_r, Rabs_R0. lra.
  - destruct (truediv_pos_cases a b Hb) as [H|(mf & ef & H & Hd & He & Herr)];
      [left; exact H|right].
    exists (S754_finite false mf ef). split; [exact H|].
    split; [discriminate|]. split; [intros _; exists mf, ef; auto|].
    rewrite (Rabs_pos_eq (IZR (Zpos a) / IZR (Zpos b))); [exact Herr|].
    apply Rlt_le, Rdiv_lt_0_compat; [apply IZR_lt; lia|exact HbR].
  - rewrite truediv_opp.
    destruct (truediv_pos_cases a b Hb) as [H|(mf & ef & H & Hd & He & Herr)];
      rewrite H; [left; reflexivity|right].
    exists (S754_finite true mf ef). split; [reflexivity|].
    split; [discriminate|]. split; [intros _; exists mf, ef; auto|].
    rewrite F2R_with_sign_true.
    change (Zneg a) with (- Zpos a)%Z. rewrite opp_IZR.
    replace (- F2R (S754_finite false mf ef) - - IZR (Zpos a) / IZR (Zpos b))
      with (- (F2R (S754_finite false mf ef) - IZR (Zpos a) / IZR (Zpos b)))
      by (field; lra).
    replace (- IZR (Zpos a) / IZR (Zpos b))
      with (- (IZR (Zpos a) / IZR (Zpos b))) by (field; lra).
    rewrite !Rabs_Ropp.
    rewrite (Rabs_pos_eq (IZR (Zpos a) / IZR (Zpos b))); [exact Herr|].
    apply Rlt_le, Rdiv_lt_0_compat; [apply IZR_lt; lia|exact HbR].
Qed.

End SignedQuotient.

Section Percent.

Local Open Scope R_scope.

Lemma pow2_le (a b : Z) : (a <= b)%Z -> powerRZ 2 a <= powerRZ 2 b.
Proof.
  intros H. replace b with (a + (b - a))%Z by lia.
  rewrite pow2_add, <- (IZR_pow2 (b - a)) by lia.
  pose proof (pow2_pos a).
  assert (1 <= IZR (2 ^ (b - a))).
  { apply IZR_le. assert (0 < 2 ^ (b - a))%Z by (apply Z.pow_pos_nonneg; lia). lia. }
  nra.
Qed.

(** A double that is at most half a unit in the last place above an
    integer is at most that integer. *)
Lemma float_grid (m : positive) (e N k : Z) :
  Zdigits2 (Zpos m) = 53%Z -> (0 <= k <= 52)%Z -> (2 ^ k <= N < 2 ^ (k + 1))%Z ->
  F2R (S754_finite false m e) <= IZR N * (1 + u64) ->
  F2R (S754_finite false m e) <= IZR N.
Proof.
  intros Hd Hk HN Hle.
  destruct (Rle_or_lt (F2R (S754_finite false m e)) (IZR N)) as [H|H];
    [exact H|exfalso].
  destruct (Zdigits2_bounds (Zpos m)) as [Hm1 Hm2]; [lia|]. rewrite Hd in Hm1, Hm2.
  change (53 - 1)%Z with 52%Z in Hm1.
  unfold F2R, sign_R in *. rewrite Rmult_1_l in *.
  assert (HmR : IZR (Zpos m) < powerRZ 2 53).
  { rewrite <- IZR_pow2 by lia. apply IZR_lt. exact Hm2. }
  assert (Hm0 : 0 < IZR (Zpos m)) by (apply IZR_lt; lia).
  destruct (Z.le_gt_cases e (k - 53)) as [He|He].
  - assert (Hp : powerRZ 2 e <= powerRZ 2 (k - 53))
      by (apply pow2_le; lia).
    assert (Hpk : powerRZ 2 53 * powerRZ 2 (k - 53) = IZR (2 ^ k)).
    { rewrite <- pow2_add, IZR_pow2 by lia. f_equal. lia. }
    assert (HNk : IZR (2 ^ k) <= IZR N) by (apply IZR_le; lia).
    pose proof (pow2_pos e). pose proof (pow2_pos (k - 53)).
    assert (IZR (Zpos m) * powerRZ 2 e < powerRZ 2 53 * powerRZ 2 (k - 53)).
    { apply Rle_lt_trans with (IZR (Zpos m) * powerRZ 2 (k - 53)).
      - apply Rmult_le_compat_l; lra.
      - apply Rmult_lt_compat_r; lra. }
    lra.
  - set (j := (e - (k - 52))%Z).
    assert (Hj : (0 <= j)%Z) by (unfold j; lia).
    set (P := powerRZ 2 (k - 52)).
    assert (HP : 0 < P) by apply pow2_pos.
    assert (Hval : IZR (Zpos m) * powerRZ 2 e = IZR (Zpos m * 2 ^ j) * P).
    { replace e with (j + (k - 52))%Z at 1 by (unfold j; lia).
      rewrite pow2_add, mult_IZR, IZR_pow2 by lia. unfold P. ring. }
    assert (HNv : IZR N = IZR (N * 2 ^ (52 - k)) * P).
    { rewrite mult_IZR, IZR_pow2 by lia. unfold P.
      rewrite Rmult_assoc, <- pow2_add.
      replace (52 - k + (k - 52))%Z with 0%Z by lia. cbn. ring. }
    rewrite Hval in H, Hle. rewrite HNv in H.
    apply Rmult_lt_reg_r in H; [|exact HP].
    apply lt_IZR in H.
    assert (Hge : IZR (N * 2 ^ (52 - k) + 1) <= IZR (Zpos m * 2 ^ j))
      by (apply IZR_le; lia).
    rewrite plus_IZR in Hge.
    assert (Hstep : IZR N + P <= IZR (Zpos m * 2 ^ j) * P).
    { rewrite HNv at 1.
      replace (IZR (N * 2 ^ (52 - k)) * P + P)
        with ((IZR (N * 2 ^ (52 - k)) + 1) * P) by ring.
      apply Rmult_le_compat_r; lra. }
    assert (HPu : IZR N * u64 < P).
    { unfold u64.
      assert (H53 : 0 < IZR (2 ^ 53)) by (apply IZR_lt; reflexivity).
      assert (HP53 : P * IZR (2 ^ 53) = IZR (2 ^ (k + 1))).
      { unfold P. rewrite !IZR_pow2, <- pow2_add by lia. f_equal. lia. }
      assert (HN' : IZR N < IZR (2 ^ (k + 1))) by (apply IZR_lt; lia).
      apply Rmult_lt_reg_r with (IZR (2 ^ 53)); [exact H53|].
      rewrite Rmult_assoc, Rinv_l by lra. lra. }
    lra.
Qed.

Lemma F2R_100 : F2R (S754_finite false 7036874417766400 (-46)) = 100.
Proof.
  rewrite F2R_literal by lia.
  change (2 ^ (- -46))%Z with 70368744177664%Z. lra.
Qed.

(** [x * 100] for a normalised double in the range of a quotient. *)
Lemma mul_float_int_100 (s : bool) (mf : positive) (ef : Z) :
  Zdigits2 (Zpos mf) = 53%Z -> (-1053 <= ef <= 960)%Z ->
  exists (my : positive) (ey : Z),
    Py.mul_float_int (S754_finite s mf ef) 100 = Ok (S754_finite s my ey) /\
    Zdigits2 (Zpos my) = 53%Z /\
    Rabs (F2R (S754_finite s my ey) - 100 * F2R (S754_finite s mf ef))
    <= u64 * Rabs (100 * F2R (S754_finite s mf ef)).
Proof.
  intros Hd He. unfold Py.mul_float_int. rewrite float_of_int_100. cbn [bind].
  destruct (SFmul_normal s false mf 7036874417766400 ef (-46) Hd eq_refl)
    as (my & ey & Hmul & Hdy & _ & Herr); [lia|].
  rewrite xorb_false_r in Hmul, Herr.
  exists my, ey. rewrite Hmul. split; [reflexivity|]. split; [exact Hdy|].
  rewrite F2R_100 in Herr.
  replace (100 * F2R (S754_finite s mf ef))
    with (F2R (S754_finite s mf ef) * 100) by ring.
  exact Herr.
Qed.

(** Two roundings in a row. *)
Lemma two_roundings (v q y : R) :
  Rabs (q - v) <= u64 * Rabs v ->
  Rabs (y - 100 * q) <= u64 * Rabs (100 * q) ->
  Rabs (y - 100 * v) <= 3 * u64 * Rabs (100 * v).
Proof.
  intros H1 H2. pose proof u64_small as Hu.
  pose proof (Rabs_pos v) as HA. set (A := Rabs v) in *.
  assert (Hq : Rabs q <= (1 + u64) * A).
  { replace q with ((q - v) + v) by ring.
    eapply Rle_trans; [apply Rabs_triang|]. fold A. lra. }
  rewrite Rabs_mult, (Rabs_pos_eq 100) in H2 by lra.
  rewrite Rabs_mult, (Rabs_pos_eq 100) by lra. fold A.
  apply Rabs_le_inv in H1. apply Rabs_le_inv in H2.
  assert (H2' : u64 * (100 * Rabs q) <= u64 * (100 * ((1 + u64) * A))).
  { apply Rmult_le_compat_l; [lra|]. apply Rmult_le_compat_l; lra. }
  apply Rabs_le. split; nra.
Qed.

End Percent.

(** The percentage [(a - b) / a * 100]: within three roundings of the
    exact ratio, and between 0 and 100 when [b] lies between 0 and [a]. *)
Lemma percent_below_value (a b : Z) :
  0 < a < 2 ^ 900 -> Z.abs (a - b) < 2 ^ 900 ->
  exists y : Py.float,
    percent_below a (Some b) = Ok (Py.Float y) /\ is_finite y = true /\
    (Rabs (F2R y - 100 * (IZR (a - b) / IZR a))
     <= 3 * u64 * Rabs (100 * (IZR (a - b) / IZR a)))%R /\
    (0 <= b <= a -> (0 <= F2R y <= 100)%R).
Proof.
  intros Ha Hd. pose proof u64_small as Hu.
  destruct a as [|a|a]; try lia.
  assert (HaR : (0 < IZR (Zpos a))%R) by (apply IZR_lt; lia).
  unfold percent_below. cbn [sub_optional bind].
  destruct (truediv_finite (Zpos a - b) (Zpos a)) as (q0 & Hq0 & _); [lia| |].
  { apply Z.lt_le_trans with (2 ^ 900); [exact Hd|].
    change (2 ^ 1000) with (2 ^ 900 * 2 ^ 100). 
    assert (0 < 2 ^ 900) by (apply Z.pow_pos_nonneg; lia).
    assert (1 <= 2 ^ 100) by (apply Z.pow_le_mono_r with (b := 0); lia).
    nia. }
  destruct (truediv_cases (Zpos a - b) a) as [Hr|(q & Hq & Hz & Hnz & Herr)].
  { apply Z.lt_trans with (2 ^ 900); [lia|reflexivity]. }
  { congruence. }
  rewrite Hq. cbn [bind].
  destruct (Z.eq_dec (Zpos a - b) 0) as [E|E].
  - rewrite (Hz E). unfold Py.mul_float_int. rewrite float_of_int_100.
    cbn [bind SFmul xorb]. eexists. split; [reflexivity|].
    split; [reflexivity|]. rewrite E. cbn [F2R]. unfold Rdiv.
    rewrite Rmult_0_l, Rmult_0_r, Rminus_0_r, Rabs_R0. split; [lra|]. intros _. lra.
  - destruct (Hnz E) as (mf & ef & -> & Hdf & Hef).
    assert (Hdig : Zdigits2 (Z.abs (Zpos a - b)) <= 900)
      by (apply Zdigits2_le; lia).
    assert (Hdiga : 1 <= Zdigits2 (Zpos a)) by (simpl; lia).
    destruct (mul_float_int_100 (Zpos a - b <? 0) mf ef Hdf)
      as (my & ey & Hy & Hdy & Herr2); [lia|].
    rewrite Hy. cbn [bind]. eexists. split; [reflexivity|].
    split; [reflexivity|].
    split; [apply (two_roundings _ _ _ Herr Herr2)|].
    intros Hb.
    assert (Hpos : (Zpos a - b <? 0) = false) by (apply Z.ltb_ge; lia).
    rewrite Hpos in *.
    assert (Hv : (0 <= IZR (Zpos a - b) / IZR (Zpos a) <= 1)%R).
    { split.
      - apply Rmult_le_pos; [apply IZR_le; lia|apply Rlt_le, Rinv_0_lt_compat; lra].
      - apply Rmult_le_reg_r with (IZR (Zpos a)); [lra|].
        unfold Rdiv. rewrite Rmult_assoc, Rinv_l, Rmult_1_r, Rmult_1_l by lra.
        apply IZR_le. lia. }
    rewrite (Rabs_pos_eq (IZR (Zpos a - b) / IZR (Zpos a))) in Herr by lra.
    apply Rabs_le_inv in Herr.
    assert (Hq1 : (F2R (S754_finite false mf ef) <= 1)%R).
    { apply (float_grid mf ef 1 0 Hdf); [lia|split; [reflexivity|reflexivity]|].
      replace (IZR 1) with 1%R by reflexivity. nra. }
    assert (Hq0' : (0 < F2R (S754_finite false mf ef))%R).
    { unfold F2R, sign_R. rewrite Rmult_1_l.
      apply Rmult_lt_0_compat; [apply IZR_lt; lia|apply pow2_pos]. }
    rewrite (Rabs_pos_eq (100 * F2R (S754_finite false mf ef))) in Herr2 by lra.
    apply Rabs_le_inv in Herr2.
    split.
    + unfold F2R, sign_R. rewrite Rmult_1_l.
      apply Rlt_le, Rmult_lt_0_compat; [apply IZR_lt; lia|apply pow2_pos].
    + apply (float_grid my ey 100 6 Hdy); [lia|split; [vm_compute; discriminate|reflexivity]|].
      nra.
Qed.

Lemma fold_left_add (xs : list Z) :
  forall a : Z, fold_left Z.add xs a = a + fold_left Z.add xs 0.
Proof.
  induction xs as [|x xs IH]; intros a; cbn [fold_left]; [lia|].
  rewrite (IH (a + x)), (IH (0 + x)). lia.
Qed.

Lemma sum_cons (x : Z) (xs : list Z) : Py.sum (x :: xs) = x + Py.sum xs.
Proof. unfold Py.sum. cbn [fold_left]. rewrite fold_left_add. lia. Qed.

Lemma sum_bound (B : Z) (xs : list Z) :
  Forall (fun x : Z => Z.abs x <= B) xs ->
  Z.abs (Py.sum xs) <= Z.of_nat (List.length xs) * B.
Proof.
  induction 1 as [|x xs Hx Hxs IH]; [cbn; lia|].
  rewrite sum_cons. cbn [List.length]. lia.
Qed.

(** The sum lies between [len * lo] and [len * hi]. *)
Lemma sum_between (lo hi : Z) (xs : list Z) :
  Forall (fun x : Z => lo <= x <= hi) xs ->
  Z.of_nat (List.length xs) * lo <= Py.sum xs <= Z.of_nat (List.length xs) * hi.
Proof.
  induction 1 as [|x xs Hx Hxs IH]; [cbn; lia|].
  rewrite sum_cons. cbn [List.length]. lia.
Qed.

Section Mean.

Local Open Scope R_scope.

(** The mean of a non-empty list: never a division by zero; within one
    rounding of the exact mean when the entries are within range. *)
Lemma mean_or_none_spec (xs : list Z) :
  (xs = [] -> mean_or_none xs = Ok None) /\
  (forall e : exn, mean_or_none xs = Raise e -> e = OverflowError) /\
  (xs <> [] ->
   (Z.of_nat (List.length xs) < 2 ^ 63)%Z ->
   Forall (fun x : Z => (Z.abs x < 2 ^ 900)%Z) xs ->
   exists x : Py.float,
     mean_or_none xs = Ok (Some x) /\ is_finite x = true /\
     Rabs (F2R x - IZR (Py.sum xs) / IZR (Z.of_nat (List.length xs)))
     <= u64 * Rabs (IZR (Py.sum xs) / IZR (Z.of_nat (List.length xs)))).
Proof.
  split; [intros ->; reflexivity|].
  destruct xs as [|x0 xs]; [split; [discriminate|congruence]|].
  set (l := x0 :: xs).
  assert (Hlen : exists n : positive, Z.of_nat (List.length l) = Zpos n).
  { unfold l. cbn [List.length]. rewrite Nat2Z.inj_succ.
    destruct (Z.succ (Z.of_nat (List.length xs))) as [|n|n] eqn:E; try lia.
    exists n. reflexivity. }
  destruct Hlen as [n Hn].
  unfold mean_or_none, l. cbv iota. fold l. rewrite Hn.
  split.
  - intros e He. unfold Py.truediv in He. change (Zpos n =? 0)%Z with false in He.
    cbv iota in He.
    destruct (SFdiv_core_binary _ _ _ _ _ _) as [[q eq] lq].
    destruct (binary_round_aux _ _ _ _ _ _); cbn [bind] in He; congruence.
  - intros _ Hshort Hrange.
    assert (Hsum : (Z.abs (Py.sum l) <= Zpos n * (2 ^ 900 - 1))%Z).
    { rewrite <- Hn. apply sum_bound.
      eapply Forall_impl; [|exact Hrange]. cbv beta. intros; lia. }
    destruct (truediv_finite (Py.sum l) (Zpos n)) as (y & Hy & Hfin); [lia| |].
    { change (2 ^ 1000)%Z with (2 ^ 900 * 2 ^ 100)%Z.
      assert (0 < 2 ^ 900)%Z by (apply Z.pow_pos_nonneg; lia).
      assert (1 <= 2 ^ 100)%Z by (apply Z.pow_le_mono_r with (b := 0%Z); lia).
      change (Z.abs (Zpos n)) with (Zpos n). nia. }
    destruct (truediv_cases (Py.sum l) n) as [Hr|(x & Hx & _ & _ & Herr)].
    { apply Z.lt_trans with (2 ^ 63)%Z; [lia|reflexivity]. }
    { congruence. }
    rewrite Hx. cbn [bind]. exists x. split; [reflexivity|].
    split; [congruence|exact Herr].
Qed.

End Mean.

(** The two percentages of a deal. *)
Lemma calculate_results_percent (product : Product) (buyer_budget : Z)
    (st : Locals.t) (o : Outcome) :
  calculate_results product buyer_budget st = Ok o ->
  Locals.deal_made st = true ->
  percent_below buyer_budget (Locals.final_price st) = Ok (savings_pct o) /\
  percent_below (base_market_price product) (Locals.final_price st)
  = Ok (below_market_pct o).
Proof.
  unfold calculate_results. intros H Hd. rewrite Hd in H.
  apply bind_Ok in H. destruct H as (sv & _ & H).
  apply bind_Ok in H. destruct H as (sp & Hsp & H).
  apply bind_Ok in H. destruct H as (bm & Hbm & H).
  injection H as <-. cbn. auto.
Qed.

(** * Properties beyond the claims *)

(** ** [YourBuyerAgent] *)

(** X1.  [calculate_fair_price] moves the anchor by at most -10% and +18.8%:
    for a non-negative base price the result is non-negative, above 89.9%
    of the base price less one, and at most 119.1% of it, whatever the
    grade and the origin. *)
Theorem fair_price_range (p : Product) (fair : Z) :
  0 <= base_market_price p ->
  YourBuyerAgent.calculate_fair_price p = Ok fair ->
  0 <= fair /\ 899 * base_market_price p < 1000 * (fair + 1) /\
  1000 * fair <= 1191 * base_market_price p.
Proof. apply calculate_fair_price_nonneg. Qed.

Lemma fair_price_range_witness :
  YourBuyerAgent.calculate_fair_price kesar = Ok 135000 /\
  899 * 150000 < 1000 * (135000 + 1) /\ 1000 * 135000 <= 1191 * 150000.
Proof.
  assert (H : YourBuyerAgent.calculate_fair_price kesar = Ok 135000)
    by reflexivity.
  split; [exact H|].
  apply (fair_price_range kesar 135000 ltac:(vm_compute; discriminate) H).
Defined.

(** X2.  For a non-negative base price the floor [int(base * 0.40)] of
    [generate_opening_offer] never exceeds the anchor [int(fair * 0.58)]:
    the offer lies between the two, it is within the budget if and only if
    the budget is at least the floor, and then it is
    [min(int(fair * 0.58), budget)]. *)
Theorem opening_offer_floor (context : NegotiationContext)
    (offer : Z) (msg : string) :
  0 <= base_market_price (product context) ->
  YourBuyerAgent.generate_opening_offer context = Ok (offer, msg) ->
  exists fair anchor floor : Z,
    YourBuyerAgent.calculate_fair_price (product context) = Ok fair /\
    Py.int_mul fair Py.c_0_58 = Ok anchor /\
    Py.int_mul (base_market_price (product context)) Py.c_0_40 = Ok floor /\
    floor <= offer <= anchor /\
    (offer <= your_budget context <-> floor <= your_budget context) /\
    (floor <= your_budget context ->
     offer = Z.min anchor (your_budget context)).
Proof.
  intros Hbase H. apply generate_opening_offer_inv in H.
  destruct H as (fair & anchor & floor & Hfair & Ha & Hf & ->).
  exists fair, anchor, floor.
  pose proof (floor_le_anchor _ _ _ _ Hbase Hfair Ha Hf).
  repeat (split; [assumption|]). lia.
Qed.

Lemma opening_offer_floor_witness :
  0 <= base_market_price (product (context_at kesar 70000 1 [225000] [])) /\
  exists msg : string,
    YourBuyerAgent.generate_opening_offer (context_at kesar 70000 1 [225000] [])
    = Ok (70000, msg).
Proof.
  assert (Hb : 0 <= base_market_price
                     (product (context_at kesar 70000 1 [225000] [])))
    by (vm_compute; discriminate).
  split; [exact Hb|].
  destruct (YourBuyerAgent.generate_opening_offer
              (context_at kesar 70000 1 [225000] [])) as [[offer msg]|e] eqn:E;
    [|vm_compute in E; discriminate].
  destruct (opening_offer_floor _ offer msg Hb E)
    as (fair & anchor & floor & Hfair & Ha & Hf & _ & _ & Heq).
  vm_compute in Hfair. injection Hfair as <-.
  vm_compute in Ha. injection Ha as <-.
  vm_compute in Hf. injection Hf as <-.
  rewrite Heq by (cbn; lia). exists msg. reflexivity.
Defined.

(** X3.  The price [respond_to_seller_offer] returns is bounded from above:
    when it accepts, by [min(budget, int(fair * 0.88))]; when it counters,
    by the larger of that ceiling and the previous offer plus the minimal
    step.  So a counter is within the budget whenever the previous offer
    plus the step is within the ceiling. *)
Theorem respond_price_bound (context : NegotiationContext)
    (seller_price : Z) (seller_message : string)
    (status : DealStatus) (price : Z) (msg : string) :
  YourBuyerAgent.respond_to_seller_offer context seller_price seller_message
    = Ok (status, price, msg) ->
  exists fair ceiling : Z,
    YourBuyerAgent.calculate_fair_price (product context) = Ok fair /\
    Py.int_mul fair Py.c_0_88 = Ok ceiling /\
    (status = ACCEPTED -> price <= Z.min (your_budget context) ceiling) /\
    (status = ONGOING ->
     exists last_offer step : Z,
       last_offer_of context fair = Ok last_offer /\
       Py.int_mul fair Py.c_0_002 = Ok step /\
       price <= Z.max (Z.min (your_budget context) ceiling)
                      (last_offer + Z.max 1 step) /\
       (last_offer + Z.max 1 step <= Z.min (your_budget context) ceiling ->
        price <= your_budget context)).
Proof.
  intros H. apply respond_to_seller_offer_inv in H.
  destruct H as (fair & ceiling & Hfair & Hceil & H).
  exists fair, ceiling. split; [exact Hfair|]. split; [exact Hceil|].
  destruct H as [(Hle & -> & ->)|(Hlt & -> & H)].
  - split; [intros _; exact Hle|discriminate].
  - split; [discriminate|]. intros _.
    destruct H as (last_offer & raw & step & outrageous & Hl & _ & Hs & _ & H).
    exists last_offer, step. split; [exact Hl|]. split; [exact Hs|].
    cbv zeta in H.
    destruct H as [(_ & _ & anchor & _ & ->)|(_ & ->)]; lia.
Qed.

Lemma respond_price_bound_witness :
  exists msg : string,
    YourBuyerAgent.respond_to_seller_offer
      (context_at kesar 150000 3 [225000; 123000; 123000] [78300; 98400])
      123000 "I can come down to ₹123000."
    = Ok (ONGOING, 103320, msg) /\
    103320 <= 150000.
Proof.
  destruct (YourBuyerAgent.respond_to_seller_offer
              (context_at kesar 150000 3 [225000; 123000; 123000] [78300; 98400])
              123000 "I can come down to ₹123000.")
    as [[[status price] msg]|e] eqn:E; [|vm_compute in E; discriminate].
  destruct (respond_price_bound _ _ _ _ _ _ E)
    as (fair & ceiling & Hfair & Hceil & _ & Hon).
  assert (E' := E). vm_compute in E'. injection E' as <- <- <-.
  destruct (Hon eq_refl) as (last_offer & step & Hl & Hs & _ & Hb).
  vm_compute in Hfair. injection Hfair as <-.
  vm_compute in Hceil. injection Hceil as <-.
  vm_compute in Hl. injection Hl as <-.
  vm_compute in Hs. injection Hs as <-.
  eexists. split; [reflexivity|]. apply Hb. cbn. lia.
Defined.

(** X4.  Every message of [YourBuyerAgent], the opening one and each of the
    three answers, quotes the price that is returned with it and closes
    with one of the catchphrases of [define_personality]. *)
Theorem your_agent_messages (context : NegotiationContext) :
  (forall (offer : Z) (msg : string),
      YourBuyerAgent.generate_opening_offer context = Ok (offer, msg) ->
      in_character YourBuyerAgent.define_personality offer msg) /\
  (forall (seller_price : Z) (seller_message : string)
          (status : DealStatus) (price : Z) (msg : string),
      YourBuyerAgent.respond_to_seller_offer context seller_price seller_message
        = Ok (status, price, msg) ->
      in_character YourBuyerAgent.define_personality price msg).
Proof.
  split.
  - unfold YourBuyerAgent.generate_opening_offer. intros offer msg H.
    apply bind_Ok in H. destruct H as (fair & _ & H).
    apply bind_Ok in H. destruct H as (anchor & _ & H).
    apply bind_Ok in H. destruct H as (floor & _ & H).
    apply bind_Ok in H. destruct H as (phrase & Hp & H).
    injection H as <- <-.
    exists EmptyString,
      (" is a realistic starting point given market reality. "
       ++ "Anything higher won’t make sense for me. "), phrase.
    split; [apply (catchphrase_in _ _ Hp)|].
    reflexivity.
  - unfold YourBuyerAgent.respond_to_seller_offer.
    intros seller_price seller_message status price msg H.
    apply bind_Ok in H. destruct H as (fair & _ & H).
    apply bind_Ok in H. destruct H as (ceiling & _ & H).
    destruct (seller_price <=? _).
    + apply bind_Ok in H. destruct H as (phrase & Hp & H).
      injection H as <- <- <-.
      exists "Alright. ", " works. ", phrase.
      split; [apply (catchphrase_in _ _ Hp)|reflexivity].
    + apply bind_Ok in H. destruct H as (last_offer & _ & H).
      apply bind_Ok in H. destruct H as (raw & _ & H).
      apply bind_Ok in H. destruct H as (step & _ & H).
      apply bind_Ok in H. destruct H as (outrageous & _ & H).
      apply bind_Ok in H. destruct H as (counter & _ & H).
      destruct (_ && _);
        apply bind_Ok in H; destruct H as (phrase & Hp & H);
        injection H as <- <- <-.
      * exists "That’s above what I can justify. ",
          " is my ceiling given the market. ", phrase.
        split; [apply (catchphrase_in _ _ Hp)|reflexivity].
      * exists "Too high. I can do ", ". ", phrase.
        split; [apply (catchphrase_in _ _ Hp)|reflexivity].
Qed.

Lemma your_agent_messages_witness :
  exists msg : string,
    YourBuyerAgent.generate_opening_offer (context_at kesar 150000 1 [225000] [])
    = Ok (78300, msg) /\
    in_character YourBuyerAgent.define_personality 78300 msg.
Proof.
  assert (H : exists msg : string,
             YourBuyerAgent.generate_opening_offer
               (context_at kesar 150000 1 [225000] []) = Ok (78300, msg))
    by (eexists; vm_compute; reflexivity).
  destruct H as [msg H]. exists msg. split; [exact H|].
  apply (proj1 (your_agent_messages _) _ _ H).
Defined.

(** X5.  [analyze_negotiation_progress] never divides by zero and never
    indexes an empty list: the only exception it can raise is the
    [OverflowError] of int/int.  For an empty history the last offer and
    the average are [None]; for a non-empty one they are the last entry and
    a float.  With fewer than 2^63 entries, all below 2^900 in magnitude,
    it returns, and each average is the exact mean rounded once. *)
Theorem analyze_negotiation_progress_spec (context : NegotiationContext) :
  (forall e : exn,
      YourBuyerAgent.analyze_negotiation_progress context = Raise e ->
      e = OverflowError) /\
  (forall pr : Progress,
      YourBuyerAgent.analyze_negotiation_progress context = Ok pr ->
      round pr = current_round context /\
      (seller_offers context = [] ->
       last_seller pr = None /\ avg_seller pr = None) /\
      (seller_offers context <> [] ->
       last_seller pr = Some (last (seller_offers context) 0) /\
       exists x : Py.float, avg_seller pr = Some x) /\
      (your_offers context = [] ->
       last_buyer pr = None /\ avg_buyer pr = None) /\
      (your_offers context <> [] ->
       last_buyer pr = Some (last (your_offers context) 0) /\
       exists x : Py.float, avg_buyer pr = Some x)) /\
  (Z.of_nat (List.length (seller_offers context)) < 2 ^ 63 ->
   Z.of_nat (List.length (your_offers context)) < 2 ^ 63 ->
   Forall (fun x : Z => Z.abs x < 2 ^ 900) (seller_offers context) ->
   Forall (fun x : Z => Z.abs x < 2 ^ 900) (your_offers context) ->
   exists pr : Progress,
     YourBuyerAgent.analyze_negotiation_progress context = Ok pr /\
     (forall x : Py.float,
         avg_seller pr = Some x ->
         (Rabs (F2R x - IZR (Py.sum (seller_offers context))
                        / IZR (Z.of_nat (List.length (seller_offers context))))
          <= u64 * Rabs (IZR (Py.sum (seller_offers context))
                         / IZR (Z.of_nat (List.length (seller_offers context)))))%R) /\
     (forall x : Py.float,
         avg_buyer pr = Some x ->
         (Rabs (F2R x - IZR (Py.sum (your_offers context))
                        / IZR (Z.of_nat (List.length (your_offers context))))
          <= u64 * Rabs (IZR (Py.sum (your_offers context))
                         / IZR (Z.of_nat (List.length (your_offers context)))))%R)).
Proof.
  unfold YourBuyerAgent.analyze_negotiation_progress.
  destruct (mean_or_none_spec (seller_offers context)) as (Hs0 & Hse & Hs1).
  destruct (mean_or_none_spec (your_offers context)) as (Hy0 & Hye & Hy1).
  split; [|split].
  - intros e He.
    destruct (mean_or_none (seller_offers context)) as [as_|e1] eqn:E1;
      cbn [bind] in He; [|injection He as <-; apply Hse; reflexivity].
    destruct (mean_or_none (your_offers context)) as [ay|e2] eqn:E2;
      cbn [bind] in He; [discriminate|injection He as <-; apply Hye; reflexivity].
  - intros pr Hpr.
    apply bind_Ok in Hpr. destruct Hpr as (as_ & E1 & Hpr).
    apply bind_Ok in Hpr. destruct Hpr as (ay & E2 & Hpr).
    injection Hpr as <-. cbn.
    split; [reflexivity|].
    split; [intros E; rewrite E in *; cbn in E1; injection E1 as <-; auto|].
    split.
    { intros Hne. destruct (seller_offers context) as [|s0 ss] eqn:E; [congruence|].
      split; [reflexivity|]. unfold mean_or_none in E1.
      apply bind_Ok in E1. destruct E1 as (x & _ & E1). injection E1 as <-.
      exists x. reflexivity. }
    split; [intros E; rewrite E in *; cbn in E2; injection E2 as <-; auto|].
    intros Hne. destruct (your_offers context) as [|s0 ss] eqn:E; [congruence|].
    split; [reflexivity|]. unfold mean_or_none in E2.
    apply bind_Ok in E2. destruct E2 as (x & _ & E2). injection E2 as <-.
    exists x. reflexivity.
  - intros Hls Hly Hrs Hry.
    assert (Hmean : forall xs : list Z,
               Z.of_nat (List.length xs) < 2 ^ 63 ->
               Forall (fun x : Z => Z.abs x < 2 ^ 900) xs ->
               exists m : option Py.float,
                 mean_or_none xs = Ok m /\
                 forall x : Py.float,
                   m = Some x ->
                   (Rabs (F2R x - IZR (Py.sum xs) / IZR (Z.of_nat (List.length xs)))
                    <= u64 * Rabs (IZR (Py.sum xs) / IZR (Z.of_nat (List.length xs))))%R).
    { intros xs Hl Hr. destruct (mean_or_none_spec xs) as (H0 & _ & H1).
      destruct xs as [|x0 xs'].
      - exists None. split; [auto|discriminate].
      - destruct (H1 ltac:(discriminate) Hl Hr) as (x & Hx & _ & Herr).
        exists (Some x). split; [exact Hx|].
        intros x' E. injection E as <-. exact Herr. }
    destruct (Hmean _ Hls Hrs) as (ms & Ems & Hms).
    destruct (Hmean _ Hly Hry) as (my & Emy & Hmy).
    rewrite Ems, Emy. cbn [bind]. eexists. split; [reflexivity|]. cbn. auto.
Qed.

Lemma analyze_negotiation_progress_spec_witness :
  exists pr : Progress,
    YourBuyerAgent.analyze_negotiation_progress
      (context_at kesar 150000 3 [225000; 123000] [78300; 98400]) = Ok pr /\
    round pr = 3 /\ last_seller pr = Some 123000 /\ last_buyer pr = Some 98400.
Proof.
  destruct (analyze_negotiation_progress_spec
              (context_at kesar 150000 3 [225000; 123000] [78300; 98400]))
    as (_ & Hspec & Htot).
  destruct Htot as (pr & Hpr & _).
  - vm_compute. reflexivity.
  - vm_compute. reflexivity.
  - repeat constructor.
  - repeat constructor.
  - exists pr. split; [exact Hpr|].
    destruct (Hspec pr Hpr) as (Hr & _ & Hs & _ & Hy).
    split; [exact Hr|].
    split; [apply Hs; discriminate|apply Hy; discriminate].
Defined.

(** X22.  When [respond_to_seller_offer] answers ONGOING, the counter is at
    least [last_offer + max(1, int(fair * 0.002))], with [last_offer] the
    buyer's latest offer (or [int(fair * 0.58)] when there is none),
    provided the override for an outrageous price does not apply, that is,
    the seller's price is below [int(base * 1.5)] or the round is past 2.
    When the override applies the counter is at least the smaller of that
    bound and [int(fair * 0.70)].  The products are the binary64 ones of
    the code, truncated. *)
Theorem respond_counter_step (context : NegotiationContext)
    (seller_price : Z) (seller_message : string) (counter : Z) (msg : string) :
  YourBuyerAgent.respond_to_seller_offer context seller_price seller_message
    = Ok (ONGOING, counter, msg) ->
  exists fair step last_offer outrageous : Z,
    YourBuyerAgent.calculate_fair_price (product context) = Ok fair /\
    Py.int_mul fair Py.c_0_002 = Ok step /\
    last_offer_of context fair = Ok last_offer /\
    Py.int_mul (base_market_price (product context)) Py.c_1_5 = Ok outrageous /\
    (seller_price < outrageous \/ 2 < current_round context ->
     last_offer + Z.max 1 step <= counter) /\
    (outrageous <= seller_price /\ current_round context <= 2 ->
     exists anchor : Z,
       Py.int_mul fair Py.c_0_70 = Ok anchor /\
       Z.min (last_offer + Z.max 1 step) anchor <= counter).
Proof.
  intros H. apply respond_to_seller_offer_inv in H.
  destruct H as (fair & ceiling & Hfair & Hceil & [(_ & Hst & _)|(_ & _ & H)]);
    [discriminate|].
  destruct H as (last_offer & raw & step & outrageous & Hlast & Hraw & Hstep & Hout & H).
  exists fair, step, last_offer, outrageous.
  repeat (split; [assumption|]).
  cbv zeta in H.
  destruct H as [(Ho & Hr & anchor & Ha & ->)|(Hno & ->)]; split.
  - intros [?|?]; lia.
  - intros _. exists anchor. split; [exact Ha|lia].
  - intros _. lia.
  - intros [? ?]. exfalso. lia.
Qed.

Lemma respond_counter_step_witness :
  (exists msg : string,
      YourBuyerAgent.respond_to_seller_offer
        (context_at kesar 150000 3 [225000; 123000; 123000] [78300; 98400])
        123000 "I can come down to ₹123000."
      = Ok (ONGOING, 103320, msg)) /\
  98400 + Z.max 1 270 <= 103320.
Proof.
  assert (H : exists msg : string,
             YourBuyerAgent.respond_to_seller_offer
               (context_at kesar 150000 3 [225000; 123000; 123000] [78300; 98400])
               123000 "I can come down to ₹123000."
             = Ok (ONGOING, 103320, msg))
    by (eexists; vm_compute; reflexivity).
  split; [exact H|]. destruct H as [msg H].
  destruct (respond_counter_step _ _ _ _ _ H)
    as (fair & step & last_offer & outrageous & Hf & Hs & Hl & Ho & Hstep & _).
  vm_compute in Hf. injection Hf as <-.
  vm_compute in Hs. injection Hs as <-.
  vm_compute in Hl. injection Hl as <-.
  vm_compute in Ho. injection Ho as <-.
  apply Hstep. left. reflexivity.
Defined.

(** ** [ExampleSimpleAgent] *)

(** X6.  Whatever [ExampleSimpleAgent.respond_to_seller_offer] returns, its
    price is at most the budget; and a counter (status ONGOING) is strictly
    below the seller's price, for a seller's price from 0 up to 2^900. *)
Theorem example_respond_within_budget (context : NegotiationContext)
    (seller_price : Z) (seller_message : string)
    (status : DealStatus) (price : Z) (msg : string) :
  ExampleSimpleAgent.respond_to_seller_offer context seller_price seller_message
    = Ok (status, price, msg) ->
  price <= your_budget context /\
  (status = ONGOING -> 0 <= seller_price < 2 ^ 900 -> price < seller_price).
Proof.
  intros H. apply example_respond_inv in H.
  destruct H as [(-> & -> & Hle & _)|(-> & _ & raised & close & _ & Hc & ->)].
  - split; [exact Hle|discriminate].
  - split; [destruct (Py.int_ge_float _ close); lia|].
    intros _ Hsp.
    destruct (Py.int_ge_float _ close) eqn:E; [lia|].
    destruct (compare_mul_0_95 seller_price close
                (Z.min raised (your_budget context)) (proj1 Hsp) Hc)
      as (_ & _ & Hlt & _).
    assert (Hfin : is_finite close = true)
      by (apply (mul_int_float_finite seller_price Py.c_0_95); auto).
    specialize (Hlt Hfin E). lia.
Qed.

Lemma example_respond_within_budget_witness :
  exists msg : string,
    ExampleSimpleAgent.respond_to_seller_offer
      (context_at kesar 150000 2 [225000; 200000] [90000])
      200000 "I can come down to ₹200000."
    = Ok (ONGOING, 99000, msg) /\
    99000 <= 150000 /\ 99000 < 200000.
Proof.
  assert (H : exists msg : string,
             ExampleSimpleAgent.respond_to_seller_offer
               (context_at kesar 150000 2 [225000; 200000] [90000])
               200000 "I can come down to ₹200000."
             = Ok (ONGOING, 99000, msg)) by (eexists; vm_compute; reflexivity).
  destruct H as [msg H]. exists msg. split; [exact H|].
  destruct (example_respond_within_budget _ _ _ _ _ _ H) as [H1 H2].
  split; [exact H1|]. apply H2; [reflexivity|].
  split; [lia|vm_compute; reflexivity].
Defined.

(** X7.  [ExampleSimpleAgent.respond_to_seller_offer] answers ACCEPTED or
    ONGOING only.  It accepts, at the seller's price, only if that price is
    within the budget and at most 85% of the base price, and it does accept
    every such price; 85% is the binary64 product [base * 0.85], which the
    two inequalities bracket to one part in 10^15. *)
Theorem example_accepts_iff (context : NegotiationContext)
    (seller_price : Z) (seller_message : string)
    (status : DealStatus) (price : Z) (msg : string) :
  0 <= base_market_price (product context) < 2 ^ 900 ->
  ExampleSimpleAgent.respond_to_seller_offer context seller_price seller_message
    = Ok (status, price, msg) ->
  (status = ACCEPTED \/ status = ONGOING) /\
  (status = ACCEPTED ->
   price = seller_price /\ seller_price <= your_budget context /\
   10 ^ 15 * seller_price
     <= (85 * 10 ^ 13 + 1) * base_market_price (product context)) /\
  (seller_price <= your_budget context ->
   10 ^ 15 * seller_price
     <= (85 * 10 ^ 13 - 1) * base_market_price (product context) ->
   status = ACCEPTED).
Proof.
  intros Hb H. apply example_respond_inv in H.
  destruct H as [(-> & -> & Hle & limit & Hl & Hcmp)|(-> & Hno & _)].
  - split; [auto|]. split; [|auto]. intros _.
    split; [reflexivity|]. split; [exact Hle|].
    destruct (compare_mul_0_85_fine _ limit seller_price (proj1 Hb) Hl)
      as (_ & _ & _ & Hle').
    apply Hle'; [|exact Hcmp].
    apply (mul_int_float_finite _ Py.c_0_85 limit Hb); auto.
  - split; [auto|]. split; [discriminate|]. intros Hle Hlow.
    destruct Hno as [Hlt|(limit & Hl & Hcmp)]; [lia|].
    destruct (compare_mul_0_85_fine _ limit seller_price (proj1 Hb) Hl)
      as (_ & Hgt & _).
    specialize (Hgt Hcmp). lia.
Qed.

Lemma example_accepts_iff_witness :
  0 <= base_market_price
         (product (context_at kesar 150000 2 [225000; 127500] [90000]))
    < 2 ^ 900 /\
  exists msg : string,
    ExampleSimpleAgent.respond_to_seller_offer
      (context_at kesar 150000 2 [225000; 127500] [90000])
      127500 "I can come down to ₹127500."
    = Ok (ACCEPTED, 127500, msg) /\
    10 ^ 15 * 127500 <= (85 * 10 ^ 13 + 1) * 150000.
Proof.
  assert (Hb : 0 <= base_market_price
                      (product (context_at kesar 150000 2 [225000; 127500] [90000]))
                 < 2 ^ 900)
    by (split; [vm_compute; discriminate|vm_compute; reflexivity]).
  split; [exact Hb|].
  assert (H : exists msg : string,
             ExampleSimpleAgent.respond_to_seller_offer
               (context_at kesar 150000 2 [225000; 127500] [90000])
               127500 "I can come down to ₹127500."
             = Ok (ACCEPTED, 127500, msg)) by (eexists; vm_compute; reflexivity).
  destruct H as [msg H]. exists msg. split; [exact H|].
  destruct (example_accepts_iff _ _ _ _ _ _ Hb H) as (_ & Hacc & _).
  apply (Hacc eq_refl).
Defined.

(** ** [MockSellerAgent] *)

(** X8.  With a non-negative minimum, the price [respond_to_buyer] returns
    is never below the seller's minimum, accepted or not; and it is never
    below a non-negative offer of the buyer. *)
Theorem mock_seller_price_floor (self : MockSellerAgent.t)
    (buyer_offer round_num price : Z) (msg : string) (accepts : bool) :
  0 <= MockSellerAgent.min_price self ->
  MockSellerAgent.respond_to_buyer self buyer_offer round_num
    = Ok (price, msg, accepts) ->
  MockSellerAgent.min_price self <= price /\
  (0 <= buyer_offer -> buyer_offer <= price).
Proof. apply respond_to_buyer_floor. Qed.

Lemma mock_seller_price_floor_witness :
  0 <= MockSellerAgent.min_price (MockSellerAgent.init 123000) /\
  (exists msg : string,
      MockSellerAgent.respond_to_buyer (MockSellerAgent.init 123000) 98400 2
      = Ok (123000, msg, false)) /\
  123000 <= 123000 /\ 98400 <= 123000.
Proof.
  assert (Hm : 0 <= MockSellerAgent.min_price (MockSellerAgent.init 123000))
    by (vm_compute; discriminate).
  assert (H : exists msg : string,
             MockSellerAgent.respond_to_buyer (MockSellerAgent.init 123000) 98400 2
             = Ok (123000, msg, false)) by (eexists; vm_compute; reflexivity).
  split; [exact Hm|]. split; [exact H|]. destruct H as [msg H].
  destruct (mock_seller_price_floor _ _ _ _ _ _ Hm H) as [H1 H2].
  split; [exact H1|]. apply H2. lia.
Defined.

(** ** [run_negotiation_test], for every buyer agent *)

(** X9.  Whatever the buyer agent does, a deal of [run_negotiation_test] is
    never closed below the seller's minimum (taken non-negative), and the
    savings reported are the budget less the final price. *)
Theorem seller_never_below_minimum (buyer_agent : BaseBuyerAgent.t)
    (product : Product) (buyer_budget seller_min : Z) (o : Outcome) :
  0 <= seller_min ->
  run_negotiation_test buyer_agent product buyer_budget seller_min = Ok o ->
  deal_made o = true ->
  exists fp : Z,
    final_price o = Some fp /\ seller_min <= fp /\
    savings o = buyer_budget - fp.
Proof.
  intros Hmin Hrun Hdeal.
  destruct (run_negotiation_test_inv _ _ _ _ _ Hrun) as (st0 & st & H0 & Hloop & Hres).
  destruct (calculate_results_inv _ _ _ _ Hres) as (Hd & Hf & _ & _ & _ & Hsav).
  rewrite Hd in Hdeal. rewrite Hf.
  destruct (opening_state_spec _ _ _ _ H0) as (Hd0 & _ & _).
  assert (H : (Locals.deal_made st = true /\
               exists fp : Z, Locals.final_price st = Some fp /\ seller_min <= fp) \/
              (Locals.deal_made st = false /\
               ((1 <= 10)%nat -> seller_min <= Locals.seller_price st))).
  { apply (for_range_seq_invariant
             (round_body buyer_agent (MockSellerAgent.init seller_min))
             (fun i s => Locals.deal_made s = false /\
                         ((1 <= i)%nat -> seller_min <= Locals.seller_price s))
             (fun s => Locals.deal_made s = true /\
                       exists fp : Z, Locals.final_price s = Some fp /\ seller_min <= fp)
             10 0 st0 st); auto.
    - intros i s s' Hi [Hds Hsp] Hb. apply round_body_inv in Hb.
      destruct Hb as (status & offer & bmsg & _ & [(_ & Hf' & _)|(_ & Hs)]);
        [discriminate|].
      destruct Hs as (sp & sm & acc & Hs & [(_ & Hf' & _)|(-> & _ & ->)]);
        [discriminate|].
      cbn. split; [exact Hds|]. intros _.
      apply respond_to_buyer_floor in Hs; [cbn in Hs; lia|exact Hmin].
    - intros i s s' Hi [Hds Hsp] Hb. apply round_body_inv in Hb.
      destruct Hb as (status & offer & bmsg & Hbuy & [(-> & _ & ->)|(_ & Hs)]).
      + cbn. split; [reflexivity|]. eexists. split; [reflexivity|].
        apply Hsp. destruct i; [|lia].
        cbn in Hbuy. destruct Hbuy as [_ Hbuy]. discriminate.
      + destruct Hs as (sp & sm & acc & Hs & [(-> & _ & ->)|(_ & Hf' & _)]);
          [|discriminate].
        cbn. split; [reflexivity|]. eexists. split; [reflexivity|].
        apply respond_to_buyer_inv in Hs as Hs'.
        destruct Hs' as (_ & _ & _ & Heq).
        apply respond_to_buyer_floor in Hs; [|exact Hmin].
        cbn in Hs. lia.
    - split; [exact Hd0|]. lia. }
  destruct H as [(_ & fp & Hfp & Hle)|(Hc & _)]; [|congruence].
  exists fp. split; [exact Hfp|]. split; [exact Hle|].
  apply Hsav; assumption.
Qed.

Lemma seller_never_below_minimum_witness :
  0 <= 144000 /\
  exists o : Outcome,
    run_negotiation_test your_agent alphonso 216000 144000 = Ok o /\
    deal_made o = true /\
    exists fp : Z,
      final_price o = Some fp /\ 144000 <= fp /\ savings o = 216000 - fp.
Proof.
  split; [lia|].
  assert (H : exists o, run_negotiation_test your_agent alphonso 216000 144000 = Ok o)
    by (eexists; vm_compute; reflexivity).
  destruct H as [o H]. exists o. split; [exact H|].
  assert (Hd : deal_made o = true).
  { assert (H' := H). vm_compute in H'. injection H' as <-. reflexivity. }
  split; [exact Hd|].
  apply (seller_never_below_minimum your_agent alphonso 216000 144000 o);
    [lia|exact H|exact Hd].
Defined.

(** X10.  The conversation [run_negotiation_test] returns alternates
    between the seller and the buyer, the seller speaking first; it holds
    two messages per round, or one more, and 21 messages when no deal was
    made. *)
Theorem conversation_alternates (buyer_agent : BaseBuyerAgent.t)
    (product : Product) (buyer_budget seller_min : Z) (o : Outcome) :
  run_negotiation_test buyer_agent product buyer_budget seller_min = Ok o ->
  map role (conversation o)
    = turns (List.length (conversation o)) "seller" "buyer" /\
  (Z.of_nat (List.length (conversation o)) = 2 * rounds o \/
   Z.of_nat (List.length (conversation o)) = 2 * rounds o + 1) /\
  (deal_made o = false -> List.length (conversation o) = 21%nat).
Proof.
  unfold run_negotiation_test. intros H.
  apply bind_Ok in H. destruct H as (st & Hloop & Hres).
  destruct (calculate_results_inv _ _ _ _ Hres) as (Hd & _ & Hr & Hc & _).
  rewrite Hd, Hr, Hc.
  assert (Hlen : forall n : nat,
             map role (messages (Locals.context st)) = turns n "seller" "buyer" ->
             List.length (messages (Locals.context st)) = n).
  { intros n E. rewrite <- (length_map role), E. apply turns_length. }
  destruct (negotiation_loop_shape _ _ _ _ _ Hloop)
    as [(Hdeal & r & Hcr & Hrr & _ & _ & [(_ & _ & Hm)|(_ & Hm)])
       |(Hcr & Hdeal & _ & _ & _ & _ & Hm)];
    rewrite (Hlen _ Hm), Hm, Hcr, Hdeal;
    (split; [reflexivity|]); (split; [lia|]); intros; try discriminate.
  reflexivity.
Qed.

Lemma conversation_alternates_witness :
  exists o : Outcome,
    run_negotiation_test your_agent alphonso 216000 144000 = Ok o /\
    map role (conversation o) = ["seller"; "buyer"; "seller"; "buyer"].
Proof.
  assert (H : exists o, run_negotiation_test your_agent alphonso 216000 144000 = Ok o)
    by (eexists; vm_compute; reflexivity).
  destruct H as [o H]. exists o. split; [exact H|].
  destruct (conversation_alternates _ _ _ _ _ H) as (Hm & _).
  rewrite Hm. assert (H' := H). vm_compute in H'. injection H' as <-.
  reflexivity.
Defined.

(** X11.  When the loop of [run_negotiation_test] ends, the buyer has made
    one offer per round.  Without a deal 10 rounds were played, the seller
    has made 11 offers and the final price is [None]; with a deal the
    seller has made as many offers as the buyer, and the final price is the
    buyer's last offer, or the seller's last offer, taken by the buyer in
    round 2 or later. *)
Theorem offer_histories (buyer_agent : BaseBuyerAgent.t) (product : Product)
    (buyer_budget seller_min : Z) (st : Locals.t) :
  negotiation_loop buyer_agent product buyer_budget seller_min = Ok st ->
  let c := Locals.context st in
  Z.of_nat (List.length (your_offers c)) = current_round c /\
  (Locals.deal_made st = false ->
   current_round c = 10 /\ List.length (seller_offers c) = 11%nat /\
   Locals.final_price st = None) /\
  (Locals.deal_made st = true ->
   List.length (seller_offers c) = List.length (your_offers c) /\
   (Locals.final_price st = Some (last (your_offers c) 0) \/
    Locals.final_price st = Some (last (seller_offers c) 0) /\
    2 <= current_round c)).
Proof.
  intros Hloop c. subst c.
  destruct (negotiation_loop_shape _ _ _ _ _ Hloop)
    as [(Hdeal & r & Hcr & Hrr & Hy & Hs & H)
       |(Hcr & Hdeal & Hf & Hy & Hs & _)].
  - rewrite Hy, Hs, Hcr, Hdeal. split; [reflexivity|].
    split; [discriminate|]. intros _. split; [reflexivity|].
    destruct H as [(H2 & Hf & _)|(Hf & _)]; [right|left]; auto.
    split; [exact Hf|lia].
  - rewrite Hy, Hs, Hcr, Hdeal. split; [reflexivity|].
    split; [auto|discriminate].
Qed.

Lemma offer_histories_witness :
  exists st : Locals.t,
    negotiation_loop your_agent alphonso 216000 144000 = Ok st /\
    Z.of_nat (List.length (your_offers (Locals.context st)))
    = current_round (Locals.context st).
Proof.
  assert (H : exists st, negotiation_loop your_agent alphonso 216000 144000 = Ok st)
    by (eexists; vm_compute; reflexivity).
  destruct H as [st H]. exists st. split; [exact H|].
  apply (offer_histories _ _ _ _ _ H).
Defined.

(** X12.  For a deal, [savings_pct] and [below_market_pct] are floats
    within three roundings of [100 * (budget - final) / budget] and
    [100 * (base - final) / base]; each lies between 0 and 100, bounds
    included, when the final price lies between 0 and the budget,
    respectively the base price. *)
Theorem deal_percentages (buyer_agent : BaseBuyerAgent.t) (product : Product)
    (buyer_budget seller_min : Z) (o : Outcome) (fp : Z) :
  0 < buyer_budget < 2 ^ 899 ->
  0 < base_market_price product < 2 ^ 899 ->
  run_negotiation_test buyer_agent product buyer_budget seller_min = Ok o ->
  final_price o = Some fp -> Z.abs fp < 2 ^ 899 ->
  exists x y : Py.float,
    savings_pct o = Py.Float x /\ below_market_pct o = Py.Float y /\
    (Rabs (F2R x - 100 * (IZR (buyer_budget - fp) / IZR buyer_budget))
     <= 3 * u64 * Rabs (100 * (IZR (buyer_budget - fp) / IZR buyer_budget)))%R /\
    (Rabs (F2R y - 100 * (IZR (base_market_price product - fp)
                          / IZR (base_market_price product)))
     <= 3 * u64 * Rabs (100 * (IZR (base_market_price product - fp)
                               / IZR (base_market_price product))))%R /\
    (0 <= fp <= buyer_budget -> (0 <= F2R x <= 100)%R) /\
    (0 <= fp <= base_market_price product -> (0 <= F2R y <= 100)%R).
Proof.
  intros Hb Hp Hrun Hfp Hr.
  assert (H899 : 2 ^ 900 = 2 * 2 ^ 899) by reflexivity.
  assert (Hpos : 0 < 2 ^ 899) by (apply Z.pow_pos_nonneg; lia).
  unfold run_negotiation_test in Hrun.
  apply bind_Ok in Hrun. destruct Hrun as (st & Hloop & Hres).
  destruct (calculate_results_inv _ _ _ _ Hres) as (Hd & Hf & _).
  assert (Hdeal : Locals.deal_made st = true).
  { destruct (negotiation_loop_consistent _ _ _ _ _ Hloop)
      as [(Hdeal & _)|(_ & Hnone)]; [exact Hdeal|congruence]. }
  destruct (calculate_results_percent _ _ _ _ Hres Hdeal) as [Hsp Hbm].
  rewrite <- Hf, Hfp in Hsp, Hbm.
  destruct (percent_below_value buyer_budget fp) as (x & Hx & _ & Hxe & Hxr);
    [lia|lia|].
  destruct (percent_below_value (base_market_price product) fp)
    as (y & Hy & _ & Hye & Hyr); [lia|lia|].
  exists x, y.
  split; [congruence|]. split; [congruence|]. auto.
Qed.

Lemma deal_percentages_witness :
  exists (o : Outcome) (x y : Py.float),
    run_negotiation_test your_agent alphonso 216000 144000 = Ok o /\
    savings_pct o = Py.Float x /\ below_market_pct o = Py.Float y /\
    (0 <= F2R x <= 100)%R /\ (0 <= F2R y <= 100)%R.
Proof.
  assert (H : exists o, run_negotiation_test your_agent alphonso 216000 144000 = Ok o)
    by (eexists; vm_compute; reflexivity).
  destruct H as [o H].
  assert (Hf : final_price o = Some 144000).
  { assert (H' := H). vm_compute in H'. injection H' as <-. reflexivity. }
  destruct (deal_percentages your_agent alphonso 216000 144000 o 144000)
    as (x & y & Hx & Hy & _ & _ & Hxr & Hyr); auto.
  - split; [reflexivity|reflexivity].
  - split; [reflexivity|reflexivity].
  - reflexivity.
  - exists o, x, y. split; [exact H|]. split; [exact Hx|]. split; [exact Hy|].
    split; [apply Hxr; lia|apply Hyr; cbn; lia].
Defined.

(** ** [run_negotiation_test] with [YourBuyerAgent] *)

(** X13.  In a run of the test loop, for a non-negative base price, the
    offers of [YourBuyerAgent] never go down from one round to the next:
    the override for an outrageous price can only apply in round 2, where
    its anchor [int(fair * 0.70)] is not below the opening offer. *)
Theorem your_agent_offers_never_decrease (p : Product) (buyer_budget seller_min : Z)
    (st : Locals.t) :
  0 <= base_market_price p ->
  negotiation_loop your_agent p buyer_budget seller_min = Ok st ->
  Sorted Z.le (your_offers (Locals.context st)).
Proof.
  intros Hbase H.
  set (P := fun (i : nat) (s : Locals.t) =>
              Sorted Z.le (your_offers (Locals.context s)) /\
              ((1 <= i)%nat ->
               0 <= last (your_offers (Locals.context s)) 0
                 <= Locals.seller_price s) /\
              (i = 1%nat ->
               forall fair anchor : Z,
                 YourBuyerAgent.calculate_fair_price p = Ok fair ->
                 Py.int_mul fair Py.c_0_70 = Ok anchor ->
                 last (your_offers (Locals.context s)) 0 <= anchor)).
  assert (Hstep : forall (i : nat) (s : Locals.t) (status : DealStatus)
                         (offer : Z) (bmsg : string),
             loop_head i s -> P i s -> product (Locals.context s) = p ->
             (if Z.of_nat i =? 0
              then BaseBuyerAgent.generate_opening_offer your_agent
                     (set_current_round (Z.of_nat i + 1) (Locals.context s))
                   = Ok (offer, bmsg) /\ status = ONGOING
              else BaseBuyerAgent.respond_to_seller_offer your_agent
                     (set_current_round (Z.of_nat i + 1) (Locals.context s))
                     (Locals.seller_price s) (Locals.seller_msg s)
                   = Ok (status, offer, bmsg)) ->
             Sorted Z.le (your_offers (Locals.context s) ++ [offer]) /\
             0 <= offer /\
             (i = 0%nat ->
              forall fair anchor : Z,
                YourBuyerAgent.calculate_fair_price p = Ok fair ->
                Py.int_mul fair Py.c_0_70 = Ok anchor -> offer <= anchor)).
  { intros i s status offer bmsg Hh (HS & Hlast & Hanchor) Hp Hbuy.
    destruct Hh as (Hr & _ & _ & Hy & _).
    destruct i as [|i].
    - cbn in Hbuy. destruct Hbuy as [Hbuy _].
      apply your_opening_round in Hbuy; [|cbn; rewrite Hp; exact Hbase].
      cbn in Hbuy. rewrite Hp in Hbuy.
      destruct Hbuy as (Ho0 & fair & a58 & floor & Hfair & Ha & _ & Hf0 & Hoa & _).
      destruct (your_offers (Locals.context s)); [|discriminate].
      split; [repeat constructor|]. split; [exact Ho0|].
      intros _ fair' anchor Hfair' Hanc.
      assert (fair' = fair) by congruence. subst fair'.
      pose proof (anchor_58_le_70 fair a58 anchor Hf0 Ha Hanc). lia.
    - replace (Z.of_nat (S i) =? 0) with false in Hbuy by (symmetry; apply Z.eqb_neq; lia).
      assert (Hne : your_offers (Locals.context s) <> []).
      { intros E. rewrite E in Hy. discriminate. }
      apply your_respond_round in Hbuy; [|exact Hne].
      cbn in Hbuy. rewrite Hp in Hbuy.
      destruct Hbuy as (fair & ceiling & Hfair & Hceil & Hbuy).
      destruct (Hlast ltac:(lia)) as [Hl0 Hlsp].
      assert (Hge : last (your_offers (Locals.context s)) 0 <= offer).
      { destruct Hbuy as [(_ & -> & _)|(_ & _ & step & Hs & _ & Hlate & Hearly)];
          [exact Hlsp|].
        destruct i as [|i].
        - apply Hearly. intros anchor Ha.
          apply (Hanchor eq_refl fair); auto.
        - assert (last (your_offers (Locals.context s)) 0 < offer)
            by (apply Hlate; lia).
          lia. }
      split; [apply Sorted_snoc; auto|]. split; [lia|]. intros E. discriminate. }
  assert (Hseller : forall (i : nat) (offer sp : Z) (sm : string) (acc : bool),
             0 <= offer ->
             MockSellerAgent.respond_to_buyer (MockSellerAgent.init seller_min)
               offer (Z.of_nat i) = Ok (sp, sm, acc) ->
             offer <= sp).
  { intros i offer sp sm acc Ho Hs.
    apply (respond_to_buyer_ge_offer _ _ _ _ _ _ Ho Hs). }
  destruct (negotiation_loop_invariant your_agent p buyer_budget seller_min
              P (fun s => Sorted Z.le (your_offers (Locals.context s))) st)
    as [HQ|(HS & _)]; [| | |exact H| |]; try assumption.
  - intros st0 H0. apply opening_state_head in H0.
    destruct H0 as ((_ & _ & _ & Hy & _) & _).
    destruct (your_offers (Locals.context st0)) eqn:E; [|discriminate].
    unfold P. rewrite E. split; [constructor|]. split; intros; lia.
  - intros i s s' Hi Hh HP Hp Hb Hr. apply round_body_inv in Hr.
    destruct Hr as (status & offer & bmsg & Hbuy & Hr).
    destruct (Hstep i s status offer bmsg Hh HP Hp Hbuy) as (HS & Ho0 & Hanc).
    destruct Hr as [(_ & Hx & _)|(_ & Hs)]; [discriminate|].
    destruct Hs as (sp & sm & acc & Hs & [(_ & Hx & _)|(_ & _ & ->)]);
      [discriminate|].
    unfold P. cbn. rewrite last_last.
    split; [exact HS|]. split.
    + intros _. split; [exact Ho0|]. apply (Hseller i offer sp sm acc Ho0 Hs).
    + intros E. apply Hanc. lia.
  - intros i s s' Hi Hh HP Hp Hb Hr. apply round_body_inv in Hr.
    destruct Hr as (status & offer & bmsg & Hbuy & Hr).
    destruct (Hstep i s status offer bmsg Hh HP Hp Hbuy) as (HS & _).
    destruct Hr as [(_ & _ & ->)|(_ & Hs)]; [exact HS|].
    destruct Hs as (sp & sm & acc & _ & [(_ & _ & ->)|(_ & Hx & _)]);
      [exact HS|discriminate].
Qed.

Lemma your_agent_offers_never_decrease_witness :
  exists st : Locals.t,
    negotiation_loop your_agent alphonso 100000 150000 = Ok st /\
    your_offers (Locals.context st)
    = [100000; 100388; 100776; 101164; 101552; 101940; 102328; 102716;
       103104; 103492] /\
    Sorted Z.le (your_offers (Locals.context st)).
Proof.
  assert (H : exists st, negotiation_loop your_agent alphonso 100000 150000 = Ok st)
    by (eexists; vm_compute; reflexivity).
  destruct H as [st H]. exists st. split; [exact H|].
  split.
  - assert (H' := H). vm_compute in H'. injection H' as <-. reflexivity.
  - apply (your_agent_offers_never_decrease alphonso 100000 150000 st);
      [vm_compute; discriminate|exact H].
Defined.

(** X14.  In a run of the test loop with a budget of at least the floor
    [int(base * 0.40)], the offer of round [k + 1] is at most
    [min(budget, int(fair * 0.88))] plus [k] minimal steps
    [max(1, int(fair * 0.002))]; so a final price exceeds the budget by at
    most 9 steps. *)
Theorem your_agent_overshoot (p : Product) (buyer_budget seller_min : Z)
    (st : Locals.t) (fair ceiling step floor : Z) :
  0 <= base_market_price p ->
  YourBuyerAgent.calculate_fair_price p = Ok fair ->
  Py.int_mul fair Py.c_0_88 = Ok ceiling ->
  Py.int_mul fair Py.c_0_002 = Ok step ->
  Py.int_mul (base_market_price p) Py.c_0_40 = Ok floor ->
  floor <= buyer_budget ->
  negotiation_loop your_agent p buyer_budget seller_min = Ok st ->
  (forall (k : nat) (o : Z),
      nth_error (your_offers (Locals.context st)) k = Some o ->
      o <= Z.min buyer_budget ceiling + Z.of_nat k * Z.max 1 step) /\
  (forall fp : Z,
      Locals.final_price st = Some fp -> fp <= buyer_budget + 9 * Z.max 1 step).
Proof.
  intros Hbase Hfair Hceil Hstep Hfloor Hfb H.
  set (mw := Z.min buyer_budget ceiling).
  set (d := Z.max 1 step).
  assert (Hd : 1 <= d) by (unfold d; lia).
  set (B := fun (l : list Z) =>
              forall (k : nat) (o : Z),
                nth_error l k = Some o -> o <= mw + Z.of_nat k * d).
  set (P := fun (i : nat) (s : Locals.t) =>
              B (your_offers (Locals.context s)) /\
              Locals.final_price s = None /\
              ((1 <= i)%nat ->
               last (your_offers (Locals.context s)) 0
                 <= mw + (Z.of_nat i - 1) * d)).
  set (Q := fun (s : Locals.t) =>
              B (your_offers (Locals.context s)) /\
              forall fp : Z, Locals.final_price s = Some fp -> fp <= mw + 9 * d).
  assert (Hbuyer : forall (i : nat) (s : Locals.t) (status : DealStatus)
                          (offer : Z) (bmsg : string),
             loop_head i s -> P i s -> product (Locals.context s) = p ->
             your_budget (Locals.context s) = buyer_budget ->
             (if Z.of_nat i =? 0
              then BaseBuyerAgent.generate_opening_offer your_agent
                     (set_current_round (Z.of_nat i + 1) (Locals.context s))
                   = Ok (offer, bmsg) /\ status = ONGOING
              else BaseBuyerAgent.respond_to_seller_offer your_agent
                     (set_current_round (Z.of_nat i + 1) (Locals.context s))
                     (Locals.seller_price s) (Locals.seller_msg s)
                   = Ok (status, offer, bmsg)) ->
             B (your_offers (Locals.context s) ++ [offer])%list /\
             offer <= mw + Z.of_nat i * d /\
             (status = ACCEPTED -> Locals.seller_price s <= mw)).
  { intros i s status offer bmsg Hh (HB & _ & Hlast) Hp Hb Hbuy.
    destruct Hh as (_ & _ & _ & Hy & _).
    assert (Ho : offer <= mw + Z.of_nat i * d /\
                 (status = ACCEPTED -> Locals.seller_price s <= mw)).
    { destruct i as [|i].
      - cbn in Hbuy. destruct Hbuy as [Hbuy ->].
        apply your_opening_round in Hbuy; [|cbn; rewrite Hp; exact Hbase].
        cbn in Hbuy. rewrite Hp, Hb in Hbuy.
        destruct Hbuy as (_ & fair' & a58 & floor' & Hfair' & Ha & Hfl & Hf0 & _ & Hmin).
        assert (fair' = fair) by congruence. subst fair'.
        assert (floor' = floor) by congruence. subst floor'.
        pose proof (anchor_58_le_88 fair a58 ceiling Hf0 Ha Hceil).
        rewrite (Hmin Hfb). split; [unfold mw; lia|discriminate].
      - replace (Z.of_nat (S i) =? 0) with false in Hbuy
          by (symmetry; apply Z.eqb_neq; lia).
        assert (Hne : your_offers (Locals.context s) <> []).
        { intros E. rewrite E in Hy. discriminate. }
        apply your_respond_round in Hbuy; [|exact Hne].
        cbn in Hbuy. rewrite Hp, Hb in Hbuy.
        destruct Hbuy as (fair' & ceiling' & Hfair' & Hceil' & Hbuy).
        assert (fair' = fair) by congruence. subst fair'.
        assert (ceiling' = ceiling) by congruence. subst ceiling'.
        specialize (Hlast ltac:(lia)).
        destruct Hbuy as [(-> & -> & Hle)|(-> & _ & step' & Hs' & Hle & _)].
        + fold mw in Hle. split; [nia|auto].
        + assert (step' = step) by congruence. subst step'.
          fold mw d in Hle. split; [nia|discriminate]. }
    split; [|exact Ho].
    intros k o Hk. apply nth_error_snoc in Hk.
    destruct Hk as [Hk|[-> ->]]; [apply HB; exact Hk|].
    rewrite Hy. apply Ho. }
  destruct (negotiation_loop_invariant your_agent p buyer_budget seller_min
              P Q st) as [(HB & HF)|(HB & HF & _)]; [| | |exact H| |].
  - intros st0 H0. apply opening_state_head in H0.
    destruct H0 as ((_ & _ & Hf & Hy & _) & _).
    destruct (your_offers (Locals.context st0)) eqn:E; [|discriminate].
    unfold P, B. rewrite E. split; [|split; [exact Hf|lia]].
    intros [|k] o Hk; discriminate.
  - intros i s s' Hi Hh HP Hp Hb Hr. apply round_body_inv in Hr.
    destruct Hr as (status & offer & bmsg & Hbuy & Hr).
    destruct (Hbuyer i s status offer bmsg Hh HP Hp Hb Hbuy) as (HB & Ho & _).
    destruct HP as (_ & Hnone & _).
    destruct Hr as [(_ & Hx & _)|(_ & Hs)]; [discriminate|].
    destruct Hs as (sp & sm & acc & Hs & [(_ & Hx & _)|(_ & _ & ->)]);
      [discriminate|].
    unfold P.
    cbn [Locals.context Locals.final_price your_offers append_message
         append_seller_offer append_your_offer set_current_round].
    rewrite last_last.
    split; [exact HB|]. split; [exact Hnone|]. intros _.
    replace (Z.of_nat (S i) - 1) with (Z.of_nat i) by lia. exact Ho.
  - intros i s s' Hi Hh HP Hp Hb Hr. apply round_body_inv in Hr.
    destruct Hr as (status & offer & bmsg & Hbuy & Hr).
    destruct (Hbuyer i s status offer bmsg Hh HP Hp Hb Hbuy) as (HB & Ho & Hacc).
    destruct Hr as [(-> & _ & ->)|(_ & Hs)].
    + split; [exact HB|]. cbn [Locals.final_price]. intros fp E.
      injection E as <-. specialize (Hacc eq_refl). lia.
    + destruct Hs as (sp & sm & acc & _ & [(_ & _ & ->)|(_ & Hx & _)]);
        [|discriminate].
      split; [exact HB|]. cbn [Locals.final_price]. intros fp E.
      injection E as <-. nia.
  - split; [exact HB|]. intros fp E. specialize (HF fp E). unfold mw in HF. lia.
  - split; [exact HB|]. intros fp E. congruence.
Qed.

Lemma your_agent_overshoot_witness :
  exists st : Locals.t,
    negotiation_loop your_agent alphonso 100000 150000 = Ok st /\
    nth_error (your_offers (Locals.context st)) 9 = Some 103492 /\
    103492 <= Z.min 100000 171072 + Z.of_nat 9 * Z.max 1 388.
Proof.
  assert (H : exists st, negotiation_loop your_agent alphonso 100000 150000 = Ok st)
    by (eexists; vm_compute; reflexivity).
  destruct H as [st H]. exists st. split; [exact H|].
  assert (Hn : nth_error (your_offers (Locals.context st)) 9 = Some 103492).
  { assert (H' := H). vm_compute in H'. injection H' as <-. reflexivity. }
  split; [exact Hn|].
  assert (Hb : 0 <= base_market_price alphonso) by (vm_compute; discriminate).
  assert (Hf : 72000 <= 100000) by lia.
  destruct (your_agent_overshoot alphonso 100000 150000 st 194400 171072 388 72000
              Hb eq_refl eq_refl eq_refl eq_refl Hf H) as [Hk _].
  apply (Hk 9%nat 103492 Hn).
Defined.

(** X15.  For a grade-B product without the origin premium, with an ASCII
    grade, origin and name, of base price from 1000 up to 2^900,
    [YourBuyerAgent] closes no deal with a seller whose minimum is at least
    79.8% of the base price, whatever the budget: the run returns after 10
    rounds, without a final price and with savings 0. *)
Theorem grade_b_never_closes (p : Product) (buyer_budget seller_min : Z) :
  1000 <= base_market_price p < 2 ^ 900 ->
  ascii_fields p = true ->
  Py.lower (Py.strip (quality_grade p)) = "b" ->
  has_premium p = false ->
  798 * base_market_price p <= 1000 * seller_min ->
  seller_min < 2 ^ 900 ->
  exists o : Outcome,
    run_negotiation_test your_agent p buyer_budget seller_min = Ok o /\
    deal_made o = false /\ final_price o = None /\ rounds o = 10 /\
    savings o = 0.
Proof.
  intros Hb _ Hg Hp Hm Hm'. fold range_bound in Hb, Hm'.
  apply grade_b_no_deal_run; auto.
  - unfold is_export. rewrite Hg. reflexivity.
  - unfold is_grade_b. rewrite Hg. reflexivity.
Qed.

Lemma grade_b_never_closes_witness :
  exists o : Outcome,
    run_negotiation_test your_agent kesar 150000 122999 = Ok o /\
    deal_made o = false /\ final_price o = None /\ rounds o = 10 /\
    savings o = 0.
Proof.
  apply (grade_b_never_closes kesar 150000 122999).
  - split; [vm_compute; discriminate|vm_compute; reflexivity].
  - reflexivity.
  - reflexivity.
  - reflexivity.
  - vm_compute. discriminate.
  - vm_compute. reflexivity.
Defined.

(** X16.  In a run of the test loop, for a base price of at least 1000,
    [YourBuyerAgent] never bids above the price the seller is asking: the
    offer of round [k + 1] is at most the seller's offer number [k], the one
    it answers. *)
Theorem your_agent_bids_below_asks (p : Product) (buyer_budget seller_min : Z)
    (st : Locals.t) :
  1000 <= base_market_price p ->
  negotiation_loop your_agent p buyer_budget seller_min = Ok st ->
  bids_below_asks (your_offers (Locals.context st))
    (seller_offers (Locals.context st)).
Proof.
  intros Hbase H.
  set (P := fun (i : nat) (s : Locals.t) =>
              bids_below_asks (your_offers (Locals.context s))
                (seller_offers (Locals.context s)) /\
              (i = 0%nat ->
               Py.int_mul (base_market_price p) Py.c_1_5
               = Ok (Locals.seller_price s)) /\
              ((1 <= i)%nat ->
               exists floor : Z,
                 Py.int_mul (base_market_price p) Py.c_0_40 = Ok floor /\
                 floor <= last (your_offers (Locals.context s)) 0 /\
                 forall fair step : Z,
                   YourBuyerAgent.calculate_fair_price p = Ok fair ->
                   Py.int_mul fair Py.c_0_002 = Ok step ->
                   last (your_offers (Locals.context s)) 0 + Z.max 1 step
                   < Locals.seller_price s) /\
              (i = 1%nat ->
               forall fair anchor : Z,
                 YourBuyerAgent.calculate_fair_price p = Ok fair ->
                 Py.int_mul fair Py.c_0_70 = Ok anchor ->
                 last (your_offers (Locals.context s)) 0 <= anchor)).
  assert (Hstep : forall (i : nat) (s : Locals.t) (status : DealStatus)
                         (offer : Z) (bmsg : string),
             loop_head i s -> P i s -> product (Locals.context s) = p ->
             (if Z.of_nat i =? 0
              then BaseBuyerAgent.generate_opening_offer your_agent
                     (set_current_round (Z.of_nat i + 1) (Locals.context s))
                   = Ok (offer, bmsg) /\ status = ONGOING
              else BaseBuyerAgent.respond_to_seller_offer your_agent
                     (set_current_round (Z.of_nat i + 1) (Locals.context s))
                     (Locals.seller_price s) (Locals.seller_msg s)
                   = Ok (status, offer, bmsg)) ->
             offer <= Locals.seller_price s /\
             (status <> ACCEPTED ->
              exists floor : Z,
                Py.int_mul (base_market_price p) Py.c_0_40 = Ok floor /\
                floor <= offer) /\
             (i = 0%nat ->
              forall fair anchor : Z,
                YourBuyerAgent.calculate_fair_price p = Ok fair ->
                Py.int_mul fair Py.c_0_70 = Ok anchor -> offer <= anchor)).
  { intros i s status offer bmsg Hh (_ & Hask & Hlast & Hanchor) Hp Hbuy.
    destruct Hh as (Hr & _ & _ & Hy & _).
    destruct i as [|i].
    - cbn in Hbuy. destruct Hbuy as [Hbuy _].
      specialize (Hask eq_refl).
      assert (Hopen : offer < Locals.seller_price s /\
                      exists floor : Z,
                        Py.int_mul (base_market_price p) Py.c_0_40 = Ok floor /\
                        floor <= offer).
      { pose proof (your_opening_below_ask
                      (set_current_round 1 (Locals.context s)) offer
                      (Locals.seller_price s) bmsg) as Ho.
        cbn in Ho. rewrite Hp in Ho. apply Ho; [lia|exact Hbuy|exact Hask]. }
      destruct Hopen as (Hlt & floor & Hfl & Hle).
      split; [lia|]. split; [intros _; exists floor; auto|].
      intros _ fair anchor Hfair Hanc.
      apply your_opening_round in Hbuy; [|cbn; rewrite Hp; lia].
      cbn in Hbuy. rewrite Hp in Hbuy.
      destruct Hbuy as (_ & fair' & a58 & _ & Hfair' & Ha & _ & Hf0 & Hoa & _).
      assert (fair' = fair) by congruence. subst fair'.
      pose proof (anchor_58_le_70 fair a58 anchor Hf0 Ha Hanc). lia.
    - replace (Z.of_nat (S i) =? 0) with false in Hbuy
        by (symmetry; apply Z.eqb_neq; lia).
      assert (Hne : your_offers (Locals.context s) <> []).
      { intros E. rewrite E in Hy. discriminate. }
      apply your_respond_round in Hbuy; [|exact Hne].
      cbn in Hbuy. rewrite Hp in Hbuy.
      destruct Hbuy as (fair & ceiling & Hfair & Hceil & Hbuy).
      destruct (Hlast ltac:(lia)) as (floor & Hfl & Hle & Hroom).
      destruct Hbuy as [(-> & -> & _)|(_ & Hlt & step & Hs & Hup & Hlate & Hearly)].
      + split; [lia|]. split; [intros E; congruence|intros E; discriminate].
      + specialize (Hroom fair step Hfair Hs).
        split; [lia|]. split; [|intros E; discriminate].
        intros _. exists floor. split; [exact Hfl|].
        destruct i as [|i].
        * assert (last (your_offers (Locals.context s)) 0 <= offer);
            [|lia].
          apply Hearly. intros anchor Ha.
          apply (Hanchor eq_refl fair); auto.
        * assert (last (your_offers (Locals.context s)) 0 < offer)
            by (apply Hlate; lia).
          lia. }
  destruct (negotiation_loop_invariant your_agent p buyer_budget seller_min
              P (fun s => bids_below_asks (your_offers (Locals.context s))
                            (seller_offers (Locals.context s))) st)
    as [HQ|(HS & _)]; [| | |exact H| |]; try assumption.
  - intros st0 H0. unfold opening_state in H0.
    apply bind_Ok in H0. destruct H0 as ([sp sm] & Hopen & H0).
    injection H0 as <-. unfold MockSellerAgent.get_opening_price in Hopen.
    apply bind_Ok in Hopen. destruct Hopen as (ask & Hask & Hopen).
    injection Hopen as <- _. unfold P. cbn.
    split; [intros [|k] b a Hk; discriminate|].
    split; [intros _; exact Hask|]. split; intros; lia.
  - intros i s s' Hi Hh HP Hp Hb Hr. apply round_body_inv in Hr.
    destruct Hr as (status & offer & bmsg & Hbuy & Hr).
    destruct (Hstep i s status offer bmsg Hh HP Hp Hbuy)
      as (Hle & Hfloor & Hanc).
    destruct HP as (Hbelow & _).
    destruct Hh as (_ & _ & _ & Hy & Hso & Hsp & _).
    destruct Hr as [(_ & Hx & _)|(Hna & Hs)]; [discriminate|].
    destruct (Hfloor Hna) as (floor & Hfl & Hfo).
    destruct Hs as (sp & sm & acc & Hs & [(_ & Hx & _)|(-> & _ & ->)]);
      [discriminate|].
    unfold P. cbn. rewrite last_last.
    split; [apply bids_below_asks_round; [exact Hbelow|lia|lia]|].
    split; [intros E; discriminate|].
    split.
    + intros _. exists floor. split; [exact Hfl|]. split; [exact Hfo|].
      intros fair step Hfair Hst.
      apply (seller_counter_above_step _ p offer (Z.of_nat i) sp sm fair step
               floor Hbase Hfair Hst Hfl Hfo Hs).
    + intros E. apply Hanc. lia.
  - intros i s s' Hi Hh HP Hp Hb Hr. apply round_body_inv in Hr.
    destruct Hr as (status & offer & bmsg & Hbuy & Hr).
    destruct (Hstep i s status offer bmsg Hh HP Hp Hbuy) as (Hle & _).
    destruct HP as (Hbelow & _).
    destruct Hh as (_ & _ & _ & Hy & Hso & Hsp & _).
    destruct Hr as [(_ & _ & ->)|(_ & Hs)].
    + cbn. apply bids_below_asks_bid; [exact Hbelow|lia|lia].
    + destruct Hs as (sp & sm & acc & _ & [(_ & _ & ->)|(_ & Hx & _)]);
        [|discriminate].
      cbn. apply bids_below_asks_bid; [exact Hbelow|lia|lia].
Qed.

Lemma your_agent_bids_below_asks_witness :
  exists st : Locals.t,
    negotiation_loop your_agent kesar 150000 122999 = Ok st /\
    your_offers (Locals.context st)
    = [78300; 98399; 103318; 110550; 118288; 118800; 119070; 119340;
       119610; 119880] /\
    seller_offers (Locals.context st)
    = [225000; 122999; 122999; 122999; 127132; 136031; 136620; 136930;
       137241; 125590; 125874] /\
    bids_below_asks (your_offers (Locals.context st))
      (seller_offers (Locals.context st)).
Proof.
  assert (H : exists st, negotiation_loop your_agent kesar 150000 122999 = Ok st)
    by (eexists; vm_compute; reflexivity).
  destruct H as [st H]. exists st. split; [exact H|].
  split; [|split].
  - assert (H' := H). vm_compute in H'. injection H' as <-. reflexivity.
  - assert (H' := H). vm_compute in H'. injection H' as <-. reflexivity.
  - apply (your_agent_bids_below_asks kesar 150000 122999 st);
      [vm_compute; discriminate|exact H].
Defined.

(** The bound on the base price is needed: with a base price of 10, a
    budget of 3 and a seller minimum of 4, the bid of round 2 is 5 against
    an ask of 4. *)
Lemma bid_above_ask_small_base :
  exists st : Locals.t,
    negotiation_loop your_agent
      {| name := "Kesar Mangoes"; category := "Mangoes"; quantity := 150;
         quality_grade := "B"; origin := "Gujarat"; base_market_price := 10;
         attributes := [] |} 3 4 = Ok st /\
    your_offers (Locals.context st) = [4; 5] /\
    seller_offers (Locals.context st) = [15; 4] /\
    Locals.final_price st = Some 5.
Proof. eexists. split; [vm_compute; reflexivity|repeat split]. Qed.

(** ** [run_negotiation_test] with [ExampleSimpleAgent] *)

(** X17.  In a run of the test loop every offer of [ExampleSimpleAgent] is
    within the budget, the savings are never negative, and the final price
    of a deal is at most the budget. *)
Theorem example_agent_run_within_budget (agent_name : string)
    (product : Product) (buyer_budget seller_min : Z) (o : Outcome) :
  run_negotiation_test (ExampleSimpleAgent.agent agent_name) product
    buyer_budget seller_min = Ok o ->
  exists st : Locals.t,
    negotiation_loop (ExampleSimpleAgent.agent agent_name) product
      buyer_budget seller_min = Ok st /\
    Forall (fun x : Z => x <= buyer_budget) (your_offers (Locals.context st)) /\
    0 <= savings o /\
    (deal_made o = true ->
     exists fp : Z,
       final_price o = Some fp /\ fp <= buyer_budget /\
       savings o = buyer_budget - fp).
Proof.
  unfold run_negotiation_test. intros H.
  apply bind_Ok in H. destruct H as (st & Hloop & Hres).
  exists st. split; [exact Hloop|].
  destruct (example_loop_within_budget _ _ _ _ _ Hloop) as [HF Hfp].
  split; [exact HF|].
  destruct (calculate_results_inv _ _ _ _ Hres) as (Hd & Hf & _ & _ & Hs0 & Hs1).
  pose proof (negotiation_loop_consistent _ _ _ _ _ Hloop) as Hc.
  destruct Hc as [(Hdeal & fp & Hfin)|(Hdeal & Hfin)].
  - specialize (Hs1 fp Hdeal Hfin). specialize (Hfp fp Hfin).
    split; [lia|]. intros _. exists fp. rewrite Hf. auto.
  - rewrite (Hs0 Hdeal). split; [lia|]. rewrite Hd, Hdeal. discriminate.
Qed.

Lemma example_agent_run_within_budget_witness :
  exists o : Outcome,
    run_negotiation_test (ExampleSimpleAgent.agent "ExampleBuyer") kesar
      150000 127500 = Ok o /\
    0 <= savings o.
Proof.
  assert (H : exists o,
             run_negotiation_test (ExampleSimpleAgent.agent "ExampleBuyer") kesar
               150000 127500 = Ok o) by (eexists; vm_compute; reflexivity).
  destruct H as [o H]. exists o. split; [exact H|].
  destruct (example_agent_run_within_budget _ _ _ _ _ H) as (st & _ & _ & Hs & _).
  exact Hs.
Defined.

(** X18.  In a run of the test loop [ExampleSimpleAgent] never bids above
    the price the seller is asking, for a non-negative base price, a seller
    minimum from 0 up to 2^900 and a budget below 2^899. *)
Theorem example_agent_bids_below_asks (agent_name : string) (p : Product)
    (buyer_budget seller_min : Z) (st : Locals.t) :
  0 <= base_market_price p ->
  0 <= seller_min < 2 ^ 900 ->
  buyer_budget < 2 ^ 899 ->
  negotiation_loop (ExampleSimpleAgent.agent agent_name) p buyer_budget
    seller_min = Ok st ->
  bids_below_asks (your_offers (Locals.context st))
    (seller_offers (Locals.context st)).
Proof.
  intros Hbase Hmin Hbud H.
  set (P := fun (i : nat) (s : Locals.t) =>
              bids_below_asks (your_offers (Locals.context s))
                (seller_offers (Locals.context s)) /\
              (i = 0%nat ->
               Py.int_mul (base_market_price p) Py.c_1_5
               = Ok (Locals.seller_price s)) /\
              ((1 <= i)%nat -> 0 <= Locals.seller_price s < 2 ^ 900)).
  assert (Hstep : forall (i : nat) (s : Locals.t) (status : DealStatus)
                         (offer : Z) (bmsg : string),
             P i s -> product (Locals.context s) = p ->
             your_budget (Locals.context s) = buyer_budget ->
             (if Z.of_nat i =? 0
              then BaseBuyerAgent.generate_opening_offer
                     (ExampleSimpleAgent.agent agent_name)
                     (set_current_round (Z.of_nat i + 1) (Locals.context s))
                   = Ok (offer, bmsg) /\ status = ONGOING
              else BaseBuyerAgent.respond_to_seller_offer
                     (ExampleSimpleAgent.agent agent_name)
                     (set_current_round (Z.of_nat i + 1) (Locals.context s))
                     (Locals.seller_price s) (Locals.seller_msg s)
                   = Ok (status, offer, bmsg)) ->
             offer <= Locals.seller_price s /\ offer <= buyer_budget).
  { intros i s status offer bmsg (_ & Hask & Hrange) Hp Hb Hbuy.
    destruct i as [|i].
    - cbn in Hbuy. destruct Hbuy as [Hbuy _].
      apply example_opening_le_budget in Hbuy. cbn in Hbuy.
      rewrite Hp, Hb in Hbuy. destruct Hbuy as (opening & Ho & ->).
      pose proof (example_opening_below_ask _ _ _ Hbase Ho (Hask eq_refl)).
      lia.
    - replace (Z.of_nat (S i) =? 0) with false in Hbuy
        by (symmetry; apply Z.eqb_neq; lia).
      cbn in Hbuy. apply example_respond_below_ask in Hbuy; [|apply Hrange; lia].
      cbn in Hbuy. rewrite Hb in Hbuy. exact Hbuy. }
  destruct (negotiation_loop_invariant (ExampleSimpleAgent.agent agent_name)
              p buyer_budget seller_min
              P (fun s => bids_below_asks (your_offers (Locals.context s))
                            (seller_offers (Locals.context s))) st)
    as [HQ|(HS & _)]; [| | |exact H| |]; try assumption.
  - intros st0 H0. unfold opening_state in H0.
    apply bind_Ok in H0. destruct H0 as ([sp sm] & Hopen & H0).
    injection H0 as <-. unfold MockSellerAgent.get_opening_price in Hopen.
    apply bind_Ok in Hopen. destruct Hopen as (ask & Hask & Hopen).
    injection Hopen as <- _. unfold P. cbn.
    split; [intros [|k] b a Hk; discriminate|].
    split; [intros _; exact Hask|]. intros; lia.
  - intros i s s' Hi Hh HP Hp Hb Hr. apply round_body_inv in Hr.
    destruct Hr as (status & offer & bmsg & Hbuy & Hr).
    destruct (Hstep i s status offer bmsg HP Hp Hb Hbuy) as (Hle & Hlb).
    destruct HP as (Hbelow & _).
    destruct Hh as (_ & _ & _ & Hy & Hso & Hsp & _).
    destruct Hr as [(_ & Hx & _)|(_ & Hs)]; [discriminate|].
    destruct Hs as (sp & sm & acc & Hs & [(_ & Hx & _)|(-> & _ & ->)]);
      [discriminate|].
    unfold P. cbn.
    split; [apply bids_below_asks_round; [exact Hbelow|lia|lia]|].
    split; [intros E; discriminate|].
    intros _.
    apply (seller_counter_range seller_min offer (Z.of_nat i) sp sm Hmin);
      [lia|exact Hs].
  - intros i s s' Hi Hh HP Hp Hb Hr. apply round_body_inv in Hr.
    destruct Hr as (status & offer & bmsg & Hbuy & Hr).
    destruct (Hstep i s status offer bmsg HP Hp Hb Hbuy) as (Hle & _).
    destruct HP as (Hbelow & _).
    destruct Hh as (_ & _ & _ & Hy & Hso & Hsp & _).
    destruct Hr as [(_ & _ & ->)|(_ & Hs)].
    + cbn. apply bids_below_asks_bid; [exact Hbelow|lia|lia].
    + destruct Hs as (sp & sm & acc & _ & [(_ & _ & ->)|(_ & Hx & _)]);
        [|discriminate].
      cbn. apply bids_below_asks_bid; [exact Hbelow|lia|lia].
Qed.

Lemma example_agent_bids_below_asks_witness :
  exists st : Locals.t,
    negotiation_loop (ExampleSimpleAgent.agent "ExampleBuyer") kesar 150000
      140000 = Ok st /\
    your_offers (Locals.context st)
    = [90000; 99000; 108900; 119790; 131769; 150000; 150000; 150000;
       150000; 150000] /\
    seller_offers (Locals.context st)
    = [225000; 140000; 140000; 140000; 140000; 151534; 172500; 172500;
       172500; 157500; 157500] /\
    bids_below_asks (your_offers (Locals.context st))
      (seller_offers (Locals.context st)).
Proof.
  assert (H : exists st,
             negotiation_loop (ExampleSimpleAgent.agent "ExampleBuyer") kesar
               150000 140000 = Ok st)
    by (eexists; vm_compute; reflexivity).
  destruct H as [st H]. exists st. split; [exact H|].
  split; [|split].
  - assert (H' := H). vm_compute in H'. injection H' as <-. reflexivity.
  - assert (H' := H). vm_compute in H'. injection H' as <-. reflexivity.
  - apply (example_agent_bids_below_asks "ExampleBuyer" kesar 150000 140000 st);
      [vm_compute; discriminate
      |split; [vm_compute; discriminate|vm_compute; reflexivity]
      |vm_compute; reflexivity|exact H].
Defined.

(** ** The scenarios of [test_your_agent] *)

(** X19.  For a product with an ASCII grade, origin and name, whose grade
    is not "b" (after strip and lower) or which has the origin premium (a
    Ratnagiri Alphonso), of base price from 1000 up to 2^900, each of the
    three scenarios ends, with [YourBuyerAgent], in a deal in round 2 at the
    seller's minimum of the scenario; the savings are the budget of the
    scenario less that minimum. *)
Theorem your_agent_scenarios (s : scenario) (p : Product) :
  1000 <= base_market_price p < 2 ^ 900 ->
  ascii_fields p = true ->
  Py.lower (Py.strip (quality_grade p)) <> "b" \/ has_premium p = true ->
  exists (buyer_budget seller_min : Z) (o : Outcome),
    scenario_budget s p = Ok buyer_budget /\
    scenario_seller_min s p = Ok seller_min /\
    run_scenario your_agent s p = Ok o /\
    deal_made o = true /\ rounds o = 2 /\
    final_price o = Some seller_min /\
    savings o = buyer_budget - seller_min /\ 0 <= savings o.
Proof.
  intros Hb _ Hkind. fold range_bound in Hb.
  assert (Hk : is_grade_b p = false \/ has_premium p = true).
  { destruct Hkind as [Hg|Hp]; [left|right; exact Hp].
    apply String.eqb_neq. exact Hg. }
  destruct (scenario_inputs s p Hb) as (B & M & HB & HM & Hle & Hlo & Hhi & _).
  destruct (your_agent_closes p B M Hb Hle Hk Hlo Hhi)
    as (o & Ho & Hd & Hf & Hr & Hs).
  exists B, M, o. unfold run_scenario. rewrite HB, HM. cbn [bind].
  repeat (split; [first [reflexivity|assumption]|]). lia.
Qed.

Lemma your_agent_scenarios_witness :
  exists o : Outcome,
    run_scenario your_agent easy alphonso = Ok o /\
    deal_made o = true /\ rounds o = 2 /\ final_price o = Some 144000 /\
    savings o = 72000.
Proof.
  destruct (your_agent_scenarios easy alphonso)
    as (B & M & o & HB & HM & Ho & Hd & Hr & Hf & Hs & _).
  - split; [vm_compute; discriminate|vm_compute; reflexivity].
  - reflexivity.
  - left. intros E. vm_compute in E. discriminate.
  - vm_compute in HB. injection HB as <-.
    vm_compute in HM. injection HM as <-.
    exists o. auto.
Defined.

(** X20.  For a grade-B product without the origin premium, with an ASCII
    grade, origin and name, of base price from 1000 up to 2^900, none of
    the three scenarios ends in a deal with [YourBuyerAgent]: 10 rounds, no
    final price, savings 0. *)
Theorem grade_b_scenarios (s : scenario) (p : Product) :
  1000 <= base_market_price p < 2 ^ 900 ->
  ascii_fields p = true ->
  Py.lower (Py.strip (quality_grade p)) = "b" ->
  has_premium p = false ->
  exists o : Outcome,
    run_scenario your_agent s p = Ok o /\
    deal_made o = false /\ final_price o = None /\ rounds o = 10 /\
    savings o = 0.
Proof.
  intros Hb _ Hg Hp. fold range_bound in Hb.
  destruct (scenario_inputs s p Hb) as (B & M & HB & HM & _ & Hlo & Hhi & _).
  unfold run_scenario. rewrite HB, HM. cbn [bind].
  apply grade_b_no_deal_run; auto; try lia.
  - unfold is_export. rewrite Hg. reflexivity.
  - unfold is_grade_b. rewrite Hg. reflexivity.
Qed.

Lemma grade_b_scenarios_witness :
  exists o : Outcome,
    run_scenario your_agent hard kesar = Ok o /\
    deal_made o = false /\ final_price o = None /\ rounds o = 10 /\
    savings o = 0.
Proof.
  apply (grade_b_scenarios hard kesar).
  - split; [vm_compute; discriminate|vm_compute; reflexivity].
  - reflexivity.
  - reflexivity.
  - reflexivity.
Defined.

(** X21.  For every product of base price from 1000 up to 2^900, whatever
    its grade, each of the three scenarios ends, with [ExampleSimpleAgent],
    in a deal in round 2 at the seller's minimum of the scenario. *)
Theorem example_agent_scenarios (agent_name : string) (s : scenario)
    (p : Product) :
  1000 <= base_market_price p < 2 ^ 900 ->
  exists (buyer_budget seller_min : Z) (o : Outcome),
    scenario_budget s p = Ok buyer_budget /\
    scenario_seller_min s p = Ok seller_min /\
    run_scenario (ExampleSimpleAgent.agent agent_name) s p = Ok o /\
    deal_made o = true /\ rounds o = 2 /\
    final_price o = Some seller_min /\
    savings o = buyer_budget - seller_min /\ 0 <= savings o.
Proof.
  intros Hb. fold range_bound in Hb.
  destruct (scenario_inputs s p Hb) as (B & M & HB & HM & Hle & Hlo & _ & Hhi).
  destruct (example_agent_closes p B M Hb Hle agent_name)
    as (o & Ho & Hd & Hf & Hr & Hs); [lia|exact Hhi|].
  exists B, M, o. unfold run_scenario. rewrite HB, HM. cbn [bind].
  repeat (split; [first [reflexivity|assumption]|]). lia.
Qed.

Lemma example_agent_scenarios_witness :
  exists o : Outcome,
    run_scenario (ExampleSimpleAgent.agent "ExampleBuyer") medium kesar = Ok o /\
    deal_made o = true /\ rounds o = 2 /\ final_price o = Some 127500 /\
    savings o = 22500.
Proof.
  destruct (example_agent_scenarios "ExampleBuyer" medium kesar)
    as (B & M & o & HB & HM & Ho & Hd & Hr & Hf & Hs & _).
  - split; [vm_compute; discriminate|vm_compute; reflexivity].
  - vm_compute in HB. injection HB as <-.
    vm_compute in HM. injection HM as <-.
    exists o. auto.
Defined.
